(** * iro-game: the session engine of the party games, embedded and verified

    The development follows the TypeScript sources: the services
    ([gameService], [werewolfService], [roomService]) and the handlers of
    the four game components.  Part I holds the embedding, Part II the
    theorems. *)

From Stdlib Require Import ZArith NArith.
From stdpp Require Import base strings list gmap sorting.

Local Open Scope Z_scope.

(** * Part I: the embedding *)

(** ** JavaScript values the handlers compute with *)

Module Js.

(** Free text (answers, guesses, topics) is a sequence of UTF-16 code units. *)
Definition jsstring := list N.

(** An ASCII literal as such a sequence. *)
Definition of_string (s : string) : jsstring :=
  Ascii.N_of_ascii <$> String.list_ascii_of_string s.

(** The code units [String.prototype.trim] strips: WhiteSpace and
    LineTerminator of ECMAScript. *)
Definition isWhiteSpace (c : N) : bool :=
  existsb (N.eqb c)
    [9; 10; 11; 12; 13; 32; 160; 5760; 8192; 8193; 8194; 8195; 8196; 8197;
     8198; 8199; 8200; 8201; 8202; 8232; 8233; 8239; 8287; 12288; 65279]%N.

Fixpoint trimStart (s : jsstring) : jsstring :=
  match s with
  | [] => []
  | c :: s' => if isWhiteSpace c then trimStart s' else s
  end.

Definition trimEnd (s : jsstring) : jsstring := rev (trimStart (rev s)).

Definition trim (s : jsstring) : jsstring := trimEnd (trimStart s).

(** [!s] on a string: true exactly on the empty string. *)
Definition falsy (s : jsstring) : bool :=
  match s with [] => true | _ => false end.

Section Collections.
Context {A : Type} `{EqDecision A}.

(** [new Set(l)]: insertion order, the first occurrence of a value stays. *)
Definition Set_add (s : list A) (x : A) : list A :=
  if decide (x ∈ s) then s else s ++ [x].

Definition new_Set (l : list A) : list A := fold_left Set_add l [].

(** [l.indexOf(x)]: the first index holding [x], or [-1]. *)
Fixpoint indexOf (l : list A) (x : A) : Z :=
  match l with
  | [] => -1
  | y :: l' =>
      if decide (y = x) then 0
      else let r := indexOf l' x in if r <? 0 then -1 else 1 + r
  end.

(** [l.filter((x, index) => p x index)], the elements met from index [i] on. *)
Fixpoint filter_from (p : A → Z → bool) (i : Z) (l : list A) : list A :=
  match l with
  | [] => []
  | x :: l' =>
      if p x i then x :: filter_from p (i + 1) l' else filter_from p (i + 1) l'
  end.

Definition filter_index (p : A → Z → bool) (l : list A) : list A :=
  filter_from p 0 l.

End Collections.

(** A plain object used as a dictionary.  Its keys here are participant
    ids (uuids), never array indices, so enumeration order is insertion
    order. *)
Module Obj.

Definition t (V : Type) := list (string * V).

Definition empty {V} : t V := [].

Fixpoint get {V} (o : t V) (k : string) : option V :=
  match o with
  | [] => None
  | (k', v) :: o' => if decide (k' = k) then Some v else get o' k
  end.

(** [{...o, [k]: v}] *)
Fixpoint set {V} (o : t V) (k : string) (v : V) : t V :=
  match o with
  | [] => [(k, v)]
  | (k', v') :: o' =>
      if decide (k' = k) then (k', v) :: o' else (k', v') :: set o' k v
  end.

Definition keys {V} (o : t V) : list string := fst <$> o.

Definition values {V} (o : t V) : list V := snd <$> o.

(** [rows.reduce((acc, r) => ({...acc, [key r]: val r}), {})] *)
Definition of_rows {R V} (key : R → string) (val : R → V) (rows : list R) : t V :=
  fold_left (λ acc r, set acc (key r) (val r)) rows empty.

End Obj.

End Js.

(** ** The Supabase client, as the services use it *)

Module Supabase.

(** A value thrown or carried as the [error] of a response.
    [instanceofError] is what [error instanceof Error] gives for it: the
    services test it before they read [message]. *)
Record Error := { message : string; instanceofError : bool }.

(** [new Error(message)] *)
Definition new_Error (message : string) : Error :=
  {| message := message; instanceofError := true |}.

(** The [error] object of a response that the client library builds from
    the answer of the store ([{ message, details, hint, code }]): an
    object literal, no instance of [Error]. *)
Definition PostgrestError (message : string) : Error :=
  {| message := message; instanceofError := false |}.

(** [error instanceof Error ? error.message : 'Unknown error'] *)
Definition message_or_unknown (error : Error) : string :=
  if instanceofError error then message error else "Unknown error".

(** One request to the store: how the transport fares, and the column
    defaults ([gen_random_uuid()], [now()]) the store fills in if it
    inserts a row. *)
Inductive Net :=
  | Reached
  | Failed (e : Error)
  | Rejected (e : Error).

Record Request := { net : Net; uuid : string; clock : Z }.

(** What a request that does not reach the store is answered with: the
    [error] of the response, or the exception of the transport. *)
Definition unreached (rq : Request) (e : Error) : Prop :=
  net rq = Failed e ∨ net rq = Rejected e.

(** The [{ data, error }] object a query resolves to. *)
Record Response (A : Type) := { data : option A; error : option Error }.
Arguments data {A} _.
Arguments error {A} _.
Arguments Build_Response {A} _ _.

Definition ok {A} (a : A) : Response A := {| data := Some a; error := None |}.
Definition no_data {A} : Response A := {| data := None; error := None |}.
Definition refused {A} (e : Error) : Response A :=
  {| data := None; error := Some e |}.

(** What an [await] yields: a value, or the exception thrown at it. *)
Inductive Outcome (A : Type) :=
  | Return (a : A)
  | Throw (e : Error).
Arguments Return {A} _.
Arguments Throw {A} _.

(** [await query]: the store's answer arrives only over a working
    transport. *)
Definition await {A} (n : Net) (answer : Response A) : Outcome (Response A) :=
  match n with
  | Reached => Return answer
  | Failed e => Return (refused e)
  | Rejected e => Throw e
  end.

(** [if (error) throw error; return data;] *)
Definition data_or_throw {A} (r : Outcome (Response A)) : Outcome (option A) :=
  match r with
  | Throw e => Throw e
  | Return resp =>
      match error resp with
      | Some e => Throw e
      | None => Return (data resp)
      end
  end.

(** [try { body } catch (error) { handler }] *)
Definition try_catch {A} (body : Outcome A) (handler : Error → Outcome A)
  : Outcome A :=
  match body with
  | Return a => Return a
  | Throw e => handler e
  end.

Definition map_outcome {A B} (f : A → B) (m : Outcome A) : Outcome B :=
  match m with
  | Return a => Return (f a)
  | Throw e => Throw e
  end.

(** [data || []] *)
Definition or_empty {A} (d : option (list A)) : list A := default [] d.

(** [.maybeSingle()]: no row gives [null], one row gives it, more is an
    error. *)
Definition maybeSingle {A} (rows : list A) : Response A :=
  match rows with
  | [] => no_data
  | [r] => ok r
  | _ => refused (PostgrestError "JSON object requested, multiple (or no) rows returned")
  end.

(** [.order('created_at', { ascending: false })] *)
Definition order_desc {A} (created_at : A → Z) (rows : list A) : list A :=
  @merge_sort A (λ a b, created_at b ≤ created_at a)
    (λ a b, decide (created_at b ≤ created_at a)) rows.

(** [.select().single()] after a write, then [if (error) throw error;
    return data]: [single] turns an empty result into an error, so a
    value is returned or an exception thrown. *)
Definition single_or_throw {A} (r : Outcome (Response A)) : Outcome A :=
  match data_or_throw r with
  | Return (Some a) => Return a
  | Return None =>
      Throw (PostgrestError "JSON object requested, multiple (or no) rows returned")
  | Throw e => Throw e
  end.

(** The row types exported by lib/supabase.ts. *)
Module Participant.
Record t := {
  id : string; room_id : string; nickname : string; session_token : string;
  joined_at : Z; last_seen : Z; is_online : bool;
}.
End Participant.

Module Room.
Record t := {
  id : string; name : option string; created_at : Z; last_activity : Z;
  is_active : bool;
}.
End Room.

(** A message handed to the broadcast channel named [channel]. *)
Record Message (E : Type) := { channel : string; event : E }.
Arguments channel {E} _.
Arguments event {E} _.
Arguments Build_Message {E} _ _.

(** [.upsert(row, { onConflict })] on one table without further
    constraints: the row in conflict is updated in place, else the new row
    is appended. *)
Fixpoint upsert {A} (conflict : A → bool) (update : A → A) (new : A)
    (rows : list A) : A * list A :=
  match rows with
  | [] => (new, [new])
  | r :: rows' =>
      if conflict r then (update r, update r :: rows')
      else let '(x, rows'') := upsert conflict update new rows' in
           (x, r :: rows'')
  end.

End Supabase.

(** ** services/gameService.ts *)

Module GameService.
Import Supabase.

(** *** The exclusive-control helper [withGameLock]

    An operation is an opaque asynchronous computation, named by a
    number: it starts when [operation()] is called and settles in a later
    turn of the event loop.  A queued closure is named by the operation it
    wraps. *)

Inductive Origin :=
  | Holder      (* called on the path that took the lock *)
  | Dequeued.   (* called by a closure shifted off the queue *)

#[global] Instance Origin_eq_dec : EqDecision Origin.
Proof. solve_decision. Defined.

Record LockState := {
  gameOperationLocks : gmap string bool;
  gameOperationQueues : gmap string (list nat);
  timers : list (string * nat);
  running : list (string * nat * Origin);
  settled : list nat;
}.

Definition idle : LockState :=
  {| gameOperationLocks := ∅; gameOperationQueues := ∅; timers := [];
     running := []; settled := [] |}.

(** The body of [withGameLock(key, operation)] up to its first [await]. *)
Definition withGameLock (key : string) (operation : nat) (s : LockState)
  : LockState :=
  if default false (gameOperationLocks s !! key) then
    let queue := default [] (gameOperationQueues s !! key) in
    {| gameOperationLocks := gameOperationLocks s;
       gameOperationQueues := <[key := queue ++ [operation]]> (gameOperationQueues s);
       timers := timers s;
       running := running s;
       settled := settled s |}
  else
    {| gameOperationLocks := <[key := true]> (gameOperationLocks s);
       gameOperationQueues := gameOperationQueues s;
       timers := timers s;
       running := running s ++ [(key, operation, Holder)];
       settled := settled s |}.

(** The [finally] block, run when the holder's operation has settled. *)
Definition release (key : string) (s : LockState) : LockState :=
  match gameOperationQueues s !! key with
  | Some (nextOperation :: queue) =>
      {| gameOperationLocks := delete key (gameOperationLocks s);
         gameOperationQueues := <[key := queue]> (gameOperationQueues s);
         timers := timers s ++ [(key, nextOperation)];
         running := running s;
         settled := settled s |}
  | _ =>
      {| gameOperationLocks := delete key (gameOperationLocks s);
         gameOperationQueues := delete key (gameOperationQueues s);
         timers := timers s;
         running := running s;
         settled := settled s |}
  end.

Definition is_op (operation : nat) (r : string * nat * Origin) : bool :=
  bool_decide (r.1.2 = operation).

(** A running operation settles.  Only the holder's continuation runs
    [finally]; a dequeued closure just resolves its caller's promise. *)
Definition settle (operation : nat) (s : LockState) : option LockState :=
  match List.find (is_op operation) (running s) with
  | None => None
  | Some (key, _, origin) =>
      let s' :=
        {| gameOperationLocks := gameOperationLocks s;
           gameOperationQueues := gameOperationQueues s;
           timers := timers s;
           running := filter (λ r, r.1.2 ≠ operation) (running s);
           settled := settled s ++ [operation] |} in
      match origin with
      | Holder => Some (release key s')
      | Dequeued => Some s'
      end
  end.

(** [setTimeout(() => nextOperation(), 0)] fires: the closure calls
    [operation()]. *)
Definition fire (s : LockState) : option LockState :=
  match timers s with
  | [] => None
  | (key, operation) :: rest =>
      Some {| gameOperationLocks := gameOperationLocks s;
              gameOperationQueues := gameOperationQueues s;
              timers := rest;
              running := running s ++ [(key, operation, Dequeued)];
              settled := settled s |}
  end.

Inductive Event :=
  | Call (key : string) (operation : nat)
  | Settle (operation : nat)
  | Fire.

Definition step (s : LockState) (e : Event) : option LockState :=
  match e with
  | Call key operation => Some (withGameLock key operation s)
  | Settle operation => settle operation s
  | Fire => fire s
  end.

Fixpoint run (trace : list Event) (s : LockState) : option LockState :=
  match trace with
  | [] => Some s
  | e :: trace' =>
      match step s e with
      | Some s' => run trace' s'
      | None => None
      end
  end.

(** The operations in execution under [key]. *)
Definition executing (key : string) (s : LockState) : list nat :=
  (λ r, r.1.2) <$> filter (λ r, r.1.1 = key) (running s).

(** Those among them that were started on the path that took the lock. *)
Definition holders (key : string) (s : LockState)
  : list (string * nat * Origin) :=
  filter (λ r, r.1.1 = key ∧ r.2 = Holder) (running s).

(** What the lock flag does guarantee: per key at most one holder is in
    execution, and the flag is set while it is. *)
Definition holder_invariant (s : LockState) : Prop :=
  ∀ key, (length (holders key s) ≤ 1)%nat
         ∧ (holders key s ≠ [] → gameOperationLocks s !! key = Some true).

(** The operations still waiting in the queue of [key]. *)
Definition waiting (key : string) (s : LockState) : list nat :=
  default [] (gameOperationQueues s !! key).

(** *** Rows *)

Module GameSession.
Record t := {
  id : string; room_id : string; game_type : string; status : string;
  created_by : option string; created_at : Z; updated_at : Z;
}.
End GameSession.

Module GameQuestion.
Record t := {
  id : string; session_id : string; question : string;
  questioner_id : string; created_at : Z; is_active : bool;
}.
End GameQuestion.

Module GameResponse.
Record t := {
  id : string; question_id : string; participant_id : string;
  response : bool; created_at : Z;
}.
End GameResponse.

Module RankingQuestion.
Record t := {
  id : string; session_id : string; question : string;
  questioner_id : string; created_at : Z; is_active : bool;
}.
End RankingQuestion.

Module RankingResponse.
Record t := {
  id : string; question_id : string; participant_id : string;
  rank_choice : Z; created_at : Z;
}.
End RankingResponse.

Module SynchroQuestion.
Record t := {
  id : string; session_id : string; question : string;
  gm_id : string; created_at : Z; is_active : bool;
}.
End SynchroQuestion.

Module SynchroResponse.
Record t := {
  id : string; question_id : string; participant_id : string;
  answer : Js.jsstring; created_at : Z;
}.
End SynchroResponse.

(** The tables the service works on, and [participants], the table of
    the room service that the rows of the response tables refer to; the
    game service does not write it.  Each response table is
    [UNIQUE(question_id, participant_id)]; its [question_id] refers to the
    question table of its game and its [participant_id] to
    [participants]. *)
Record Db := {
  participants : list Participant.t;
  game_sessions : list GameSession.t;
  game_questions : list GameQuestion.t;
  ranking_questions : list RankingQuestion.t;
  synchro_questions : list SynchroQuestion.t;
  game_responses : list GameResponse.t;
  ranking_responses : list RankingResponse.t;
  synchro_responses : list SynchroResponse.t;
}.

Definition empty_db : Db :=
  {| participants := [];
     game_sessions := []; game_questions := []; ranking_questions := [];
     synchro_questions := []; game_responses := []; ranking_responses := [];
     synchro_responses := [] |}.

Definition with_game_responses (rows : list GameResponse.t) (d : Db) : Db :=
  {| participants := participants d;
     game_sessions := game_sessions d; game_questions := game_questions d;
     ranking_questions := ranking_questions d;
     synchro_questions := synchro_questions d;
     game_responses := rows;
     ranking_responses := ranking_responses d;
     synchro_responses := synchro_responses d |}.

Definition with_ranking_responses (rows : list RankingResponse.t) (d : Db) : Db :=
  {| participants := participants d;
     game_sessions := game_sessions d; game_questions := game_questions d;
     ranking_questions := ranking_questions d;
     synchro_questions := synchro_questions d;
     game_responses := game_responses d;
     ranking_responses := rows;
     synchro_responses := synchro_responses d |}.

Definition with_synchro_responses (rows : list SynchroResponse.t) (d : Db) : Db :=
  {| participants := participants d;
     game_sessions := game_sessions d; game_questions := game_questions d;
     ranking_questions := ranking_questions d;
     synchro_questions := synchro_questions d;
     game_responses := game_responses d;
     ranking_responses := ranking_responses d;
     synchro_responses := rows |}.

(** *** The response cache

    [responseCache] is one [Map] of the client process, whose keys carry
    the prefixes [responses-], [ranking-responses-] and
    [synchro-responses-]; the prefixes keep the three kinds of entries
    apart, so it is kept here as three maps keyed by question id. *)
Record Cached (R : Type) := { cached_data : list R; timestamp : Z }.
Arguments cached_data {R} _.
Arguments timestamp {R} _.
Arguments Build_Cached {R} _ _.

Definition CACHE_DURATION : Z := 2000.

Record ResponseCache := {
  cache_responses : gmap string (Cached GameResponse.t);
  cache_ranking_responses : gmap string (Cached RankingResponse.t);
  cache_synchro_responses : gmap string (Cached SynchroResponse.t);
}.

Definition no_cache : ResponseCache :=
  {| cache_responses := ∅; cache_ranking_responses := ∅;
     cache_synchro_responses := ∅ |}.

(** [cached && (now - cached.timestamp) < CACHE_DURATION] *)
Definition cache_hit {R} (cache : gmap string (Cached R)) (questionId : string)
    (now : Z) : option (list R) :=
  match cache !! questionId with
  | Some cached =>
      if now - timestamp cached <? CACHE_DURATION then Some (cached_data cached)
      else None
  | None => None
  end.

(** *** Reads *)

Definition getActiveGameSession (n : Net) (roomId : string) (d : Db)
  : Outcome (option GameSession.t) :=
  try_catch
    (data_or_throw
       (await n
          (maybeSingle
             (take 1
                (order_desc GameSession.created_at
                   (filter (λ r, GameSession.room_id r = roomId
                                 ∧ GameSession.status r = "active")
                      (game_sessions d)))))))
    (λ _, Return None).

Record ActiveQuestions := {
  gameQuestions : list GameQuestion.t;
  rankingQuestions : list RankingQuestion.t;
  synchroQuestions : list SynchroQuestion.t;
}.

(** [Promise.all] rejects as soon as one of the three queries does. *)
Definition promise_all3 {A B C} (a : Outcome A) (b : Outcome B) (c : Outcome C)
  : Outcome (A * B * C) :=
  match a, b, c with
  | Return x, Return y, Return z => Return (x, y, z)
  | Throw e, _, _ => Throw e
  | _, Throw e, _ => Throw e
  | _, _, Throw e => Throw e
  end.

Definition getActiveQuestions (n1 n2 n3 : Net) (sessionId : string) (d : Db)
  : Outcome ActiveQuestions :=
  try_catch
    (match
       promise_all3
         (await n1
            (ok (order_desc GameQuestion.created_at
                   (filter (λ r, GameQuestion.session_id r = sessionId
                                 ∧ GameQuestion.is_active r = true)
                      (game_questions d)))))
         (await n2
            (ok (order_desc RankingQuestion.created_at
                   (filter (λ r, RankingQuestion.session_id r = sessionId
                                 ∧ RankingQuestion.is_active r = true)
                      (ranking_questions d)))))
         (await n3
            (ok (order_desc SynchroQuestion.created_at
                   (filter (λ r, SynchroQuestion.session_id r = sessionId
                                 ∧ SynchroQuestion.is_active r = true)
                      (synchro_questions d)))))
     with
     | Return (gameQuestionsResult, rankingQuestionsResult, synchroQuestionsResult) =>
         Return {| gameQuestions := or_empty (data gameQuestionsResult);
                   rankingQuestions := or_empty (data rankingQuestionsResult);
                   synchroQuestions := or_empty (data synchroQuestionsResult) |}
     | Throw e => Throw e
     end)
    (λ _, Return {| gameQuestions := []; rankingQuestions := [];
                    synchroQuestions := [] |}).

Definition getQuestionResponses (n : Net) (now : Z) (questionId : string)
    (cache : ResponseCache) (d : Db)
  : Outcome (list GameResponse.t) * ResponseCache :=
  match cache_hit (cache_responses cache) questionId now with
  | Some cached => (Return cached, cache)
  | None =>
      match
        data_or_throw
          (await n
             (ok (filter (λ r, GameResponse.question_id r = questionId)
                    (game_responses d))))
      with
      | Return data =>
          (Return (or_empty data),
           {| cache_responses :=
                <[questionId := {| cached_data := or_empty data;
                                   timestamp := now |}]> (cache_responses cache);
              cache_ranking_responses := cache_ranking_responses cache;
              cache_synchro_responses := cache_synchro_responses cache |})
      | Throw _ => (Return [], cache)
      end
  end.

Definition getRankingResponses (n : Net) (now : Z) (questionId : string)
    (cache : ResponseCache) (d : Db)
  : Outcome (list RankingResponse.t) * ResponseCache :=
  match cache_hit (cache_ranking_responses cache) questionId now with
  | Some cached => (Return cached, cache)
  | None =>
      match
        data_or_throw
          (await n
             (ok (filter (λ r, RankingResponse.question_id r = questionId)
                    (ranking_responses d))))
      with
      | Return data =>
          (Return (or_empty data),
           {| cache_responses := cache_responses cache;
              cache_ranking_responses :=
                <[questionId := {| cached_data := or_empty data;
                                   timestamp := now |}]>
                  (cache_ranking_responses cache);
              cache_synchro_responses := cache_synchro_responses cache |})
      | Throw _ => (Return [], cache)
      end
  end.

Definition getSynchroResponses (n : Net) (now : Z) (questionId : string)
    (cache : ResponseCache) (d : Db)
  : Outcome (list SynchroResponse.t) * ResponseCache :=
  match cache_hit (cache_synchro_responses cache) questionId now with
  | Some cached => (Return cached, cache)
  | None =>
      match
        data_or_throw
          (await n
             (ok (filter (λ r, SynchroResponse.question_id r = questionId)
                    (synchro_responses d))))
      with
      | Return data =>
          (Return (or_empty data),
           {| cache_responses := cache_responses cache;
              cache_ranking_responses := cache_ranking_responses cache;
              cache_synchro_responses :=
                <[questionId := {| cached_data := or_empty data;
                                   timestamp := now |}]>
                  (cache_synchro_responses cache) |})
      | Throw _ => (Return [], cache)
      end
  end.

(** *** Writes

    A write takes effect only when its request reaches the store, and
    the store refuses a response whose question or participant it does
    not hold. *)

(** The foreign keys of a response row, [questions] being the ids of the
    question table of its game. *)
Definition references (questions : list string)
    (questionId participantId : string) (d : Db) : Prop :=
  questionId ∈ questions ∧ participantId ∈ Participant.id <$> participants d.

#[global] Instance references_dec questions questionId participantId d :
  Decision (references questions questionId participantId d).
Proof. unfold references. apply _. Defined.

Definition upsert_game_response (c : Request) (questionId participantId : string)
    (response : bool) (d : Db) : Outcome (Response GameResponse.t) * Db :=
  match net c with
  | Reached =>
      if decide (references (GameQuestion.id <$> game_questions d) questionId
                   participantId d)
      then
        let '(row, rows) :=
          upsert
            (λ r, bool_decide (GameResponse.question_id r = questionId
                               ∧ GameResponse.participant_id r = participantId))
            (λ r, {| GameResponse.id := GameResponse.id r;
                     GameResponse.question_id := questionId;
                     GameResponse.participant_id := participantId;
                     GameResponse.response := response;
                     GameResponse.created_at := GameResponse.created_at r |})
            {| GameResponse.id := uuid c;
               GameResponse.question_id := questionId;
               GameResponse.participant_id := participantId;
               GameResponse.response := response;
               GameResponse.created_at := clock c |}
            (game_responses d) in
        (Return (ok row), with_game_responses rows d)
      else
        (Return (refused (PostgrestError "insert or update on table game_responses violates foreign key constraint")),
         d)
  | Failed e => (Return (refused e), d)
  | Rejected e => (Throw e, d)
  end.

(** [attemptSubmitResponse]: [retryCount] counts the attempts made,
    [left] is [maxRetries - 1 - retryCount]. *)
Fixpoint attemptSubmitResponse (left retryCount : nat) (calls : nat → Request)
    (questionId participantId : string) (response : bool) (d : Db)
  : Outcome GameResponse.t * Db :=
  let '(r, d') :=
    upsert_game_response (calls retryCount) questionId participantId response d in
  match single_or_throw r with
  | Return data => (Return data, d')
  | Throw error =>
      match left with
      | S left' =>
          attemptSubmitResponse left' (S retryCount) calls questionId
            participantId response d'
      | O => (Throw error, d')
      end
  end.

(** [submitResponse], run with its lock free: the handlers below call it
    from one event-loop task at a time. *)
Definition submitResponse (isMobile : bool) (calls : nat → Request)
    (questionId participantId : string) (response : bool) (d : Db)
  : Outcome GameResponse.t * Db :=
  let maxRetries := if isMobile then 3%nat else 1%nat in
  let '(r, d') :=
    attemptSubmitResponse (maxRetries - 1) 0 calls questionId participantId
      response d in
  (try_catch r
     (λ error,
        Throw (new_Error ("回答の送信に失敗しました。(" +:+ message_or_unknown error +:+ ")"))),
   d').

Definition submitRankingResponse (c : Request) (questionId participantId : string)
    (rankChoice : Z) (d : Db) : Outcome RankingResponse.t * Db :=
  match net c with
  | Reached =>
      if decide (references (RankingQuestion.id <$> ranking_questions d)
                   questionId participantId d)
      then
        let '(row, rows) :=
          upsert
            (λ r, bool_decide (RankingResponse.question_id r = questionId
                               ∧ RankingResponse.participant_id r = participantId))
            (λ r, {| RankingResponse.id := RankingResponse.id r;
                     RankingResponse.question_id := questionId;
                     RankingResponse.participant_id := participantId;
                     RankingResponse.rank_choice := rankChoice;
                     RankingResponse.created_at := RankingResponse.created_at r |})
            {| RankingResponse.id := uuid c;
               RankingResponse.question_id := questionId;
               RankingResponse.participant_id := participantId;
               RankingResponse.rank_choice := rankChoice;
               RankingResponse.created_at := clock c |}
            (ranking_responses d) in
        (Return row, with_ranking_responses rows d)
      else
        (Throw (PostgrestError "insert or update on table ranking_responses violates foreign key constraint"),
         d)
  | Failed e => (Throw e, d)
  | Rejected e => (Throw e, d)
  end.

Definition submitSynchroResponse (c : Request) (questionId participantId : string)
    (answer : Js.jsstring) (d : Db) : Outcome SynchroResponse.t * Db :=
  match net c with
  | Reached =>
      if decide (references (SynchroQuestion.id <$> synchro_questions d)
                   questionId participantId d)
      then
        let '(row, rows) :=
          upsert
            (λ r, bool_decide (SynchroResponse.question_id r = questionId
                               ∧ SynchroResponse.participant_id r = participantId))
            (λ r, {| SynchroResponse.id := SynchroResponse.id r;
                     SynchroResponse.question_id := questionId;
                     SynchroResponse.participant_id := participantId;
                     SynchroResponse.answer := answer;
                     SynchroResponse.created_at := SynchroResponse.created_at r |})
            {| SynchroResponse.id := uuid c;
               SynchroResponse.question_id := questionId;
               SynchroResponse.participant_id := participantId;
               SynchroResponse.answer := answer;
               SynchroResponse.created_at := clock c |}
            (synchro_responses d) in
        (Return row, with_synchro_responses rows d)
      else
        (Throw (PostgrestError "insert or update on table synchro_responses violates foreign key constraint"),
         d)
  | Failed e => (Throw e, d)
  | Rejected e => (Throw e, d)
  end.

(** *** The end of a session, and the cache *)

Definition with_game_sessions (rows : list GameSession.t) (d : Db) : Db :=
  {| participants := participants d;
     game_sessions := rows; game_questions := game_questions d;
     ranking_questions := ranking_questions d;
     synchro_questions := synchro_questions d;
     game_responses := game_responses d;
     ranking_responses := ranking_responses d;
     synchro_responses := synchro_responses d |}.

(** [clearResponseCache(questionId?)]: [None] is the call without
    argument; an empty id is as falsy as none. *)
Definition clearResponseCache (questionId : option string)
    (cache : ResponseCache) : ResponseCache :=
  match questionId with
  | Some q =>
      if decide (q = "") then no_cache
      else
        {| cache_responses := delete q (cache_responses cache);
           cache_ranking_responses := delete q (cache_ranking_responses cache);
           cache_synchro_responses := delete q (cache_synchro_responses cache) |}
  | None => no_cache
  end.

(** [endGameSession]: [now] is the client's [new Date()], written to
    [updated_at]. *)
Definition endGameSession (rq : Request) (now : Z) (sessionId : string)
    (cache : ResponseCache) (d : Db) : Outcome () * ResponseCache * Db :=
  match net rq with
  | Reached =>
      (Return (), no_cache,
       with_game_sessions
         ((λ r, if decide (GameSession.id r = sessionId) then
                  {| GameSession.id := GameSession.id r;
                     GameSession.room_id := GameSession.room_id r;
                     GameSession.game_type := GameSession.game_type r;
                     GameSession.status := "completed";
                     GameSession.created_by := GameSession.created_by r;
                     GameSession.created_at := GameSession.created_at r;
                     GameSession.updated_at := now |}
                else r) <$> game_sessions d) d)
  | Failed e => (Throw e, cache, d)
  | Rejected e => (Throw e, cache, d)
  end.

End GameService.

(** ** The survey component ([AnonymousSurveyGame])

    A handler is taken as one step: it reads the component state it was
    called with, talks to the store, and leaves the new state together
    with the messages it handed to the broadcast channel.  Whether a
    message reaches a peer is decided outside; a peer that gets it applies
    [receive]. *)

Module Survey.
Import Supabase.

Inductive Phase :=
  | waiting_for_question
  | questioner_selected
  | answering
  | results.

Record GameState := {
  phase : Phase;
  question : string;
  questionId : string;
  responses : Js.Obj.t bool;
  questionerId : string;
  questionerName : string;
  sessionId : string;
}.

Record Component := {
  gameState : GameState;
  currentQuestion : string;
  hasAnswered : bool;
  isQuestioner : bool;
  currentParticipant : option Participant.t;
  currentGameSessionId : string;
  gameParticipants : list Participant.t;
}.

Inductive Event :=
  | QuestionerSelected (questionerId questionerName : string)
  | QuestionSubmitted (question questionId questionerId questionerName sessionId : string)
  | AnswerSubmitted (participantId : string) (answer : bool)
  | SyncResponses (responses : Js.Obj.t bool)
  | ShowResults
  | NewRound.

Definition channelName (roomId : string) : string := "game-events-" +:+ roomId.
Arguments channelName : simpl never.

Definition with_phase (p : Phase) (g : GameState) : GameState :=
  {| phase := p; question := question g; questionId := questionId g;
     responses := responses g; questionerId := questionerId g;
     questionerName := questionerName g; sessionId := sessionId g |}.

Definition with_responses (r : Js.Obj.t bool) (g : GameState) : GameState :=
  {| phase := phase g; question := question g; questionId := questionId g;
     responses := r; questionerId := questionerId g;
     questionerName := questionerName g; sessionId := sessionId g |}.

Definition with_gameState (g : GameState) (c : Component) : Component :=
  {| gameState := g; currentQuestion := currentQuestion c;
     hasAnswered := hasAnswered c; isQuestioner := isQuestioner c;
     currentParticipant := currentParticipant c;
     currentGameSessionId := currentGameSessionId c;
     gameParticipants := gameParticipants c |}.

Definition with_hasAnswered (b : bool) (c : Component) : Component :=
  {| gameState := gameState c; currentQuestion := currentQuestion c;
     hasAnswered := b; isQuestioner := isQuestioner c;
     currentParticipant := currentParticipant c;
     currentGameSessionId := currentGameSessionId c;
     gameParticipants := gameParticipants c |}.

(** The listeners registered on [game-events-<room>]. *)
Definition receive (roomId : string) (m : Message Event) (c : Component)
  : Component :=
  if decide (channel m = channelName roomId) then
    match event m with
    | QuestionerSelected qid qname =>
        {| gameState :=
             {| phase := questioner_selected;
                question := question (gameState c);
                questionId := questionId (gameState c);
                responses := responses (gameState c);
                questionerId := qid; questionerName := qname;
                sessionId := sessionId (gameState c) |};
           currentQuestion := currentQuestion c;
           hasAnswered := hasAnswered c;
           isQuestioner :=
             match currentParticipant c with
             | Some me =>
                 if decide (qid = Participant.id me) then isQuestioner c
                 else false
             | None => isQuestioner c
             end;
           currentParticipant := currentParticipant c;
           currentGameSessionId := currentGameSessionId c;
           gameParticipants := gameParticipants c |}
    | QuestionSubmitted q qid questioner qname sid =>
        {| gameState :=
             {| phase := answering; question := q; questionId := qid;
                responses := Js.Obj.empty; questionerId := questioner;
                questionerName := qname; sessionId := sid |};
           currentQuestion := currentQuestion c;
           hasAnswered := false;
           isQuestioner := isQuestioner c;
           currentParticipant := currentParticipant c;
           currentGameSessionId := sid;
           gameParticipants := gameParticipants c |}
    | AnswerSubmitted participantId answer =>
        with_gameState
          (with_responses
             (Js.Obj.set (responses (gameState c)) participantId answer)
             (gameState c)) c
    | SyncResponses r => with_gameState (with_responses r (gameState c)) c
    | ShowResults => with_gameState (with_phase results (gameState c)) c
    | NewRound =>
        {| gameState :=
             {| phase := waiting_for_question; question := "";
                questionId := ""; responses := Js.Obj.empty;
                questionerId := ""; questionerName := "";
                sessionId := currentGameSessionId c |};
           currentQuestion := "";
           hasAnswered := false;
           isQuestioner := false;
           currentParticipant := currentParticipant c;
           currentGameSessionId := currentGameSessionId c;
           gameParticipants := gameParticipants c |}
    end
  else c.

(** [handleAnswer].  On mobile a second copy of the same message may be
    sent later; it is not listed. *)
Definition handleAnswer (isMobile : bool) (calls : nat → Request)
    (roomId : string) (answer : bool) (c : Component) (d : GameService.Db)
  : Component * GameService.Db * list (Message Event) :=
  match currentParticipant c with
  | None => (c, d, [])
  | Some me =>
      if hasAnswered c then (c, d, [])
      else if decide (questionId (gameState c) = "") then (c, d, [])
      else
        match
          GameService.submitResponse isMobile calls (questionId (gameState c))
            (Participant.id me) answer d
        with
        | (Return _, d') =>
            (with_gameState
               (with_responses
                  (Js.Obj.set (responses (gameState c)) (Participant.id me) answer)
                  (gameState c))
               (with_hasAnswered true c),
             d',
             [{| channel := channelName roomId;
                 event := AnswerSubmitted (Participant.id me) answer |}])
        | (Throw _, d') => (with_hasAnswered false c, d', [])
        end
  end.

(** [handleShowResults]: the answers are read again from the store and
    replace the local ones; the copy for the peers goes to the channel
    [game-events-<room>-sync]. *)
Definition handleShowResults (n : Net) (now : Z) (roomId : string)
    (c : Component) (cache : GameService.ResponseCache) (d : GameService.Db)
  : Component * GameService.ResponseCache * list (Message Event) :=
  let '(c1, cache1, sent) :=
    if decide (questionId (gameState c) = "") then (c, cache, [])
    else
      match
        GameService.getQuestionResponses n now (questionId (gameState c))
          cache d
      with
      | (Return rows, cache') =>
          let responseMap :=
            Js.Obj.of_rows GameService.GameResponse.participant_id
              GameService.GameResponse.response rows in
          (with_gameState (with_responses responseMap (gameState c)) c, cache',
           [{| channel := channelName roomId +:+ "-sync";
               event := SyncResponses responseMap |}])
      | (Throw _, cache') => (c, cache', [])
      end in
  (with_gameState (with_phase results (gameState c1)) c1, cache1,
   sent ++ [{| channel := channelName roomId; event := ShowResults |}]).

(** The [answer_submitted] messages of a round, one per answer given. *)
Definition answer_messages (roomId : string) (answers : list (string * bool))
  : list (Message Event) :=
  (λ pa, {| channel := channelName roomId;
            event := AnswerSubmitted pa.1 pa.2 |}) <$> answers.

(** What the view derives from the answers. *)
Definition yesCount (g : GameState) : nat :=
  length (List.filter (λ b : bool, b) (Js.Obj.values (responses g))).

Definition totalResponses (g : GameState) : nat :=
  length (Js.Obj.keys (responses g)).

(** [restoreGameState], the effect run once the participants and the
    local participant are known: the round is taken from the store.  The
    five transports are those of its reads, [now] is the [Date.now()] of
    the cache. *)
Definition restoreGameState (ns : Net) (nq1 nq2 nq3 : Net) (nr : Net) (now : Z)
    (roomId : string) (c : Component) (cache : GameService.ResponseCache)
    (d : GameService.Db) : Component * GameService.ResponseCache :=
  if decide (roomId = "") then (c, cache)
  else
    match gameParticipants c, currentParticipant c with
    | _ :: _, Some me =>
        match GameService.getActiveGameSession ns roomId d with
        | Return (Some activeSession) =>
            if decide (GameService.GameSession.game_type activeSession
                       = "anonymous_survey")
            then
              let c1 :=
                {| gameState := gameState c;
                   currentQuestion := currentQuestion c;
                   hasAnswered := hasAnswered c;
                   isQuestioner := isQuestioner c;
                   currentParticipant := currentParticipant c;
                   currentGameSessionId :=
                     GameService.GameSession.id activeSession;
                   gameParticipants := gameParticipants c |} in
              match
                GameService.getActiveQuestions nq1 nq2 nq3
                  (GameService.GameSession.id activeSession) d
              with
              | Return active =>
                  match GameService.gameQuestions active with
                  | activeQuestion :: _ =>
                      let questioner :=
                        List.find
                          (λ p, bool_decide
                                  (Participant.id p
                                   = GameService.GameQuestion.questioner_id
                                       activeQuestion))
                          (gameParticipants c) in
                      match
                        GameService.getQuestionResponses nr now
                          (GameService.GameQuestion.id activeQuestion) cache d
                      with
                      | (Return rows, cache') =>
                          let myResponse :=
                            List.find
                              (λ r, bool_decide
                                      (GameService.GameResponse.participant_id r
                                       = Participant.id me))
                              rows in
                          ({| gameState :=
                                {| phase := answering;
                                   question :=
                                     GameService.GameQuestion.question activeQuestion;
                                   questionId :=
                                     GameService.GameQuestion.id activeQuestion;
                                   responses :=
                                     Js.Obj.of_rows
                                       GameService.GameResponse.participant_id
                                       GameService.GameResponse.response rows;
                                   questionerId :=
                                     GameService.GameQuestion.questioner_id
                                       activeQuestion;
                                   questionerName :=
                                     match questioner with
                                     | Some p =>
                                         if decide (Participant.nickname p = "")
                                         then "不明" else Participant.nickname p
                                     | None => "不明"
                                     end;
                                   sessionId :=
                                     GameService.GameSession.id activeSession |};
                              currentQuestion := currentQuestion c;
                              hasAnswered :=
                                match myResponse with
                                | Some _ => true
                                | None => false
                                end;
                              isQuestioner :=
                                bool_decide
                                  (GameService.GameQuestion.questioner_id
                                     activeQuestion = Participant.id me);
                              currentParticipant := currentParticipant c;
                              currentGameSessionId :=
                                GameService.GameSession.id activeSession;
                              gameParticipants := gameParticipants c |},
                           cache')
                      | (Throw _, cache') => (c1, cache')
                      end
                  | [] => (c1, cache)
                  end
              | Throw _ => (c1, cache)
              end
            else (c, cache)
        | _ => (c, cache)
        end
    | _, _ => (c, cache)
    end.

End Survey.

(** ** components/RankingGame.tsx *)

Module Ranking.
Import Supabase.

Inductive Phase :=
  | waiting_for_question
  | questioner_selected
  | answering
  | results.

#[global] Instance Phase_eq_dec : EqDecision Phase.
Proof. solve_decision. Defined.

Record GameState := {
  phase : Phase;
  question : string;
  questionId : string;
  responses : Js.Obj.t Z;
  questionerId : string;
  questionerName : string;
  sessionId : string;
}.

Record Component := {
  gameState : GameState;
  currentQuestion : string;
  selectedRank : option Z;
  hasAnswered : bool;
  isQuestioner : bool;
  currentParticipant : option Participant.t;
  currentGameSessionId : string;
  gameParticipants : list Participant.t;
}.

Inductive Event :=
  | RankingQuestionerSelected (questionerId questionerName : string)
  | RankingQuestionSubmitted (question questionId questionerId questionerName sessionId : string)
  | RankingAnswerSubmitted (participantId : string) (rankChoice : Z)
  | RankingShowResults
  | RankingNewRound.

Definition channelName (roomId : string) : string :=
  "ranking-game-events-" +:+ roomId.
Arguments channelName : simpl never.

Definition with_phase (p : Phase) (g : GameState) : GameState :=
  {| phase := p; question := question g; questionId := questionId g;
     responses := responses g; questionerId := questionerId g;
     questionerName := questionerName g; sessionId := sessionId g |}.

Definition with_responses (r : Js.Obj.t Z) (g : GameState) : GameState :=
  {| phase := phase g; question := question g; questionId := questionId g;
     responses := r; questionerId := questionerId g;
     questionerName := questionerName g; sessionId := sessionId g |}.

Definition with_gameState (g : GameState) (c : Component) : Component :=
  {| gameState := g; currentQuestion := currentQuestion c;
     selectedRank := selectedRank c;
     hasAnswered := hasAnswered c; isQuestioner := isQuestioner c;
     currentParticipant := currentParticipant c;
     currentGameSessionId := currentGameSessionId c;
     gameParticipants := gameParticipants c |}.

Definition with_hasAnswered (b : bool) (c : Component) : Component :=
  {| gameState := gameState c; currentQuestion := currentQuestion c;
     selectedRank := selectedRank c;
     hasAnswered := b; isQuestioner := isQuestioner c;
     currentParticipant := currentParticipant c;
     currentGameSessionId := currentGameSessionId c;
     gameParticipants := gameParticipants c |}.

(** The listeners registered on [ranking-game-events-<room>]. *)
Definition receive (roomId : string) (m : Message Event) (c : Component)
  : Component :=
  if decide (channel m = channelName roomId) then
    match event m with
    | RankingQuestionerSelected qid qname =>
        {| gameState :=
             {| phase := questioner_selected;
                question := question (gameState c);
                questionId := questionId (gameState c);
                responses := responses (gameState c);
                questionerId := qid; questionerName := qname;
                sessionId := sessionId (gameState c) |};
           currentQuestion := currentQuestion c;
           selectedRank := selectedRank c;
           hasAnswered := hasAnswered c;
           isQuestioner :=
             match currentParticipant c with
             | Some me =>
                 if decide (qid = Participant.id me) then isQuestioner c
                 else false
             | None => isQuestioner c
             end;
           currentParticipant := currentParticipant c;
           currentGameSessionId := currentGameSessionId c;
           gameParticipants := gameParticipants c |}
    | RankingQuestionSubmitted q qid questioner qname sid =>
        {| gameState :=
             {| phase := answering; question := q; questionId := qid;
                responses := Js.Obj.empty; questionerId := questioner;
                questionerName := qname; sessionId := sid |};
           currentQuestion := currentQuestion c;
           selectedRank := None;
           hasAnswered := false;
           isQuestioner := isQuestioner c;
           currentParticipant := currentParticipant c;
           currentGameSessionId := sid;
           gameParticipants := gameParticipants c |}
    | RankingAnswerSubmitted participantId rankChoice =>
        with_gameState
          (with_responses
             (Js.Obj.set (responses (gameState c)) participantId rankChoice)
             (gameState c)) c
    | RankingShowResults => with_gameState (with_phase results (gameState c)) c
    | RankingNewRound =>
        {| gameState :=
             {| phase := waiting_for_question; question := "";
                questionId := ""; responses := Js.Obj.empty;
                questionerId := ""; questionerName := "";
                sessionId := currentGameSessionId c |};
           currentQuestion := "";
           selectedRank := None;
           hasAnswered := false;
           isQuestioner := false;
           currentParticipant := currentParticipant c;
           currentGameSessionId := currentGameSessionId c;
           gameParticipants := gameParticipants c |}
    end
  else c.

Definition handleSubmitRank (rq : Request) (roomId : string) (c : Component)
    (d : GameService.Db)
  : Component * GameService.Db * list (Message Event) :=
  match currentParticipant c, selectedRank c with
  | Some me, Some rank =>
      if hasAnswered c then (c, d, [])
      else if decide (questionId (gameState c) = "") then (c, d, [])
      else
        match
          GameService.submitRankingResponse rq (questionId (gameState c))
            (Participant.id me) rank d
        with
        | (Return _, d') =>
            (with_gameState
               (with_responses
                  (Js.Obj.set (responses (gameState c)) (Participant.id me) rank)
                  (gameState c))
               (with_hasAnswered true c),
             d',
             [{| channel := channelName roomId;
                 event := RankingAnswerSubmitted (Participant.id me) rank |}])
        | (Throw _, d') => (with_hasAnswered false c, d', [])
        end
  | _, _ => (c, d, [])
  end.

(** [handleShowResults]: a broadcast and a phase change; neither the
    store nor the cache appears in it. *)
Definition handleShowResults (roomId : string) (c : Component)
  : Component * list (Message Event) :=
  (with_gameState (with_phase results (gameState c)) c,
   [{| channel := channelName roomId; event := RankingShowResults |}]).

Definition totalResponses (g : GameState) : nat :=
  length (Js.Obj.keys (responses g)).

Definition allAnswered (c : Component) : bool :=
  bool_decide (totalResponses (gameState c) = length (gameParticipants c)).

(** The view renders the button bound to [handleShowResults] in phase
    [answering], once [allAnswered] holds, on the questioner's client. *)
Definition showResultsButton (c : Component) : bool :=
  bool_decide (phase (gameState c) = answering)
  && allAnswered c
  && bool_decide (Some (questionerId (gameState c))
                  = Participant.id <$> currentParticipant c).

(** A press of that button: without the button there is nothing to
    press. *)
Definition pressShowResults (roomId : string) (c : Component)
  : Component * list (Message Event) :=
  if showResultsButton c then handleShowResults roomId c else (c, []).

(** The result analysis of the component body. *)
Definition responseValues (st : GameState) : list Z :=
  Js.Obj.values (responses st).

Definition uniqueRanks (st : GameState) : list Z :=
  Js.new_Set (responseValues st).

Definition isSuccess (st : GameState) : bool :=
  (Z.of_nat (length (uniqueRanks st)) =? Z.of_nat (length (responseValues st)))
  && (Z.of_nat (length (responseValues st)) >? 0).

Definition duplicates (st : GameState) : list Z :=
  Js.filter_index
    (λ rank index, negb (Js.indexOf (responseValues st) rank =? index))
    (responseValues st).

Definition duplicateRanks (st : GameState) : list Z :=
  Js.new_Set (duplicates st).

(** Rank [v] collides: two different positions of the answer list hold it. *)
Definition collides (l : list Z) (v : Z) : Prop :=
  ∃ i j : nat, i ≠ j ∧ l !! i = Some v ∧ l !! j = Some v.

(** *** The round taken from the store or from the browser *)

(** What the component keeps under [ranking_state_<room>] in
    [localStorage]; [timestamp] is the time it was written, in
    milliseconds. *)
Module Stored.
Record t := {
  gameState : GameState;
  currentQuestion : string;
  selectedRank : option Z;
  hasAnswered : bool;
  isQuestioner : bool;
  sessionId : string;
  timestamp : Z;
}.
End Stored.

(** [x || null] on a rank: [0] is as falsy as none. *)
Definition rank_or_null (rank : option Z) : option Z :=
  match rank with
  | Some r => if decide (r = 0) then None else Some r
  | None => None
  end.

(** The part of [restoreGameState] that asks the store. *)
Definition restoreFromStore (nq1 nq2 nq3 nr : Net) (now : Z)
    (activeSession : option GameService.GameSession.t) (c : Component)
    (cache : GameService.ResponseCache) (d : GameService.Db)
  : Component * GameService.ResponseCache :=
  match activeSession with
  | Some session =>
      if decide (GameService.GameSession.game_type session = "ranking") then
        let c1 :=
          {| gameState := gameState c; currentQuestion := currentQuestion c;
             selectedRank := selectedRank c; hasAnswered := hasAnswered c;
             isQuestioner := isQuestioner c;
             currentParticipant := currentParticipant c;
             currentGameSessionId := GameService.GameSession.id session;
             gameParticipants := gameParticipants c |} in
        match
          GameService.getActiveQuestions nq1 nq2 nq3
            (GameService.GameSession.id session) d
        with
        | Return active =>
            match GameService.rankingQuestions active, currentParticipant c with
            | activeQuestion :: _, Some me =>
                let questioner :=
                  List.find
                    (λ p, bool_decide
                            (Participant.id p
                             = GameService.RankingQuestion.questioner_id
                                 activeQuestion))
                    (gameParticipants c) in
                match
                  GameService.getRankingResponses nr now
                    (GameService.RankingQuestion.id activeQuestion) cache d
                with
                | (Return rows, cache') =>
                    let myResponse :=
                      List.find
                        (λ r, bool_decide
                                (GameService.RankingResponse.participant_id r
                                 = Participant.id me))
                        rows in
                    ({| gameState :=
                          {| phase := answering;
                             question :=
                               GameService.RankingQuestion.question activeQuestion;
                             questionId :=
                               GameService.RankingQuestion.id activeQuestion;
                             responses :=
                               Js.Obj.of_rows
                                 GameService.RankingResponse.participant_id
                                 GameService.RankingResponse.rank_choice rows;
                             questionerId :=
                               GameService.RankingQuestion.questioner_id
                                 activeQuestion;
                             questionerName :=
                               match questioner with
                               | Some p =>
                                   if decide (Participant.nickname p = "")
                                   then "不明" else Participant.nickname p
                               | None => "不明"
                               end;
                             sessionId := GameService.GameSession.id session |};
                        currentQuestion := currentQuestion c;
                        selectedRank :=
                          rank_or_null
                            (GameService.RankingResponse.rank_choice
                               <$> myResponse);
                        hasAnswered :=
                          match myResponse with
                          | Some _ => true
                          | None => false
                          end;
                        isQuestioner :=
                          bool_decide
                            (GameService.RankingQuestion.questioner_id
                               activeQuestion = Participant.id me);
                        currentParticipant := currentParticipant c;
                        currentGameSessionId :=
                          GameService.GameSession.id session;
                        gameParticipants := gameParticipants c |},
                     cache')
                | (Throw _, cache') => (c1, cache')
                end
            | _, _ => (c1, cache)
            end
        | Throw _ => (c1, cache)
        end
      else (c, cache)
  | None => (c, cache)
  end.

(** [restoreGameState]: the store is asked first; what the browser kept
    is taken only when no active session was found and it is younger
    than thirty minutes at [today], the [Date.now()] of the check, and
    is removed otherwise. *)
Definition restoreGameState (ns nq1 nq2 nq3 nr : Net) (now today : Z)
    (roomId : string) (c : Component) (cache : GameService.ResponseCache)
    (d : GameService.Db) (storedState : option Stored.t)
  : Component * GameService.ResponseCache * option Stored.t :=
  if decide (roomId = "") then (c, cache, storedState)
  else
    match GameService.getActiveGameSession ns roomId d with
    | Return activeSession =>
        let '(c1, cache1) :=
          restoreFromStore nq1 nq2 nq3 nr now activeSession c cache d in
        match storedState with
        | Some state =>
            if bool_decide (today - Stored.timestamp state < 30 * 60 * 1000)
               && match activeSession with Some _ => false | None => true end
            then
              ({| gameState := Stored.gameState state;
                  currentQuestion := Stored.currentQuestion state;
                  selectedRank := rank_or_null (Stored.selectedRank state);
                  hasAnswered := Stored.hasAnswered state;
                  isQuestioner := Stored.isQuestioner state;
                  currentParticipant := currentParticipant c1;
                  currentGameSessionId := Stored.sessionId state;
                  gameParticipants := gameParticipants c1 |},
               cache1, storedState)
            else (c1, cache1, None)
        | None => (c1, cache1, None)
        end
    | Throw _ => (c, cache, None)
    end.

End Ranking.

(** ** The synchro component ([SynchroGame]) *)

Module Synchro.
Import Supabase.

Inductive Phase :=
  | waiting_for_question
  | gm_selected
  | answering
  | results.

#[global] Instance Phase_eq_dec : EqDecision Phase.
Proof. solve_decision. Defined.

Record GameState := {
  phase : Phase;
  question : string;
  questionId : string;
  responses : Js.Obj.t Js.jsstring;
  gmId : string;
  gmName : string;
  sessionId : string;
}.

Record Component := {
  gameState : GameState;
  currentQuestion : string;
  currentAnswer : Js.jsstring;
  hasAnswered : bool;
  isGM : bool;
  currentParticipant : option Participant.t;
  currentGameSessionId : string;
  gameParticipants : list Participant.t;
}.

Inductive Event :=
  | SynchroGmSelected (gmId gmName : string)
  | SynchroQuestionSubmitted (question questionId gmId gmName sessionId : string)
  | SynchroAnswerSubmitted (participantId : string) (answer : Js.jsstring)
  | SynchroShowResults
  | SynchroNewRound.

Definition channelName (roomId : string) : string :=
  "synchro-game-events-" +:+ roomId.
Arguments channelName : simpl never.

Definition with_phase (p : Phase) (g : GameState) : GameState :=
  {| phase := p; question := question g; questionId := questionId g;
     responses := responses g; gmId := gmId g; gmName := gmName g;
     sessionId := sessionId g |}.

Definition with_responses (r : Js.Obj.t Js.jsstring) (g : GameState) : GameState :=
  {| phase := phase g; question := question g; questionId := questionId g;
     responses := r; gmId := gmId g; gmName := gmName g;
     sessionId := sessionId g |}.

Definition with_gameState (g : GameState) (c : Component) : Component :=
  {| gameState := g; currentQuestion := currentQuestion c;
     currentAnswer := currentAnswer c;
     hasAnswered := hasAnswered c; isGM := isGM c;
     currentParticipant := currentParticipant c;
     currentGameSessionId := currentGameSessionId c;
     gameParticipants := gameParticipants c |}.

Definition with_hasAnswered (b : bool) (c : Component) : Component :=
  {| gameState := gameState c; currentQuestion := currentQuestion c;
     currentAnswer := currentAnswer c;
     hasAnswered := b; isGM := isGM c;
     currentParticipant := currentParticipant c;
     currentGameSessionId := currentGameSessionId c;
     gameParticipants := gameParticipants c |}.

(** The text field: [setCurrentAnswer(e.target.value)]. *)
Definition with_currentAnswer (a : Js.jsstring) (c : Component) : Component :=
  {| gameState := gameState c; currentQuestion := currentQuestion c;
     currentAnswer := a;
     hasAnswered := hasAnswered c; isGM := isGM c;
     currentParticipant := currentParticipant c;
     currentGameSessionId := currentGameSessionId c;
     gameParticipants := gameParticipants c |}.

(** The listeners registered on [synchro-game-events-<room>]. *)
Definition receive (roomId : string) (m : Message Event) (c : Component)
  : Component :=
  if decide (channel m = channelName roomId) then
    match event m with
    | SynchroGmSelected gid gname =>
        {| gameState :=
             {| phase := gm_selected;
                question := question (gameState c);
                questionId := questionId (gameState c);
                responses := responses (gameState c);
                gmId := gid; gmName := gname;
                sessionId := sessionId (gameState c) |};
           currentQuestion := currentQuestion c;
           currentAnswer := currentAnswer c;
           hasAnswered := hasAnswered c;
           isGM :=
             match currentParticipant c with
             | Some me =>
                 if decide (gid = Participant.id me) then isGM c else false
             | None => isGM c
             end;
           currentParticipant := currentParticipant c;
           currentGameSessionId := currentGameSessionId c;
           gameParticipants := gameParticipants c |}
    | SynchroQuestionSubmitted q qid gid gname sid =>
        {| gameState :=
             {| phase := answering; question := q; questionId := qid;
                responses := Js.Obj.empty; gmId := gid; gmName := gname;
                sessionId := sid |};
           currentQuestion := currentQuestion c;
           currentAnswer := [];
           hasAnswered := false;
           isGM := isGM c;
           currentParticipant := currentParticipant c;
           currentGameSessionId := sid;
           gameParticipants := gameParticipants c |}
    | SynchroAnswerSubmitted participantId answer =>
        with_gameState
          (with_responses
             (Js.Obj.set (responses (gameState c)) participantId answer)
             (gameState c)) c
    | SynchroShowResults => with_gameState (with_phase results (gameState c)) c
    | SynchroNewRound =>
        {| gameState :=
             {| phase := waiting_for_question; question := "";
                questionId := ""; responses := Js.Obj.empty;
                gmId := ""; gmName := "";
                sessionId := currentGameSessionId c |};
           currentQuestion := "";
           currentAnswer := [];
           hasAnswered := false;
           isGM := false;
           currentParticipant := currentParticipant c;
           currentGameSessionId := currentGameSessionId c;
           gameParticipants := gameParticipants c |}
    end
  else c.

(** [handleSubmitAnswer]: what is stored, broadcast and kept is
    [currentAnswer.trim()]. *)
Definition handleSubmitAnswer (rq : Request) (roomId : string) (c : Component)
    (d : GameService.Db)
  : Component * GameService.Db * list (Message Event) :=
  match currentParticipant c with
  | None => (c, d, [])
  | Some me =>
      if hasAnswered c then (c, d, [])
      else if Js.falsy (Js.trim (currentAnswer c)) then (c, d, [])
      else if decide (questionId (gameState c) = "") then (c, d, [])
      else
        match
          GameService.submitSynchroResponse rq (questionId (gameState c))
            (Participant.id me) (Js.trim (currentAnswer c)) d
        with
        | (Return _, d') =>
            (with_gameState
               (with_responses
                  (Js.Obj.set (responses (gameState c)) (Participant.id me)
                     (Js.trim (currentAnswer c)))
                  (gameState c))
               (with_hasAnswered true c),
             d',
             [{| channel := channelName roomId;
                 event := SynchroAnswerSubmitted (Participant.id me)
                            (Js.trim (currentAnswer c)) |}])
        | (Throw _, d') => (with_hasAnswered false c, d', [])
        end
  end.

(** [handleShowResults]: a broadcast and a phase change; neither the
    store nor the cache appears in it. *)
Definition handleShowResults (roomId : string) (c : Component)
  : Component * list (Message Event) :=
  (with_gameState (with_phase results (gameState c)) c,
   [{| channel := channelName roomId; event := SynchroShowResults |}]).

Definition totalResponses (g : GameState) : nat :=
  length (Js.Obj.keys (responses g)).

Definition allAnswered (c : Component) : bool :=
  bool_decide (totalResponses (gameState c) = length (gameParticipants c)).

(** The view renders the button bound to [handleShowResults] in phase
    [answering], once [allAnswered] holds, on the game master's client. *)
Definition showResultsButton (c : Component) : bool :=
  bool_decide (phase (gameState c) = answering)
  && allAnswered c
  && bool_decide (Some (gmId (gameState c))
                  = Participant.id <$> currentParticipant c).

Definition pressShowResults (roomId : string) (c : Component)
  : Component * list (Message Event) :=
  if showResultsButton c then handleShowResults roomId c else (c, []).

(** The result analysis of the component body. *)
Definition responseValues (st : GameState) : list Js.jsstring :=
  Js.Obj.values (responses st).

Definition uniqueAnswers (st : GameState) : list Js.jsstring :=
  Js.new_Set (responseValues st).

Definition isSuccess (st : GameState) : bool :=
  (Z.of_nat (length (uniqueAnswers st)) =? 1)
  && (Z.of_nat (length (responseValues st)) >? 0).

Definition mostCommonAnswer (st : GameState) : Js.jsstring :=
  match responseValues st with
  | a :: _ => a
  | [] => []
  end.

End Synchro.

(** ** services/werewolfService.ts *)

Module WerewolfService.
Import Supabase.

Inductive Phase :=
  | setup
  | talk
  | vote
  | sudden_death
  | reverse_chance
  | finished.

Inductive Role :=
  | citizen
  | werewolf.

#[global] Instance Phase_eq_dec : EqDecision Phase.
Proof. solve_decision. Defined.

#[global] Instance Role_eq_dec : EqDecision Role.
Proof. solve_decision. Defined.

Module WerewolfSession.
Record t := {
  id : string; room_id : string; citizen_topic : Js.jsstring;
  werewolf_topic : Js.jsstring; phase : Phase; talk_time_seconds : Z;
  reverse_mode : bool; created_at : Z; updated_at : Z;
}.
End WerewolfSession.

Module WerewolfAssignment.
Record t := {
  id : string; session_id : string; participant_id : string; role : Role;
  topic : Js.jsstring; created_at : Z;
}.
End WerewolfAssignment.

Module WerewolfVote.
Record t := {
  id : string; session_id : string; voter_id : string; target_id : string;
  vote_round : Z; created_at : Z;
}.
End WerewolfVote.

Module WerewolfGuess.
Record t := {
  id : string; session_id : string; werewolf_id : string;
  guessed_topic : Js.jsstring; created_at : Z;
}.
End WerewolfGuess.

(** The tables the service works on, and [participants], the table of
    the room service that votes and guesses refer to; the werewolf
    service does not write it. *)
Record Db := {
  participants : list Participant.t;
  werewolf_sessions : list WerewolfSession.t;
  werewolf_assignments : list WerewolfAssignment.t;
  werewolf_votes : list WerewolfVote.t;
  werewolf_guesses : list WerewolfGuess.t;
}.

Definition empty_db : Db :=
  {| participants := [];
     werewolf_sessions := []; werewolf_assignments := [];
     werewolf_votes := []; werewolf_guesses := [] |}.

(** *** Reads *)

Definition getAssignment (n : Net) (sessionId participantId : string) (d : Db)
  : Outcome (option WerewolfAssignment.t) :=
  try_catch
    (data_or_throw
       (await n
          (maybeSingle
             (filter (λ r, WerewolfAssignment.session_id r = sessionId
                           ∧ WerewolfAssignment.participant_id r = participantId)
                (werewolf_assignments d)))))
    (λ _, Return None).

Definition getVotes (n : Net) (sessionId : string) (voteRound : Z) (d : Db)
  : Outcome (list WerewolfVote.t) :=
  try_catch
    (map_outcome or_empty
       (data_or_throw
          (await n
             (ok (filter (λ r, WerewolfVote.session_id r = sessionId
                               ∧ WerewolfVote.vote_round r = voteRound)
                    (werewolf_votes d))))))
    (λ _, Return []).

Definition getSession (n : Net) (sessionId : string) (d : Db)
  : Outcome (option WerewolfSession.t) :=
  try_catch
    (data_or_throw
       (await n
          (maybeSingle
             (filter (λ r, WerewolfSession.id r = sessionId)
                (werewolf_sessions d)))))
    (λ _, Return None).

Definition getActiveSession (n : Net) (roomId : string) (d : Db)
  : Outcome (option WerewolfSession.t) :=
  try_catch
    (data_or_throw
       (await n
          (maybeSingle
             (take 1
                (order_desc WerewolfSession.created_at
                   (filter (λ r, WerewolfSession.room_id r = roomId
                                 ∧ WerewolfSession.phase r ≠ finished)
                      (werewolf_sessions d)))))))
    (λ _, Return None).

Definition getAllAssignments (n : Net) (sessionId : string) (d : Db)
  : Outcome (list WerewolfAssignment.t) :=
  try_catch
    (map_outcome or_empty
       (data_or_throw
          (await n
             (ok (filter (λ r, WerewolfAssignment.session_id r = sessionId)
                    (werewolf_assignments d))))))
    (λ _, Return []).

(** *** Writes *)

(** [update({ phase, updated_at }).eq('id', sessionId)] *)
Definition updatePhase (rq : Request) (sessionId : string) (phase : Phase)
    (d : Db) : Outcome () * Db :=
  match net rq with
  | Reached =>
      (Return (),
       {| participants := participants d;
          werewolf_sessions :=
            (λ r, if decide (WerewolfSession.id r = sessionId) then
                    {| WerewolfSession.id := WerewolfSession.id r;
                       WerewolfSession.room_id := WerewolfSession.room_id r;
                       WerewolfSession.citizen_topic := WerewolfSession.citizen_topic r;
                       WerewolfSession.werewolf_topic := WerewolfSession.werewolf_topic r;
                       WerewolfSession.phase := phase;
                       WerewolfSession.talk_time_seconds := WerewolfSession.talk_time_seconds r;
                       WerewolfSession.reverse_mode := WerewolfSession.reverse_mode r;
                       WerewolfSession.created_at := WerewolfSession.created_at r;
                       WerewolfSession.updated_at := clock rq |}
                  else r) <$> werewolf_sessions d;
          werewolf_assignments := werewolf_assignments d;
          werewolf_votes := werewolf_votes d;
          werewolf_guesses := werewolf_guesses d |})
  | Failed e => (Throw e, d)
  | Rejected e => (Throw e, d)
  end.

(** The foreign keys of a vote: its session, its voter and its target
    are rows the store holds. *)
Definition vote_references (sessionId voterId targetId : string) (d : Db)
  : Prop :=
  sessionId ∈ WerewolfSession.id <$> werewolf_sessions d
  ∧ voterId ∈ Participant.id <$> participants d
  ∧ targetId ∈ Participant.id <$> participants d.

#[global] Instance vote_references_dec sessionId voterId targetId d :
  Decision (vote_references sessionId voterId targetId d).
Proof. unfold vote_references. apply _. Defined.

(** [werewolf_votes] carries [UNIQUE(session_id, voter_id, vote_round)],
    the conflict target of the upsert, [CHECK (voter_id != target_id)]
    and the three foreign keys: the store refuses a row that votes for
    its own voter, and a row whose session, voter or target it does not
    hold. *)
Definition submitVote (rq : Request) (sessionId voterId targetId : string)
    (voteRound : Z) (d : Db) : Outcome WerewolfVote.t * Db :=
  match net rq with
  | Reached =>
      if decide (voterId = targetId) then
        (Throw (PostgrestError "new row for relation werewolf_votes violates check constraint"),
         d)
      else if decide (¬ vote_references sessionId voterId targetId d) then
        (Throw (PostgrestError "insert or update on table werewolf_votes violates foreign key constraint"),
         d)
      else
        let '(row, rows) :=
          upsert
            (λ r, bool_decide (WerewolfVote.session_id r = sessionId
                               ∧ WerewolfVote.voter_id r = voterId
                               ∧ WerewolfVote.vote_round r = voteRound))
            (λ r, {| WerewolfVote.id := WerewolfVote.id r;
                     WerewolfVote.session_id := sessionId;
                     WerewolfVote.voter_id := voterId;
                     WerewolfVote.target_id := targetId;
                     WerewolfVote.vote_round := voteRound;
                     WerewolfVote.created_at := WerewolfVote.created_at r |})
            {| WerewolfVote.id := uuid rq;
               WerewolfVote.session_id := sessionId;
               WerewolfVote.voter_id := voterId;
               WerewolfVote.target_id := targetId;
               WerewolfVote.vote_round := voteRound;
               WerewolfVote.created_at := clock rq |}
            (werewolf_votes d) in
        (Return row,
         {| participants := participants d;
            werewolf_sessions := werewolf_sessions d;
            werewolf_assignments := werewolf_assignments d;
            werewolf_votes := rows;
            werewolf_guesses := werewolf_guesses d |})
  | Failed e => (Throw e, d)
  | Rejected e => (Throw e, d)
  end.

(** The foreign keys of a guess: its session and its werewolf are rows
    the store holds. *)
Definition guess_references (sessionId werewolfId : string) (d : Db) : Prop :=
  sessionId ∈ WerewolfSession.id <$> werewolf_sessions d
  ∧ werewolfId ∈ Participant.id <$> participants d.

#[global] Instance guess_references_dec sessionId werewolfId d :
  Decision (guess_references sessionId werewolfId d).
Proof. unfold guess_references. apply _. Defined.

(** [werewolf_guesses] carries [UNIQUE(session_id, werewolf_id)], the
    conflict target of the upsert, and the two foreign keys. *)
Definition submitGuess (rq : Request) (sessionId werewolfId : string)
    (guessedTopic : Js.jsstring) (d : Db) : Outcome WerewolfGuess.t * Db :=
  match net rq with
  | Reached =>
      if decide (guess_references sessionId werewolfId d) then
        let '(row, rows) :=
          upsert
            (λ r, bool_decide (WerewolfGuess.session_id r = sessionId
                               ∧ WerewolfGuess.werewolf_id r = werewolfId))
            (λ r, {| WerewolfGuess.id := WerewolfGuess.id r;
                     WerewolfGuess.session_id := sessionId;
                     WerewolfGuess.werewolf_id := werewolfId;
                     WerewolfGuess.guessed_topic := guessedTopic;
                     WerewolfGuess.created_at := WerewolfGuess.created_at r |})
            {| WerewolfGuess.id := uuid rq;
               WerewolfGuess.session_id := sessionId;
               WerewolfGuess.werewolf_id := werewolfId;
               WerewolfGuess.guessed_topic := guessedTopic;
               WerewolfGuess.created_at := clock rq |}
            (werewolf_guesses d) in
        (Return row,
         {| participants := participants d;
            werewolf_sessions := werewolf_sessions d;
            werewolf_assignments := werewolf_assignments d;
            werewolf_votes := werewolf_votes d;
            werewolf_guesses := rows |})
      else
        (Throw (PostgrestError "insert or update on table werewolf_guesses violates foreign key constraint"),
         d)
  | Failed e => (Throw e, d)
  | Rejected e => (Throw e, d)
  end.

(** The table's [CHECK], as a property of a stored row. *)
Definition vote_ok (row : WerewolfVote.t) : Prop :=
  WerewolfVote.voter_id row ≠ WerewolfVote.target_id row.

(** A history of the vote table: the calls of [submitVote], its only
    writer, in the order the store serves them. *)
Record VoteCall := {
  request : Request; sessionId : string; voterId : string;
  targetId : string; voteRound : Z;
}.

Definition submitVotes (calls : list VoteCall) (d : Db) : Db :=
  fold_left
    (λ d vc,
       (submitVote (request vc) (sessionId vc) (voterId vc) (targetId vc)
          (voteRound vc) d).2)
    calls d.

(** *** The start and the end of a game *)






(** [endSession]: [now] is the client's [new Date()], written to
    [updated_at]. *)
Definition endSession (rq : Request) (now : Z) (sessionId : string) (d : Db)
  : Outcome () * Db :=
  match net rq with
  | Reached =>
      (Return (),
       {| participants := participants d;
          werewolf_sessions :=
            (λ r, if decide (WerewolfSession.id r = sessionId) then
                    {| WerewolfSession.id := WerewolfSession.id r;
                       WerewolfSession.room_id := WerewolfSession.room_id r;
                       WerewolfSession.citizen_topic := WerewolfSession.citizen_topic r;
                       WerewolfSession.werewolf_topic := WerewolfSession.werewolf_topic r;
                       WerewolfSession.phase := finished;
                       WerewolfSession.talk_time_seconds := WerewolfSession.talk_time_seconds r;
                       WerewolfSession.reverse_mode := WerewolfSession.reverse_mode r;
                       WerewolfSession.created_at := WerewolfSession.created_at r;
                       WerewolfSession.updated_at := now |}
                  else r) <$> werewolf_sessions d;
          werewolf_assignments := werewolf_assignments d;
          werewolf_votes := werewolf_votes d;
          werewolf_guesses := werewolf_guesses d |})
  | Failed e => (Throw e, d)
  | Rejected e => (Throw e, d)
  end.

End WerewolfService.

(** ** components/WerewolfGame.tsx *)

Module Werewolf.
Import Supabase WerewolfService.

Record GameResult := {
  winner : option Role;
  eliminatedPlayer : option string;
  werewolfGuess : option Js.jsstring;
  isCorrectGuess : bool;
}.

Record GameState := {
  phase : Phase;
  session : option WerewolfSession.t;
  assignment : option WerewolfAssignment.t;
  votes : Js.Obj.t string;
  voteRound : Z;
  gameResult : GameResult;
}.

Record Component := {
  gameState : GameState;
  currentParticipant : option Participant.t;
  gameParticipants : list Participant.t;
  selectedVote : option string;
  hasVoted : bool;
  reverseMode : bool;
  guessInput : Js.jsstring;      (* the state variable [werewolfGuess] *)
  phaseButtonClicks : list string;
  hasClickedPhaseButton : bool;
}.

Inductive Event :=
  | WerewolfGameStart (sessionId : string) (reverseMode : bool)
  | WerewolfPhaseChange (phase : Phase)
  | WerewolfVoteSubmitted (voterId targetId : string)
  | WerewolfPhaseButtonClick (participantId : string)
  | WerewolfGameEnd (result : GameResult).

Definition channelName (roomId : string) : string :=
  "werewolf-game-events-" +:+ roomId.
Arguments channelName : simpl never.

Definition with_gameState (g : GameState) (c : Component) : Component :=
  {| gameState := g; currentParticipant := currentParticipant c;
     gameParticipants := gameParticipants c; selectedVote := selectedVote c;
     hasVoted := hasVoted c; reverseMode := reverseMode c;
     guessInput := guessInput c; phaseButtonClicks := phaseButtonClicks c;
     hasClickedPhaseButton := hasClickedPhaseButton c |}.

(** [handlePhaseChange]: the phase is stored, then announced; a failure
    of the store is swallowed and nothing is announced. *)
Definition handlePhaseChange (rq : Request) (roomId sessionId : string)
    (newPhase : Phase) (d : Db) : Db * list (Message Event) :=
  match updatePhase rq sessionId newPhase d with
  | (Return _, d') =>
      (d', [{| channel := channelName roomId;
               event := WerewolfPhaseChange newPhase |}])
  | (Throw _, d') => (d', [])
  end.

(** [handleGameStart] *)
Definition handleGameStart (n1 n2 : Net) (sessionId : string) (rm : bool)
    (c : Component) (d : Db) : Component :=
  match getSession n1 sessionId d, currentParticipant c with
  | Return (Some s), Some me =>
      match getAssignment n2 sessionId (Participant.id me) d with
      | Return a =>
          {| gameState :=
               {| phase := talk; session := Some s; assignment := a;
                  votes := votes (gameState c);
                  voteRound := voteRound (gameState c);
                  gameResult := gameResult (gameState c) |};
             currentParticipant := currentParticipant c;
             gameParticipants := gameParticipants c;
             selectedVote := selectedVote c;
             hasVoted := hasVoted c;
             reverseMode := rm;
             guessInput := guessInput c;
             phaseButtonClicks := phaseButtonClicks c;
             hasClickedPhaseButton := hasClickedPhaseButton c |}
      | Throw _ => c
      end
  | _, _ => c
  end.

Definition is_voting (p : Phase) : bool :=
  bool_decide (p = vote) || bool_decide (p = sudden_death).

(** The listeners registered on [werewolf-game-events-<room>].  The two
    reads and the write are those a listener may start. *)
Definition receive (n1 n2 : Net) (rq : Request) (roomId : string)
    (m : Message Event) (c : Component) (d : Db)
  : Component * Db * list (Message Event) :=
  if decide (channel m = channelName roomId) then
    match event m with
    | WerewolfGameStart sid rm => (handleGameStart n1 n2 sid rm c d, d, [])
    | WerewolfPhaseChange p =>
        ({| gameState :=
              {| phase := p;
                 session := session (gameState c);
                 assignment := assignment (gameState c);
                 votes := if is_voting p then Js.Obj.empty
                          else votes (gameState c);
                 voteRound := voteRound (gameState c);
                 gameResult := gameResult (gameState c) |};
            currentParticipant := currentParticipant c;
            gameParticipants := gameParticipants c;
            selectedVote := if is_voting p then None else selectedVote c;
            hasVoted := if is_voting p then false else hasVoted c;
            reverseMode := reverseMode c;
            guessInput := guessInput c;
            phaseButtonClicks := [];
            hasClickedPhaseButton := false |}, d, [])
    | WerewolfVoteSubmitted voter target =>
        (with_gameState
           {| phase := phase (gameState c);
              session := session (gameState c);
              assignment := assignment (gameState c);
              votes := Js.Obj.set (votes (gameState c)) voter target;
              voteRound := voteRound (gameState c);
              gameResult := gameResult (gameState c) |} c, d, [])
    | WerewolfPhaseButtonClick pid =>
        let newSet := Js.Set_add (phaseButtonClicks c) pid in
        let c' :=
          {| gameState := gameState c;
             currentParticipant := currentParticipant c;
             gameParticipants := gameParticipants c;
             selectedVote := selectedVote c;
             hasVoted := hasVoted c;
             reverseMode := reverseMode c;
             guessInput := guessInput c;
             phaseButtonClicks := newSet;
             hasClickedPhaseButton := hasClickedPhaseButton c |} in
        match session (gameState c) with
        | Some s =>
            if bool_decide (2 ≤ Z.of_nat (length newSet)) then
              let '(d', sent) :=
                handlePhaseChange rq roomId (WerewolfSession.id s) vote d in
              (c', d', sent)
            else (c', d, [])
        | None => (c', d, [])
        end
    | WerewolfGameEnd result =>
        (with_gameState
           {| phase := finished;
              session := session (gameState c);
              assignment := assignment (gameState c);
              votes := votes (gameState c);
              voteRound := voteRound (gameState c);
              gameResult := result |} c, d, [])
    end
  else (c, d, []).

(** [handleVote] *)
Definition handleVote (rq : Request) (roomId targetId : string)
    (c : Component) (d : Db) : Component * Db * list (Message Event) :=
  match currentParticipant c, session (gameState c) with
  | Some me, Some s =>
      if hasVoted c then (c, d, [])
      else
        match
          submitVote rq (WerewolfSession.id s) (Participant.id me) targetId
            (voteRound (gameState c)) d
        with
        | (Return _, d') =>
            ({| gameState :=
                  {| phase := phase (gameState c);
                     session := session (gameState c);
                     assignment := assignment (gameState c);
                     votes := Js.Obj.set (votes (gameState c))
                                (Participant.id me) targetId;
                     voteRound := voteRound (gameState c);
                     gameResult := gameResult (gameState c) |};
                currentParticipant := currentParticipant c;
                gameParticipants := gameParticipants c;
                selectedVote := Some targetId;
                hasVoted := true;
                reverseMode := reverseMode c;
                guessInput := guessInput c;
                phaseButtonClicks := phaseButtonClicks c;
                hasClickedPhaseButton := hasClickedPhaseButton c |},
             d',
             [{| channel := channelName roomId;
                 event := WerewolfVoteSubmitted (Participant.id me) targetId |}])
        | (Throw _, d') => (c, d', [])
        end
  | _, _ => (c, d, [])
  end.

(** The targets the vote phase offers: every participant but oneself. *)
Definition voteButtons (c : Component) : list Participant.t :=
  filter (λ p, Some (Participant.id p) ≠ Participant.id <$> currentParticipant c)
    (gameParticipants c).

(** *** The tally of [handleShowResults] *)

Definition voteCount (votes : list WerewolfVote.t) : Js.Obj.t Z :=
  fold_left
    (λ count vote,
       Js.Obj.set count (WerewolfVote.target_id vote)
         (default 0 (Js.Obj.get count (WerewolfVote.target_id vote)) + 1))
    votes Js.Obj.empty.

(** [Math.max(...values)]; [None] stands for the [-Infinity] of no
    argument. *)
Definition Math_max (values : list Z) : option Z :=
  match values with
  | [] => None
  | v :: values' => Some (fold_left Z.max values' v)
  end.

Definition maxVotes (votes : list WerewolfVote.t) : option Z :=
  Math_max (Js.Obj.values (voteCount votes)).

Definition eliminatedCandidates (votes : list WerewolfVote.t) : list string :=
  List.filter
    (λ id, bool_decide (Js.Obj.get (voteCount votes) id = maxVotes votes))
    (Js.Obj.keys (voteCount votes)).

(** The votes cast for [id], and what it means that [id] holds the
    maximum vote count. *)
Definition votes_for (votes : list WerewolfVote.t) (id : string) : nat :=
  length (filter (λ v, WerewolfVote.target_id v = id) votes).

Definition holds_maximum (votes : list WerewolfVote.t) (id : string) : Prop :=
  (0 < votes_for votes id)%nat
  ∧ ∀ id', (votes_for votes id' ≤ votes_for votes id)%nat.

Definition finish (result : GameResult) (roomId : string) (c : Component)
  : Component * list (Message Event) :=
  (with_gameState
     {| phase := finished;
        session := session (gameState c);
        assignment := assignment (gameState c);
        votes := votes (gameState c);
        voteRound := voteRound (gameState c);
        gameResult := result |} c,
   [{| channel := channelName roomId; event := WerewolfGameEnd result |}]).

Definition handleShowResults (nv na : Net) (rq : Request) (roomId : string)
    (c : Component) (d : Db) : Component * Db * list (Message Event) :=
  match session (gameState c) with
  | None => (c, d, [])
  | Some s =>
      match
        getVotes nv (WerewolfSession.id s) (voteRound (gameState c)) d,
        getAllAssignments na (WerewolfSession.id s) d
      with
      | Return voteRows, Return assignmentRows =>
          if bool_decide (length voteRows = 0%nat) then (c, d, [])
          else if bool_decide (1 < Z.of_nat (length (eliminatedCandidates voteRows)))
          then
            if decide (phase (gameState c) = sudden_death) then
              let '(c', sent) :=
                finish {| winner := Some werewolf;
                          eliminatedPlayer := None;
                          werewolfGuess := None;
                          isCorrectGuess := false |} roomId c in
              (c', d, sent)
            else
              let c' :=
                with_gameState
                  {| phase := phase (gameState c);
                     session := session (gameState c);
                     assignment := assignment (gameState c);
                     votes := votes (gameState c);
                     voteRound := voteRound (gameState c) + 1;
                     gameResult := gameResult (gameState c) |} c in
              let '(d', sent) :=
                handlePhaseChange rq roomId (WerewolfSession.id s)
                  sudden_death d in
              (c', d', sent)
          else
            let eliminatedId := head (eliminatedCandidates voteRows) in
            let eliminatedAssignment :=
              List.find
                (λ a, bool_decide
                        (Some (WerewolfAssignment.participant_id a)
                         = eliminatedId))
                assignmentRows in
            let isWerewolfEliminated :=
              bool_decide
                (WerewolfAssignment.role <$> eliminatedAssignment
                 = Some werewolf) in
            if isWerewolfEliminated && reverseMode c then
              let '(d', sent) :=
                handlePhaseChange rq roomId (WerewolfSession.id s)
                  reverse_chance d in
              (c, d', sent)
            else
              let '(c', sent) :=
                finish {| winner := if isWerewolfEliminated
                                    then Some citizen else Some werewolf;
                          eliminatedPlayer := eliminatedId;
                          werewolfGuess := None;
                          isCorrectGuess := false |} roomId c in
              (c', d, sent)
      | _, _ => (c, d, [])
      end
  end.

(** [handleWerewolfGuess]: the guess is trimmed, stored, compared with
    the citizens' topic and the verdict announced; the local state moves
    when the announcement comes back. *)
Definition handleWerewolfGuess (rq : Request) (roomId : string)
    (c : Component) (d : Db) : Component * Db * list (Message Event) :=
  match session (gameState c), currentParticipant c with
  | Some s, Some me =>
      if Js.falsy (Js.trim (guessInput c)) then (c, d, [])
      else
        match
          submitGuess rq (WerewolfSession.id s) (Participant.id me)
            (Js.trim (guessInput c)) d
        with
        | (Return _, d') =>
            let isCorrect :=
              bool_decide
                (Js.trim (guessInput c) = WerewolfSession.citizen_topic s) in
            (c, d',
             [{| channel := channelName roomId;
                 event :=
                   WerewolfGameEnd
                     {| winner := if isCorrect then Some werewolf
                                  else Some citizen;
                        eliminatedPlayer := Some (Participant.id me);
                        werewolfGuess := Some (Js.trim (guessInput c));
                        isCorrectGuess := isCorrect |} |}])
        | (Throw _, d') => (c, d', [])
        end
  | _, _ => (c, d, [])
  end.

(** *** The phase button and the start of a game *)

(** [handlePhaseButtonClick]: the click is recorded and announced; counting
    the clicks known before it and itself, the second click moves the
    game to the vote. *)
Definition handlePhaseButtonClick (rq : Request) (roomId : string)
    (c : Component) (d : Db) : Component * Db * list (Message Event) :=
  match currentParticipant c with
  | None => (c, d, [])
  | Some me =>
      if hasClickedPhaseButton c then (c, d, [])
      else
        let c' :=
          {| gameState := gameState c;
             currentParticipant := currentParticipant c;
             gameParticipants := gameParticipants c;
             selectedVote := selectedVote c;
             hasVoted := hasVoted c;
             reverseMode := reverseMode c;
             guessInput := guessInput c;
             phaseButtonClicks :=
               Js.Set_add (phaseButtonClicks c) (Participant.id me);
             hasClickedPhaseButton := true |} in
        let click :=
          {| channel := channelName roomId;
             event := WerewolfPhaseButtonClick (Participant.id me) |} in
        let newClickCount := Z.of_nat (length (phaseButtonClicks c)) + 1 in
        if bool_decide (2 ≤ newClickCount) then
          match session (gameState c) with
          | Some s =>
              let '(d', sent) :=
                handlePhaseChange rq roomId (WerewolfSession.id s) vote d in
              (c', d', click :: sent)
          | None => (c', d, [click])
          end
        else (c', d, [click])
  end.

(** *** What the view binds the handlers to

    The vote phase shows a button per other participant until the client
    has voted and, with a session, the button bound to
    [handleShowResults]; the talk and the sudden death show the phase
    button to a client that holds an assignment.  No other phase shows
    them, so a press is a call of the handler in those states and nothing
    elsewhere. *)

Definition showResultsButton (c : Component) : bool :=
  match session (gameState c) with
  | Some _ => bool_decide (phase (gameState c) = vote)
  | None => false
  end.

Definition pressShowResults (nv na : Net) (rq : Request) (roomId : string)
    (c : Component) (d : Db) : Component * Db * list (Message Event) :=
  if showResultsButton c then handleShowResults nv na rq roomId c d
  else (c, d, []).

Definition voteButton (targetId : string) (c : Component) : bool :=
  bool_decide (phase (gameState c) = vote)
  && negb (hasVoted c)
  && bool_decide (targetId ∈ Participant.id <$> voteButtons c).

Definition pressVote (rq : Request) (roomId targetId : string)
    (c : Component) (d : Db) : Component * Db * list (Message Event) :=
  if voteButton targetId c then handleVote rq roomId targetId c d
  else (c, d, []).

Definition phaseButton (c : Component) : bool :=
  (bool_decide (phase (gameState c) = talk)
   || bool_decide (phase (gameState c) = sudden_death))
  && match assignment (gameState c) with Some _ => true | None => false end
  && negb (hasClickedPhaseButton c).

Definition pressPhaseButton (rq : Request) (roomId : string)
    (c : Component) (d : Db) : Component * Db * list (Message Event) :=
  if phaseButton c then handlePhaseButtonClick rq roomId c d else (c, d, []).

Module TopicPair.
Record t := { citizen : Js.jsstring; werewolf : Js.jsstring }.
End TopicPair.




End Werewolf.

(** ** services/roomService.ts *)

Module RoomService.
Import Supabase.

(** The two tables of the service.  [participants] carries
    [UNIQUE(session_token)], the conflict target of the join, and
    [UNIQUE(room_id, nickname)]; its [room_id] refers to [rooms]. *)
Record Db := {
  rooms : list Room.t;
  participants : list Participant.t;
}.

(** What the browser keeps in [localStorage]. *)
Record LocalStorage := {
  room_session_token : option string;
  current_participant : option Participant.t;
}.

(** [getSessionToken]: [fresh] is the token generated when none is kept. *)
Definition getSessionToken (fresh : string) (ls : LocalStorage)
  : string * LocalStorage :=
  match room_session_token ls with
  | Some token => (token, ls)
  | None =>
      (fresh, {| room_session_token := Some fresh;
                 current_participant := current_participant ls |})
  end.

Definition setCurrentParticipant (p : Participant.t) (ls : LocalStorage)
  : LocalStorage :=
  {| room_session_token := room_session_token ls;
     current_participant := Some p |}.

Inductive Event :=
  | ParticipantJoined (participant : Participant.t)
  | ParticipantUpdateJoined (participant : Participant.t).

(** The three requests of one attempt to join. *)
Record Attempt := {
  room_request : Request;
  cleanup_net : Net;
  join_request : Request;
}.

(** [from("rooms").upsert({ id, name, is_active }, { onConflict: "id" })] *)
Definition upsert_room (rq : Request) (roomId : string) (d : Db)
  : Outcome (Response Room.t) * Db :=
  match net rq with
  | Reached =>
      let '(row, rows) :=
        upsert (λ r, bool_decide (Room.id r = roomId))
          (λ r, {| Room.id := Room.id r; Room.name := Some roomId;
                   Room.created_at := Room.created_at r;
                   Room.last_activity := Room.last_activity r;
                   Room.is_active := true |})
          {| Room.id := roomId; Room.name := Some roomId;
             Room.created_at := clock rq; Room.last_activity := clock rq;
             Room.is_active := true |}
          (rooms d) in
      (Return (ok row), {| rooms := rows; participants := participants d |})
  | Failed e => (Return (refused e), d)
  | Rejected e => (Throw e, d)
  end.

(** The rows the cleanup addresses: same room, same nickname, another
    session. *)
Definition holds_nickname_elsewhere (roomId nickname sessionToken : string)
    (r : Participant.t) : Prop :=
  Participant.room_id r = roomId ∧ Participant.nickname r = nickname
  ∧ Participant.session_token r ≠ sessionToken.

#[global] Instance holds_nickname_elsewhere_dec roomId nickname sessionToken r :
  Decision (holds_nickname_elsewhere roomId nickname sessionToken r).
Proof. unfold holds_nickname_elsewhere. apply _. Defined.

(** [from("participants").delete().eq("room_id", ..).eq("nickname", ..)
    .neq("session_token", ..)]; its [{ error }] is not looked at. *)
Definition delete_nickname (n : Net) (roomId nickname sessionToken : string)
    (d : Db) : Outcome () * Db :=
  match n with
  | Reached =>
      (Return (),
       {| rooms := rooms d;
          participants :=
            filter (λ r, ¬ holds_nickname_elsewhere roomId nickname sessionToken r)
              (participants d) |})
  | Failed e => (Return (), d)
  | Rejected e => (Throw e, d)
  end.

(** [from("participants").upsert({...}, { onConflict: "session_token",
    ignoreDuplicates: false }).select().single()].  The store refuses
    the row when its room is unknown or when another session holds the
    nickname in the room. *)
Definition upsert_participant (rq : Request)
    (roomId nickname sessionToken : string) (d : Db)
  : Outcome (Response Participant.t) * Db :=
  match net rq with
  | Reached =>
      if bool_decide (roomId ∈ Room.id <$> rooms d) then
        if bool_decide
             (Exists (holds_nickname_elsewhere roomId nickname sessionToken)
                (participants d))
        then
          (Return (refused (PostgrestError "duplicate key value violates unique constraint participants_room_id_nickname_key")),
           d)
        else
          let '(row, rows) :=
            upsert (λ r, bool_decide (Participant.session_token r = sessionToken))
              (λ r, {| Participant.id := Participant.id r;
                       Participant.room_id := roomId;
                       Participant.nickname := nickname;
                       Participant.session_token := sessionToken;
                       Participant.joined_at := clock rq;
                       Participant.last_seen := clock rq;
                       Participant.is_online := true |})
              {| Participant.id := uuid rq;
                 Participant.room_id := roomId;
                 Participant.nickname := nickname;
                 Participant.session_token := sessionToken;
                 Participant.joined_at := clock rq;
                 Participant.last_seen := clock rq;
                 Participant.is_online := true |}
              (participants d) in
          (Return (ok row), {| rooms := rooms d; participants := rows |})
      else
        (Return (refused (PostgrestError "insert or update on table participants violates foreign key constraint")),
         d)
  | Failed e => (Return (refused e), d)
  | Rejected e => (Throw e, d)
  end.

(** One pass through the [try] block of [attemptJoinRoom]. *)
Definition tryJoinRoom (a : Attempt) (roomId nickname sessionToken : string)
    (ls : LocalStorage) (d : Db)
  : Outcome Participant.t * LocalStorage * Db * list (Message Event) :=
  let '(roomResult, d1) := upsert_room (room_request a) roomId d in
  match data_or_throw roomResult with
  | Throw roomError => (Throw roomError, ls, d1, [])
  | Return _ =>
      match delete_nickname (cleanup_net a) roomId nickname sessionToken d1 with
      | (Throw e, d2) => (Throw e, ls, d2, [])
      | (Return _, d2) =>
          let '(joined, d3) :=
            upsert_participant (join_request a) roomId nickname sessionToken d2 in
          match single_or_throw joined with
          | Throw error => (Throw error, ls, d3, [])
          | Return data =>
              (Return data, setCurrentParticipant data ls, d3,
               [{| channel := "room-updates-" +:+ roomId;
                   event := ParticipantJoined data |};
                {| channel := "participants-" +:+ roomId;
                   event := ParticipantUpdateJoined data |}])
          end
      end
  end.

(** [attemptJoinRoom]: [retryCount] counts the attempts made, [left] is
    [maxRetries - 1 - retryCount]. *)
Fixpoint attemptJoinRoom (left retryCount : nat) (attempts : nat → Attempt)
    (roomId nickname sessionToken : string) (ls : LocalStorage) (d : Db)
  : Outcome Participant.t * LocalStorage * Db * list (Message Event) :=
  match tryJoinRoom (attempts retryCount) roomId nickname sessionToken ls d with
  | (Return data, ls', d', sent) => (Return data, ls', d', sent)
  | (Throw error, ls', d', sent) =>
      match left with
      | S left' =>
          attemptJoinRoom left' (S retryCount) attempts roomId nickname
            sessionToken ls' d'
      | O => (Throw error, ls', d', sent)
      end
  end.

Definition joinRoom (isMobile : bool) (fresh : string) (attempts : nat → Attempt)
    (roomId nickname : string) (ls : LocalStorage) (d : Db)
  : Outcome Participant.t * LocalStorage * Db * list (Message Event) :=
  let '(sessionToken, ls0) := getSessionToken fresh ls in
  let maxRetries := if isMobile then 5%nat else 3%nat in
  let '(r, ls', d', sent) :=
    attemptJoinRoom (maxRetries - 1) 0 attempts roomId nickname sessionToken
      ls0 d in
  (try_catch r
     (λ error,
        Throw (new_Error ("ルームへの参加に失敗しました。ネットワーク接続を確認してください。("
                          +:+ message_or_unknown error +:+ ")"))),
   ls', d', sent).

(** *** Leaving, presence and the participant list *)

Definition clearCurrentParticipant (ls : LocalStorage) : LocalStorage :=
  {| room_session_token := None; current_participant := None |}.

(** The trigger [update_room_activity_on_participant_change]: a row of
    [participants] that is updated or deleted stamps [last_activity] of
    its room. *)
Definition update_room_last_activity (now : Z) (rooms : list Room.t)
    (changed : Participant.t) : list Room.t :=
  (λ r, if decide (Room.id r = Participant.room_id changed) then
          {| Room.id := Room.id r; Room.name := Room.name r;
             Room.created_at := Room.created_at r;
             Room.last_activity := now;
             Room.is_active := Room.is_active r |}
        else r) <$> rooms.

Inductive LeftEvent :=
  | ParticipantLeft (participantId : string)
  | ParticipantUpdateLeft (participantId : string).

(** [leaveRoom]: the row is looked up for the name of its room, then
    deleted; the [{ error }] of the lookup is not looked at. *)
Definition leaveRoom (n : Net) (rq : Request) (participantId : string)
    (ls : LocalStorage) (d : Db)
  : Outcome () * LocalStorage * Db * list (Message LeftEvent) :=
  match
    await n
      (maybeSingle
         (filter (λ r, Participant.id r = participantId) (participants d)))
  with
  | Throw e => (Throw e, ls, d, [])
  | Return found =>
      match net rq with
      | Reached =>
          (Return (), clearCurrentParticipant ls,
           {| rooms :=
                fold_left (update_room_last_activity (clock rq))
                  (filter (λ r, Participant.id r = participantId)
                     (participants d))
                  (rooms d);
              participants :=
                filter (λ r, Participant.id r ≠ participantId) (participants d) |},
           match data found with
           | Some participant =>
               [{| channel := "room-updates-" +:+ Participant.room_id participant;
                   event := ParticipantLeft participantId |};
                {| channel := "participants-" +:+ Participant.room_id participant;
                   event := ParticipantUpdateLeft participantId |}]
           | None => []
           end)
      | Failed e => (Throw e, ls, d, [])
      | Rejected e => (Throw e, ls, d, [])
      end
  end.

(** [updateLastSeen]: nothing is thrown.  The trigger
    [update_participant_last_seen_trigger] puts the store's [now()] into
    [last_seen] of an updated row. *)
Definition updateLastSeen (rq : Request) (participantId : string) (d : Db)
  : Db :=
  match net rq with
  | Reached =>
      {| rooms :=
           fold_left (update_room_last_activity (clock rq))
             (filter (λ r, Participant.id r = participantId) (participants d))
             (rooms d);
         participants :=
           (λ r, if decide (Participant.id r = participantId) then
                   {| Participant.id := Participant.id r;
                      Participant.room_id := Participant.room_id r;
                      Participant.nickname := Participant.nickname r;
                      Participant.session_token := Participant.session_token r;
                      Participant.joined_at := Participant.joined_at r;
                      Participant.last_seen := clock rq;
                      Participant.is_online := true |}
                 else r) <$> participants d |}
  | Failed _ => d
  | Rejected _ => d
  end.

(** The rows [cleanupInactiveParticipants] addresses: [now] is the
    client's [Date.now()], the cutoff two minutes before it. *)
Definition inactive (now : Z) (roomId : string) (r : Participant.t) : Prop :=
  Participant.room_id r = roomId
  ∧ Participant.last_seen r < now - 2 * 60 * 1000.

#[global] Instance inactive_dec now roomId r : Decision (inactive now roomId r).
Proof. unfold inactive. apply _. Defined.

(** [cleanupInactiveParticipants]: nothing is thrown. *)
Definition cleanupInactiveParticipants (rq : Request) (now : Z)
    (roomId : string) (d : Db) : Db :=
  match net rq with
  | Reached =>
      {| rooms :=
           fold_left (update_room_last_activity (clock rq))
             (filter (inactive now roomId) (participants d)) (rooms d);
         participants :=
           filter (λ r, ¬ inactive now roomId r) (participants d) |}
  | Failed _ => d
  | Rejected _ => d
  end.

(** [.order("joined_at", { ascending: true })] *)
Definition order_joined_at (rows : list Participant.t) : list Participant.t :=
  @merge_sort Participant.t
    (λ a b, Participant.joined_at a ≤ Participant.joined_at b)
    (λ a b, decide (Participant.joined_at a ≤ Participant.joined_at b)) rows.

(** [getParticipants]: unlike the reads of the game services, it throws
    what the store or the transport reports. *)
Definition getParticipants (rq : Request) (now : Z) (n : Net) (roomId : string)
    (d : Db) : Outcome (list Participant.t) * Db :=
  let d1 := cleanupInactiveParticipants rq now roomId d in
  (map_outcome or_empty
     (data_or_throw
        (await n
           (ok (order_joined_at
                  (filter (λ r, Participant.room_id r = roomId
                                ∧ Participant.is_online r = true)
                     (participants d1)))))),
   d1).

(** [getCurrentParticipantFromRoom]: the row of this browser's session in
    the room, or [null]; nothing is thrown. *)
Definition getCurrentParticipantFromRoom (fresh : string) (n : Net)
    (rq : Request) (roomId : string) (ls : LocalStorage) (d : Db)
  : option Participant.t * LocalStorage * Db :=
  let '(sessionToken, ls0) := getSessionToken fresh ls in
  match
    data_or_throw
      (await n
         (maybeSingle
            (filter (λ r, Participant.room_id r = roomId
                          ∧ Participant.session_token r = sessionToken
                          ∧ Participant.is_online r = true)
               (participants d))))
  with
  | Return (Some data) =>
      (Some data, setCurrentParticipant data ls0, updateLastSeen rq (Participant.id data) d)
  | Return None => (None, ls0, d)
  | Throw _ => (None, ls0, d)
  end.

End RoomService.

(** ** services/gameService.ts: the creation of a session

    [createGameSession] asks [roomService] who the caller is, so it comes
    after it. *)

Module GameSessions.
Import Supabase GameService.

(** The requests of one attempt: the lookup of the caller, its
    [updateLastSeen], and the insert. *)
Record Attempt := {
  caller_net : Net;
  seen_request : Request;
  insert_request : Request;
}.

(** [from('game_sessions').insert({...}).select().single()]; [room_id]
    refers to [rooms]. *)
Definition insert_game_session (rq : Request) (roomId gameType : string)
    (created_by : option string) (rooms : list Room.t) (d : Db)
  : Outcome (Response GameSession.t) * Db :=
  match net rq with
  | Reached =>
      if bool_decide (roomId ∈ Room.id <$> rooms) then
        let row :=
          {| GameSession.id := uuid rq;
             GameSession.room_id := roomId;
             GameSession.game_type := gameType;
             GameSession.status := "active";
             GameSession.created_by := created_by;
             GameSession.created_at := clock rq;
             GameSession.updated_at := clock rq |} in
        (Return (ok row), with_game_sessions (game_sessions d ++ [row]) d)
      else
        (Return (refused (PostgrestError "insert or update on table game_sessions violates foreign key constraint")),
         d)
  | Failed e => (Return (refused e), d)
  | Rejected e => (Throw e, d)
  end.

(** [attemptCreateSession]: [retryCount] counts the attempts made, [left]
    is [maxRetries - 1 - retryCount]. *)
Fixpoint attemptCreateSession (left retryCount : nat) (fresh : string)
    (attempts : nat → Attempt) (roomId gameType : string)
    (ls : RoomService.LocalStorage) (rd : RoomService.Db) (d : Db)
  : Outcome GameSession.t * RoomService.LocalStorage * RoomService.Db * Db :=
  let '(currentParticipant, ls1, rd1) :=
    RoomService.getCurrentParticipantFromRoom fresh
      (caller_net (attempts retryCount)) (seen_request (attempts retryCount))
      roomId ls rd in
  let '(r, d1) :=
    insert_game_session (insert_request (attempts retryCount)) roomId gameType
      (match currentParticipant with
       | Some p =>
           if decide (Participant.id p = "") then None
           else Some (Participant.id p)
       | None => None
       end)
      (RoomService.rooms rd1) d in
  match single_or_throw r with
  | Return data => (Return data, ls1, rd1, d1)
  | Throw error =>
      match left with
      | S left' =>
          attemptCreateSession left' (S retryCount) fresh attempts roomId
            gameType ls1 rd1 d1
      | O => (Throw error, ls1, rd1, d1)
      end
  end.

(** [createGameSession], run with its lock free. *)
Definition createGameSession (isMobile : bool) (fresh : string)
    (attempts : nat → Attempt) (roomId gameType : string)
    (ls : RoomService.LocalStorage) (rd : RoomService.Db) (d : Db)
  : Outcome GameSession.t * RoomService.LocalStorage * RoomService.Db * Db :=
  let maxRetries := if isMobile then 3%nat else 1%nat in
  let '(r, ls', rd', d') :=
    attemptCreateSession (maxRetries - 1) 0 fresh attempts roomId gameType
      ls rd d in
  (try_catch r
     (λ error,
        Throw (new_Error ("ゲームセッションの作成に失敗しました。(" +:+ message_or_unknown error +:+ ")"))),
   ls', rd', d').

End GameSessions.

(** ** Concrete rounds, used as witnesses and counterexamples *)

Module Scenario.
Import Supabase.

Definition alice : Participant.t :=
  {| Participant.id := "a11ce"; Participant.room_id := "room1";
     Participant.nickname := "alice"; Participant.session_token := "session_a";
     Participant.joined_at := 0; Participant.last_seen := 0;
     Participant.is_online := true |}.

Definition bob : Participant.t :=
  {| Participant.id := "b0b"; Participant.room_id := "room1";
     Participant.nickname := "bob"; Participant.session_token := "session_b";
     Participant.joined_at := 1; Participant.last_seen := 1;
     Participant.is_online := true |}.

Definition carol : Participant.t :=
  {| Participant.id := "ca401"; Participant.room_id := "room1";
     Participant.nickname := "carol"; Participant.session_token := "session_c";
     Participant.joined_at := 2; Participant.last_seen := 2;
     Participant.is_online := true |}.

(** A request that reaches the store, which would name a new row [id]. *)
Definition reaching (id : string) (t : Z) : Request :=
  {| net := Reached; uuid := id; clock := t |}.

(** *** The store at the start of a round: the participants of the room,
    the session [s1] and the question [q1] of the game, no answer yet *)

Definition session_s1 (gameType : string) : GameService.GameSession.t :=
  {| GameService.GameSession.id := "s1";
     GameService.GameSession.room_id := "room1";
     GameService.GameSession.game_type := gameType;
     GameService.GameSession.status := "active";
     GameService.GameSession.created_by := Some (Participant.id carol);
     GameService.GameSession.created_at := 100;
     GameService.GameSession.updated_at := 100 |}.

Definition survey_session : GameService.GameSession.t :=
  session_s1 "anonymous_survey".

Definition survey_question : GameService.GameQuestion.t :=
  {| GameService.GameQuestion.id := "q1";
     GameService.GameQuestion.session_id := "s1";
     GameService.GameQuestion.question := "do you like coffee";
     GameService.GameQuestion.questioner_id := Participant.id carol;
     GameService.GameQuestion.created_at := 200;
     GameService.GameQuestion.is_active := true |}.

Definition survey_round : GameService.Db :=
  {| GameService.participants := [alice; bob; carol];
     GameService.game_sessions := [survey_session];
     GameService.game_questions := [survey_question];
     GameService.ranking_questions := [];
     GameService.synchro_questions := [];
     GameService.game_responses := [];
     GameService.ranking_responses := [];
     GameService.synchro_responses := [] |}.

Definition ranking_question : GameService.RankingQuestion.t :=
  {| GameService.RankingQuestion.id := "q1";
     GameService.RankingQuestion.session_id := "s1";
     GameService.RankingQuestion.question := "who is tallest";
     GameService.RankingQuestion.questioner_id := Participant.id bob;
     GameService.RankingQuestion.created_at := 200;
     GameService.RankingQuestion.is_active := true |}.

Definition ranking_round_db : GameService.Db :=
  {| GameService.participants := [alice; bob];
     GameService.game_sessions := [session_s1 "ranking"];
     GameService.game_questions := [];
     GameService.ranking_questions := [ranking_question];
     GameService.synchro_questions := [];
     GameService.game_responses := [];
     GameService.ranking_responses := [];
     GameService.synchro_responses := [] |}.

Definition synchro_question : GameService.SynchroQuestion.t :=
  {| GameService.SynchroQuestion.id := "q1";
     GameService.SynchroQuestion.session_id := "s1";
     GameService.SynchroQuestion.question := "fruit";
     GameService.SynchroQuestion.gm_id := Participant.id alice;
     GameService.SynchroQuestion.created_at := 200;
     GameService.SynchroQuestion.is_active := true |}.

Definition synchro_round_db : GameService.Db :=
  {| GameService.participants := [alice; bob];
     GameService.game_sessions := [session_s1 "synchro"];
     GameService.game_questions := [];
     GameService.ranking_questions := [];
     GameService.synchro_questions := [synchro_question];
     GameService.game_responses := [];
     GameService.ranking_responses := [];
     GameService.synchro_responses := [] |}.

(** *** A synchro round: alice types [" apple"], bob types ["apple"] *)

Definition synchro_start (me : Participant.t) : Synchro.Component :=
  {| Synchro.gameState :=
       {| Synchro.phase := Synchro.answering;
          Synchro.question := "fruit";
          Synchro.questionId := "q1";
          Synchro.responses := Js.Obj.empty;
          Synchro.gmId := Participant.id alice;
          Synchro.gmName := "alice";
          Synchro.sessionId := "s1" |};
     Synchro.currentQuestion := "";
     Synchro.currentAnswer := [];
     Synchro.hasAnswered := false;
     Synchro.isGM := bool_decide (Participant.id me = Participant.id alice);
     Synchro.currentParticipant := Some me;
     Synchro.currentGameSessionId := "s1";
     Synchro.gameParticipants := [alice; bob] |}.

Definition typed_by_alice : Js.jsstring := Js.of_string " apple".
Definition typed_by_bob : Js.jsstring := Js.of_string "apple".

Definition synchro_alice_submits :=
  Synchro.handleSubmitAnswer (reaching "r1" 10) "room1"
    (Synchro.with_currentAnswer typed_by_alice (synchro_start alice))
    synchro_round_db.

Definition synchro_bob_submits :=
  Synchro.handleSubmitAnswer (reaching "r2" 11) "room1"
    (Synchro.with_currentAnswer typed_by_bob (synchro_start bob))
    (synchro_alice_submits.1.2).

Definition synchro_alice_typing : Synchro.Component :=
  Synchro.with_currentAnswer typed_by_alice (synchro_start alice).

(** Alice's client after bob's broadcast has arrived. *)
Definition synchro_alice_view : Synchro.Component :=
  fold_left (λ c m, Synchro.receive "room1" m c) (synchro_bob_submits.2)
    (synchro_alice_submits.1.1).

(** *** Ranking rounds with the answers [1, 2, 3] and [1, 2, 2] *)

Definition ranking_round (ranks : Js.Obj.t Z) : Ranking.GameState :=
  {| Ranking.phase := Ranking.results;
     Ranking.question := "who is tallest";
     Ranking.questionId := "q1";
     Ranking.responses := ranks;
     Ranking.questionerId := Participant.id alice;
     Ranking.questionerName := "alice";
     Ranking.sessionId := "s1" |}.

Definition ranks_123 : Js.Obj.t Z :=
  [(Participant.id alice, 1); (Participant.id bob, 2); (Participant.id carol, 3)].

Definition ranks_122 : Js.Obj.t Z :=
  [(Participant.id alice, 1); (Participant.id bob, 2); (Participant.id carol, 2)].

(** *** A ranking round in which bob's answer broadcast does not reach
    alice *)

Definition ranking_start (me : Participant.t) : Ranking.Component :=
  {| Ranking.gameState :=
       {| Ranking.phase := Ranking.answering;
          Ranking.question := "who is tallest";
          Ranking.questionId := "q1";
          Ranking.responses := Js.Obj.empty;
          Ranking.questionerId := Participant.id bob;
          Ranking.questionerName := "bob";
          Ranking.sessionId := "s1" |};
     Ranking.currentQuestion := "";
     Ranking.selectedRank := Some 1;
     Ranking.hasAnswered := false;
     Ranking.isQuestioner := bool_decide (Participant.id me = Participant.id bob);
     Ranking.currentParticipant := Some me;
     Ranking.currentGameSessionId := "s1";
     Ranking.gameParticipants := [alice; bob] |}.

(** Alice picks rank 1 and submits; her row is stored. *)
Definition ranking_alice_submits :=
  Ranking.handleSubmitRank (reaching "r1" 10) "room1" (ranking_start alice)
    ranking_round_db.

(** Her broadcast reaches bob, the questioner. *)
Definition ranking_bob_hears : Ranking.Component :=
  fold_left (λ c m, Ranking.receive "room1" m c) (ranking_alice_submits.2)
    (ranking_start bob).

(** Bob picks rank 1 as well and submits; his row is stored, and his
    broadcast never reaches alice. *)
Definition ranking_bob_submits :=
  Ranking.handleSubmitRank (reaching "r2" 11) "room1" ranking_bob_hears
    (ranking_alice_submits.1.2).

(** Bob holds an answer of each participant; he presses the reveal
    button. *)
Definition ranking_bob_reveals :=
  Ranking.pressShowResults "room1" (ranking_bob_submits.1.1).

(** Alice's client once [ranking_show_results] has arrived. *)
Definition ranking_alice_sees : Ranking.Component :=
  fold_left (λ c m, Ranking.receive "room1" m c) (ranking_bob_reveals.2)
    (ranking_alice_submits.1.1).

(** The answers of the round as the store holds them at that moment. *)
Definition ranking_stored_answers : Js.Obj.t Z :=
  Js.Obj.of_rows GameService.RankingResponse.participant_id
    GameService.RankingResponse.rank_choice
    (filter (λ r, GameService.RankingResponse.question_id r = "q1")
       (GameService.ranking_responses (ranking_bob_submits.1.2))).

(** *** A survey round seen by carol, in two variants *)

Definition survey_start (me : Participant.t) : Survey.Component :=
  {| Survey.gameState :=
       {| Survey.phase := Survey.answering;
          Survey.question := "do you like coffee";
          Survey.questionId := "q1";
          Survey.responses := Js.Obj.empty;
          Survey.questionerId := Participant.id carol;
          Survey.questionerName := "carol";
          Survey.sessionId := "s1" |};
     Survey.currentQuestion := "";
     Survey.hasAnswered := false;
     Survey.isQuestioner := bool_decide (Participant.id me = Participant.id carol);
     Survey.currentParticipant := Some me;
     Survey.currentGameSessionId := "s1";
     Survey.gameParticipants := [alice; bob; carol] |}.

(** The messages alice and bob hand to the channel when alice answers
    [a] and bob answers [b]. *)
Definition survey_answers_sent (a b : bool) : list (Message Survey.Event) :=
  let alice_answers :=
    Survey.handleAnswer false (λ _, reaching "r1" 10) "room1" a
      (survey_start alice) survey_round in
  let bob_answers :=
    Survey.handleAnswer false (λ _, reaching "r2" 11) "room1" b
      (survey_start bob) (alice_answers.1.2) in
  alice_answers.2 ++ bob_answers.2.

(** Carol's client once both messages have arrived. *)
Definition survey_carol_view (a b : bool) : Survey.Component :=
  fold_left (λ c m, Survey.receive "room1" m c) (survey_answers_sent a b)
    (survey_start carol).

(** *** Callers of [withGameLock] under one key *)

Definition lock_key : string := "submitResponse-q1-a11ce".

(** A second caller is queued and then run; a third arrives while the
    second is still executing. *)
Definition lock_late_arrival : list GameService.Event :=
  [GameService.Call lock_key 1%nat; GameService.Call lock_key 2%nat;
   GameService.Settle 1%nat; GameService.Fire;
   GameService.Call lock_key 3%nat].

(** Two callers are queued behind the holder; the first of them runs and
    settles. *)
Definition lock_two_queued : list GameService.Event :=
  [GameService.Call lock_key 1%nat; GameService.Call lock_key 2%nat;
   GameService.Call lock_key 3%nat; GameService.Settle 1%nat;
   GameService.Fire; GameService.Settle 2%nat].

(** *** A werewolf game of three: alice is the werewolf *)

Definition werewolf_session (p : WerewolfService.Phase) : WerewolfService.WerewolfSession.t :=
  {| WerewolfService.WerewolfSession.id := "w1";
     WerewolfService.WerewolfSession.room_id := "room1";
     WerewolfService.WerewolfSession.citizen_topic := Js.of_string "coffee";
     WerewolfService.WerewolfSession.werewolf_topic := Js.of_string "tea";
     WerewolfService.WerewolfSession.phase := p;
     WerewolfService.WerewolfSession.talk_time_seconds := 300;
     WerewolfService.WerewolfSession.reverse_mode := true;
     WerewolfService.WerewolfSession.created_at := 5;
     WerewolfService.WerewolfSession.updated_at := 5 |}.

Definition werewolf_assignment (me : Participant.t) : WerewolfService.WerewolfAssignment.t :=
  {| WerewolfService.WerewolfAssignment.id := "as-" +:+ Participant.id me;
     WerewolfService.WerewolfAssignment.session_id := "w1";
     WerewolfService.WerewolfAssignment.participant_id := Participant.id me;
     WerewolfService.WerewolfAssignment.role :=
       if bool_decide (Participant.id me = Participant.id alice)
       then WerewolfService.werewolf else WerewolfService.citizen;
     WerewolfService.WerewolfAssignment.topic :=
       if bool_decide (Participant.id me = Participant.id alice)
       then Js.of_string "tea" else Js.of_string "coffee";
     WerewolfService.WerewolfAssignment.created_at := 6 |}.

Definition werewolf_db (p : WerewolfService.Phase) : WerewolfService.Db :=
  {| WerewolfService.participants := [alice; bob; carol];
     WerewolfService.werewolf_sessions := [werewolf_session p];
     WerewolfService.werewolf_assignments :=
       [werewolf_assignment alice; werewolf_assignment bob;
        werewolf_assignment carol];
     WerewolfService.werewolf_votes := [];
     WerewolfService.werewolf_guesses := [] |}.

Definition werewolf_client (p : WerewolfService.Phase) (round : Z)
    (me : Participant.t) : Werewolf.Component :=
  {| Werewolf.gameState :=
       {| Werewolf.phase := p;
          Werewolf.session := Some (werewolf_session p);
          Werewolf.assignment := Some (werewolf_assignment me);
          Werewolf.votes := Js.Obj.empty;
          Werewolf.voteRound := round;
          Werewolf.gameResult :=
            {| Werewolf.winner := None; Werewolf.eliminatedPlayer := None;
               Werewolf.werewolfGuess := None;
               Werewolf.isCorrectGuess := false |} |};
     Werewolf.currentParticipant := Some me;
     Werewolf.gameParticipants := [alice; bob; carol];
     Werewolf.selectedVote := None;
     Werewolf.hasVoted := false;
     Werewolf.reverseMode := true;
     Werewolf.guessInput := [];
     Werewolf.phaseButtonClicks := [];
     Werewolf.hasClickedPhaseButton := false |}.

(** *** A game whose vote is tied twice

    Alice and bob vote for each other and carol, who has not voted,
    tallies; in the sudden death alice and bob press the phase button,
    vote for each other again, and alice tallies.  A message reaches the
    clients other than its sender, whose listeners may write and send in
    turn. *)

Definition hears (rq : Request) (msgs : list (Message Werewolf.Event))
    (c : Werewolf.Component) (d : WerewolfService.Db)
  : Werewolf.Component * WerewolfService.Db * list (Message Werewolf.Event) :=
  fold_left
    (λ acc m,
       let '(c1, d1, sent) :=
         Werewolf.receive Reached Reached rq "room1" m acc.1.1 acc.1.2 in
       (c1, d1, acc.2 ++ sent))
    msgs (c, d, []).

(** The first round. *)
Definition twice_alice_votes :=
  Werewolf.pressVote (reaching "v1" 20) "room1" (Participant.id bob)
    (werewolf_client WerewolfService.vote 1 alice)
    (werewolf_db WerewolfService.vote).

Definition twice_bob_votes :=
  Werewolf.pressVote (reaching "v2" 21) "room1" (Participant.id alice)
    (hears (reaching "unused" 20) (twice_alice_votes.2)
       (werewolf_client WerewolfService.vote 1 bob)
       (twice_alice_votes.1.2)).1.1
    (twice_alice_votes.1.2).

(** Carol's client with both votes on her screen. *)
Definition twice_carol_watches : Werewolf.Component :=
  (hears (reaching "unused" 21) (twice_alice_votes.2 ++ twice_bob_votes.2)
     (werewolf_client WerewolfService.vote 1 carol)
     (twice_bob_votes.1.2)).1.1.

Definition twice_first_tally :=
  Werewolf.pressShowResults Reached Reached (reaching "u1" 30) "room1"
    twice_carol_watches (twice_bob_votes.1.2).

(** The sudden death, as alice and bob hear of it. *)
Definition twice_alice_sudden_death : Werewolf.Component :=
  (hears (reaching "unused" 30) (twice_bob_votes.2 ++ twice_first_tally.2)
     (twice_alice_votes.1.1) (twice_first_tally.1.2)).1.1.

Definition twice_bob_sudden_death : Werewolf.Component :=
  (hears (reaching "unused" 30) (twice_first_tally.2)
     (twice_bob_votes.1.1) (twice_first_tally.1.2)).1.1.

(** Alice presses the phase button, then bob, who knows of her press. *)
Definition twice_alice_presses :=
  Werewolf.pressPhaseButton (reaching "u2" 31) "room1"
    twice_alice_sudden_death (twice_first_tally.1.2).

Definition twice_bob_presses :=
  Werewolf.pressPhaseButton (reaching "u3" 32) "room1"
    (hears (reaching "unused" 31) (twice_alice_presses.2)
       twice_bob_sudden_death (twice_alice_presses.1.2)).1.1
    (twice_alice_presses.1.2).

(** Alice hears bob's press and his change of phase; her listener
    announces the vote as well, which is how bob learns of it. *)
Definition twice_alice_back_to_vote :=
  hears (reaching "u4" 33) (twice_bob_presses.2) (twice_alice_presses.1.1)
    (twice_bob_presses.1.2).

Definition twice_bob_back_to_vote : Werewolf.Component :=
  (hears (reaching "unused" 34) (twice_alice_back_to_vote.2)
     (twice_bob_presses.1.1) (twice_alice_back_to_vote.1.2)).1.1.

(** The second round. *)
Definition twice_alice_votes_again :=
  Werewolf.pressVote (reaching "v3" 40) "room1" (Participant.id bob)
    (twice_alice_back_to_vote.1.1) (twice_alice_back_to_vote.1.2).

Definition twice_bob_votes_again :=
  Werewolf.pressVote (reaching "v4" 41) "room1" (Participant.id alice)
    (hears (reaching "unused" 40) (twice_alice_votes_again.2)
       twice_bob_back_to_vote (twice_alice_votes_again.1.2)).1.1
    (twice_alice_votes_again.1.2).

Definition twice_second_tally :=
  Werewolf.pressShowResults Reached Reached (reaching "u5" 50) "room1"
    (hears (reaching "unused" 41) (twice_bob_votes_again.2)
       (twice_alice_votes_again.1.1) (twice_bob_votes_again.1.2)).1.1
    (twice_bob_votes_again.1.2).

(** Alice, voted out in reverse mode, types her guess with a blank in
    front. *)
Definition werewolf_alice_guessing : Werewolf.Component :=
  {| Werewolf.gameState :=
       Werewolf.gameState
         (werewolf_client WerewolfService.reverse_chance 1 alice);
     Werewolf.currentParticipant := Some alice;
     Werewolf.gameParticipants := [alice; bob; carol];
     Werewolf.selectedVote := None;
     Werewolf.hasVoted := false;
     Werewolf.reverseMode := true;
     Werewolf.guessInput := Js.of_string " coffee";
     Werewolf.phaseButtonClicks := [];
     Werewolf.hasClickedPhaseButton := false |}.

Definition werewolf_guess :=
  Werewolf.handleWerewolfGuess (reaching "g1" 40) "room1"
    werewolf_alice_guessing (werewolf_db WerewolfService.reverse_chance).

(** *** Joining under a nickname another session holds *)

Definition room1 : Room.t :=
  {| Room.id := "room1"; Room.name := Some "room1"; Room.created_at := 0;
     Room.last_activity := 0; Room.is_active := true |}.

Definition old_alice : Participant.t :=
  {| Participant.id := "0ld"; Participant.room_id := "room1";
     Participant.nickname := "alice"; Participant.session_token := "session_old";
     Participant.joined_at := 0; Participant.last_seen := 0;
     Participant.is_online := true |}.

Definition lobby : RoomService.Db :=
  {| RoomService.rooms := [room1];
     RoomService.participants := [old_alice; bob] |}.

Definition alice_browser : RoomService.LocalStorage :=
  {| RoomService.room_session_token := Some "session_a";
     RoomService.current_participant := None |}.

Definition all_reach (k : nat) : RoomService.Attempt :=
  {| RoomService.room_request := reaching "unused" 50;
     RoomService.cleanup_net := Reached;
     RoomService.join_request := reaching "a11ce" 50 |}.

(** *** A survey reveal shortly after the answers were read *)

(** Bob's client reads the answers of [q1] at time 1000, when none is
    stored yet; the read fills the cache of his client. *)
Definition survey_bob_restores :=
  GameService.getQuestionResponses Reached 1000 "q1" GameService.no_cache
    survey_round.

(** Alice answers; her row is stored, her broadcast is lost. *)
Definition survey_alice_answers :=
  Survey.handleAnswer false (λ _, reaching "r1" 1500) "room1" true
    (survey_start alice) survey_round.

(** Bob reveals at time 2500. *)
Definition survey_bob_reveals :=
  Survey.handleShowResults Reached 2500 "room1" (survey_start bob)
    (survey_bob_restores.2) (survey_alice_answers.1.2).

(** *** A connection that drops requests *)

Definition failing (t : Z) : Request :=
  {| net := Failed (PostgrestError "TypeError: Failed to fetch"); uuid := "";
     clock := t |}.

(** The first [k] requests fail, the later ones reach the store. *)
Definition flaky (k : nat) (id : string) (t : Z) (i : nat) : Request :=
  if bool_decide (i < k)%nat then failing t else reaching id t.

(** *** The survey round as the store holds it once alice has answered *)

Definition survey_db : GameService.Db :=
  {| GameService.participants := [alice; bob; carol];
     GameService.game_sessions := [survey_session];
     GameService.game_questions := [survey_question];
     GameService.ranking_questions := [];
     GameService.synchro_questions := [];
     GameService.game_responses :=
       GameService.game_responses (survey_alice_answers.1.2);
     GameService.ranking_responses := [];
     GameService.synchro_responses := [] |}.

(** Alice's page after a reload: the participants are known, the round
    is not. *)
Definition survey_reloaded (me : Participant.t) : Survey.Component :=
  {| Survey.gameState :=
       {| Survey.phase := Survey.waiting_for_question;
          Survey.question := ""; Survey.questionId := "";
          Survey.responses := Js.Obj.empty;
          Survey.questionerId := ""; Survey.questionerName := "";
          Survey.sessionId := "" |};
     Survey.currentQuestion := "";
     Survey.hasAnswered := false;
     Survey.isQuestioner := false;
     Survey.currentParticipant := Some me;
     Survey.currentGameSessionId := "";
     Survey.gameParticipants := [alice; bob; carol] |}.

(** *** What a browser kept of a ranking round *)

Definition ranking_kept (written : Z) : Ranking.Stored.t :=
  {| Ranking.Stored.gameState := ranking_round ranks_123;
     Ranking.Stored.currentQuestion := "";
     Ranking.Stored.selectedRank := Some 1;
     Ranking.Stored.hasAnswered := true;
     Ranking.Stored.isQuestioner := true;
     Ranking.Stored.sessionId := "s1";
     Ranking.Stored.timestamp := written |}.

(** *** Votes of round 1 with alice alone at the maximum *)

Definition werewolf_votes_against_alice : WerewolfService.Db :=
  WerewolfService.submitVotes
    [ {| WerewolfService.request := reaching "v1" 20;
         WerewolfService.sessionId := "w1";
         WerewolfService.voterId := Participant.id alice;
         WerewolfService.targetId := Participant.id bob;
         WerewolfService.voteRound := 1 |};
      {| WerewolfService.request := reaching "v2" 21;
         WerewolfService.sessionId := "w1";
         WerewolfService.voterId := Participant.id bob;
         WerewolfService.targetId := Participant.id alice;
         WerewolfService.voteRound := 1 |};
      {| WerewolfService.request := reaching "v3" 22;
         WerewolfService.sessionId := "w1";
         WerewolfService.voterId := Participant.id carol;
         WerewolfService.targetId := Participant.id alice;
         WerewolfService.voteRound := 1 |} ]
    (werewolf_db WerewolfService.vote).

(** Carol changes her mind and votes for bob. *)
Definition werewolf_carol_votes_again : WerewolfService.VoteCall :=
  {| WerewolfService.request := reaching "v4" 23;
     WerewolfService.sessionId := "w1";
     WerewolfService.voterId := Participant.id carol;
     WerewolfService.targetId := Participant.id bob;
     WerewolfService.voteRound := 1 |}.

(** *** The talk: carol's client knows that bob has pressed the button *)

Definition werewolf_bob_clicked : Werewolf.Component :=
  {| Werewolf.gameState :=
       Werewolf.gameState (werewolf_client WerewolfService.talk 1 carol);
     Werewolf.currentParticipant := Some carol;
     Werewolf.gameParticipants := [alice; bob; carol];
     Werewolf.selectedVote := None;
     Werewolf.hasVoted := false;
     Werewolf.reverseMode := true;
     Werewolf.guessInput := [];
     Werewolf.phaseButtonClicks := [Participant.id bob];
     Werewolf.hasClickedPhaseButton := false |}.

(** *** The start of a werewolf game of three *)





(** *** Bob joins again; a join that does not get through; a new session *)

Definition bob_browser : RoomService.LocalStorage :=
  {| RoomService.room_session_token := Some "session_b";
     RoomService.current_participant := Some bob |}.

Definition join_fails (k : nat) : RoomService.Attempt :=
  {| RoomService.room_request := reaching "unused" 50;
     RoomService.cleanup_net := Reached;
     RoomService.join_request := failing 50 |}.

Definition create_reaches (k : nat) : GameSessions.Attempt :=
  {| GameSessions.caller_net := Reached;
     GameSessions.seen_request := reaching "unused" 300;
     GameSessions.insert_request := reaching "s2" 300 |}.

End Scenario.

(** * Part II: the theorems *)

(** ** Facts on the JavaScript collections *)

Section JsFacts.
Context {A : Type} `{EqDecision A}.

Lemma Set_add_old (s : list A) (x : A) : x ∈ s → Js.Set_add s x = s.
Proof. intros H. unfold Js.Set_add. by rewrite decide_True. Qed.

Lemma Set_add_new (s : list A) (x : A) : x ∉ s → Js.Set_add s x = s ++ [x].
Proof. intros H. unfold Js.Set_add. by rewrite decide_False. Qed.

Lemma Set_fold_elem (l acc : list A) (x : A) :
  x ∈ fold_left Js.Set_add l acc ↔ x ∈ acc ∨ x ∈ l.
Proof.
  revert acc. induction l as [|y l IH]; intros acc; simpl.
  - rewrite elem_of_nil. tauto.
  - rewrite IH. unfold Js.Set_add. rewrite elem_of_cons.
    destruct (decide (y ∈ acc)) as [Hy|Hy].
    + split; [tauto|]. intros [?|[->|?]]; tauto.
    + rewrite elem_of_app, list_elem_of_singleton. tauto.
Qed.

Lemma Set_fold_NoDup (l acc : list A) :
  NoDup acc → NoDup (fold_left Js.Set_add l acc).
Proof.
  revert acc. induction l as [|y l IH]; intros acc Hacc; simpl; [done|].
  apply IH. unfold Js.Set_add. destruct (decide (y ∈ acc)); [done|].
  apply NoDup_app. split; [done|]. split.
  - intros z Hz Hz'. apply list_elem_of_singleton in Hz'. by subst.
  - apply NoDup_singleton.
Qed.

Lemma Set_fold_length_le (l acc : list A) :
  (length (fold_left Js.Set_add l acc) ≤ length acc + length l)%nat.
Proof.
  revert acc. induction l as [|y l IH]; intros acc; simpl; [lia|].
  specialize (IH (Js.Set_add acc y)). unfold Js.Set_add in *.
  destruct (decide (y ∈ acc)); [lia|].
  rewrite length_app in IH. simpl in IH. lia.
Qed.

Lemma Set_fold_length_ge (l acc : list A) :
  (length acc ≤ length (fold_left Js.Set_add l acc))%nat.
Proof.
  revert acc. induction l as [|y l IH]; intros acc; simpl; [lia|].
  specialize (IH (Js.Set_add acc y)). unfold Js.Set_add in *.
  destruct (decide (y ∈ acc)); [lia|].
  rewrite length_app in IH. simpl in IH. lia.
Qed.

Lemma Set_fold_length_full (l acc : list A) :
  length (fold_left Js.Set_add l acc) = (length acc + length l)%nat
  ↔ NoDup l ∧ ∀ x, x ∈ l → x ∉ acc.
Proof.
  revert acc. induction l as [|y l IH]; intros acc; simpl.
  - split; [|lia]. intros _. split; [constructor|]. intros x Hx.
    by apply elem_of_nil in Hx.
  - destruct (decide (y ∈ acc)) as [Hy|Hy].
    + rewrite (Set_add_old _ _ Hy). split.
      * intros Heq. pose proof (Set_fold_length_le l acc). lia.
      * intros [_ Hd]. exfalso. apply (Hd y); [left|done].
    + rewrite (Set_add_new _ _ Hy), NoDup_cons.
      replace (length acc + S (length l))%nat
        with (length (acc ++ [y]) + length l)%nat
        by (rewrite length_app; simpl; lia).
      rewrite IH. split.
      * intros [Hl Hd]. split; [split; [|done]|].
        -- intros Hyl. apply (Hd y Hyl). apply elem_of_app. right. left.
        -- intros x Hx Hxa. apply elem_of_cons in Hx as [->|Hx]; [done|].
           apply (Hd x Hx). apply elem_of_app. by left.
      * intros [[Hyl Hl] Hd]. split; [done|]. intros x Hx Hxa.
        apply elem_of_app in Hxa as [Hxa|Hxa].
        -- apply (Hd x); [by right|done].
        -- apply list_elem_of_singleton in Hxa. by subst.
Qed.

Lemma new_Set_elem (l : list A) (x : A) : x ∈ Js.new_Set l ↔ x ∈ l.
Proof.
  unfold Js.new_Set. rewrite Set_fold_elem, elem_of_nil. tauto.
Qed.

Lemma new_Set_NoDup (l : list A) : NoDup (Js.new_Set l).
Proof. apply Set_fold_NoDup. constructor. Qed.

Lemma new_Set_size_full (l : list A) :
  length (Js.new_Set l) = length l ↔ NoDup l.
Proof.
  unfold Js.new_Set.
  pose proof (Set_fold_length_full l []) as H. simpl in H. rewrite H.
  split; [tauto|]. intros Hl. split; [done|]. intros x _ Hx.
  by apply elem_of_nil in Hx.
Qed.

Lemma indexOf_first (pre suf : list A) (x : A) :
  x ∉ pre → Js.indexOf (pre ++ x :: suf) x = Z.of_nat (length pre).
Proof.
  induction pre as [|y pre IH]; intros Hx; simpl.
  - by rewrite decide_True.
  - apply not_elem_of_cons in Hx as [Hne Hx].
    rewrite decide_False by congruence. rewrite (IH Hx).
    destruct (Z.ltb_spec (Z.of_nat (length pre)) 0); lia.
Qed.

Lemma indexOf_earlier (pre l : list A) (x : A) :
  x ∈ pre → Js.indexOf (pre ++ l) x < Z.of_nat (length pre).
Proof.
  induction pre as [|y pre IH]; intros Hx; simpl.
  - by apply elem_of_nil in Hx.
  - destruct (decide (y = x)) as [->|Hne]; [lia|].
    apply elem_of_cons in Hx as [->|Hx]; [done|]. specialize (IH Hx).
    destruct (Z.ltb_spec (Js.indexOf (pre ++ l) x) 0); lia.
Qed.

(** The elements [filter] keeps when the callback compares [indexOf] with
    the running index: those that already occurred further left. *)
Lemma filter_from_repeated (pre suf : list A) (v : A) :
  v ∈ Js.filter_from
        (λ x i, negb (Js.indexOf (pre ++ suf) x =? i))
        (Z.of_nat (length pre)) suf
  ↔ ∃ s1 s2, suf = s1 ++ v :: s2 ∧ v ∈ pre ++ s1.
Proof.
  revert pre. induction suf as [|x suf IH]; intros pre; simpl.
  - rewrite elem_of_nil. split; [done|]. intros (s1 & s2 & Heq & _).
    by destruct s1.
  - assert (Hstep :
      v ∈ Js.filter_from (λ x0 i, negb (Js.indexOf (pre ++ x :: suf) x0 =? i))
            (Z.of_nat (length pre) + 1) suf
      ↔ ∃ s1 s2, suf = s1 ++ v :: s2 ∧ v ∈ (pre ++ [x]) ++ s1).
    { specialize (IH (pre ++ [x])).
      rewrite <- (assoc_L (++)) in IH. simpl in IH.
      rewrite length_app in IH. simpl in IH.
      replace (Z.of_nat (length pre + 1)) with (Z.of_nat (length pre) + 1)
        in IH by lia.
      exact IH. }
    assert (Hsplit : (∃ s1 s2, x :: suf = s1 ++ v :: s2 ∧ v ∈ pre ++ s1)
      ↔ (v = x ∧ x ∈ pre)
         ∨ ∃ s1 s2, suf = s1 ++ v :: s2 ∧ v ∈ (pre ++ [x]) ++ s1).
    { split.
      - intros (s1 & s2 & Heq & Hin). destruct s1 as [|z s1]; simpl in Heq.
        + injection Heq as -> _. left. split; [done|].
          by rewrite (right_id_L [] (++)) in Hin.
        + injection Heq as <- ->. right. exists s1, s2. split; [done|].
          by rewrite <- (assoc_L (++)).
      - intros [[-> Hin]|(s1 & s2 & -> & Hin)].
        + exists [], suf. split; [done|]. by rewrite (right_id_L [] (++)).
        + exists (x :: s1), s2. split; [done|].
          by rewrite <- (assoc_L (++)) in Hin. }
    rewrite Hsplit. clear Hsplit.
    destruct (decide (x ∈ pre)) as [Hx|Hx].
    + pose proof (indexOf_earlier pre (x :: suf) x Hx) as Hlt.
      destruct (Z.eqb_spec (Js.indexOf (pre ++ x :: suf) x)
                  (Z.of_nat (length pre))) as [Heq|_]; [lia|].
      simpl. rewrite elem_of_cons, Hstep. tauto.
    + rewrite (indexOf_first pre suf x Hx), Z.eqb_refl. simpl.
      rewrite Hstep. tauto.
Qed.

Lemma filter_index_repeated (l : list A) (v : A) :
  v ∈ Js.filter_index (λ x i, negb (Js.indexOf l x =? i)) l
  ↔ ∃ s1 s2, l = s1 ++ v :: s2 ∧ v ∈ s1.
Proof. exact (filter_from_repeated [] l v). Qed.

Lemma repeated_positions (l : list A) (v : A) :
  (∃ s1 s2, l = s1 ++ v :: s2 ∧ v ∈ s1)
  ↔ ∃ i j : nat, i ≠ j ∧ l !! i = Some v ∧ l !! j = Some v.
Proof.
  split.
  - intros (s1 & s2 & -> & Hin).
    apply list_elem_of_lookup in Hin as [i Hi].
    exists i, (length s1). pose proof (lookup_lt_Some _ _ _ Hi) as Hlt.
    split; [lia|]. split.
    + by rewrite lookup_app_l.
    + by rewrite list_lookup_middle.
  - intros (i & j & Hne & Hi & Hj).
    assert (Hord : ∀ a b : nat, (a < b)%nat → l !! a = Some v → l !! b = Some v →
                   ∃ s1 s2, l = s1 ++ v :: s2 ∧ v ∈ s1).
    { intros a b Hab Ha Hb. exists (take b l), (drop (S b) l). split.
      - symmetry. by apply take_drop_middle.
      - apply list_elem_of_lookup. exists a. by rewrite lookup_take_lt. }
    destruct (decide (i < j)%nat); [by apply (Hord i j)|].
    apply (Hord j i); [lia|done..].
Qed.

End JsFacts.

(** ** Facts on objects used as dictionaries *)

Lemma Obj_get_set_eq {V} (o : Js.Obj.t V) (k : string) (v : V) :
  Js.Obj.get (Js.Obj.set o k v) k = Some v.
Proof.
  induction o as [|[k' v'] o IH]; simpl.
  - by rewrite decide_True.
  - destruct (decide (k' = k)) as [->|Hne]; simpl.
    + by rewrite decide_True.
    + by rewrite decide_False.
Qed.

Lemma Obj_get_set_ne {V} (o : Js.Obj.t V) (k k' : string) (v : V) :
  k ≠ k' → Js.Obj.get (Js.Obj.set o k v) k' = Js.Obj.get o k'.
Proof.
  intros Hne. induction o as [|[k0 v0] o IH]; simpl.
  - by rewrite decide_False.
  - destruct (decide (k0 = k)) as [->|Hne0]; simpl.
    + by rewrite !decide_False.
    + destruct (decide (k0 = k')); done.
Qed.

Lemma Obj_get_keys {V} (o : Js.Obj.t V) (k : string) :
  is_Some (Js.Obj.get o k) ↔ k ∈ Js.Obj.keys o.
Proof.
  induction o as [|[k' v'] o IH]; simpl.
  - rewrite elem_of_nil. split; [by intros [? ?]|done].
  - rewrite elem_of_cons. destruct (decide (k' = k)) as [->|Hne].
    + split; [by left|eauto].
    + rewrite IH. split; [by right|]. intros [->|H]; done.
Qed.

Lemma Obj_values_get {V} (o : Js.Obj.t V) (x : V) :
  NoDup (Js.Obj.keys o) →
  x ∈ Js.Obj.values o ↔ ∃ k, Js.Obj.get o k = Some x.
Proof.
  induction o as [|[k' v'] o IH]; simpl; intros Hnd.
  - rewrite elem_of_nil. split; [done|]. by intros [? ?].
  - apply NoDup_cons in Hnd as [Hk' Hnd]. rewrite elem_of_cons, (IH Hnd).
    split.
    + intros [->|[k Hk]].
      * exists k'. by rewrite decide_True.
      * exists k. rewrite decide_False; [done|]. intros ->.
        apply Hk'. apply Obj_get_keys. eauto.
    + intros [k Hk]. destruct (decide (k' = k)) as [->|Hne].
      * left. congruence.
      * right. eauto.
Qed.

Lemma Obj_keys_set {V} (o : Js.Obj.t V) (k : string) (v : V) :
  Js.Obj.keys (Js.Obj.set o k v) = Js.Set_add (Js.Obj.keys o) k.
Proof.
  induction o as [|[k' v'] o IH]; simpl; [done|].
  destruct (decide (k' = k)) as [->|Hne]; simpl.
  - rewrite Set_add_old; [done|left].
  - rewrite IH. unfold Js.Set_add.
    destruct (decide (k ∈ Js.Obj.keys o)) as [Hin|Hnin].
    + rewrite decide_True; [done|by right].
    + rewrite decide_False; [done|].
      intros Hin. apply elem_of_cons in Hin as [->|Hin]; done.
Qed.

Lemma Obj_keys_fold_set {V} (answers : list (string * V)) (o : Js.Obj.t V) :
  Js.Obj.keys (fold_left (λ o pa, Js.Obj.set o pa.1 pa.2) answers o)
  = fold_left Js.Set_add (answers.*1) (Js.Obj.keys o).
Proof.
  revert o. induction answers as [|[p a] answers IH]; intros o; simpl; [done|].
  by rewrite IH, Obj_keys_set.
Qed.

Lemma Obj_fold_set_other {R V} (key : R → string) (val : R → V)
    (rows : list R) (acc : Js.Obj.t V) (k : string) :
  k ∉ key <$> rows →
  Js.Obj.get (fold_left (λ acc r, Js.Obj.set acc (key r) (val r)) rows acc) k
  = Js.Obj.get acc k.
Proof.
  revert acc. induction rows as [|x rows IH]; intros acc Hk; simpl; [done|].
  rewrite fmap_cons in Hk. apply not_elem_of_cons in Hk as [Hne Hk].
  rewrite IH by done. by apply Obj_get_set_ne.
Qed.

(** [rows.reduce(...)] over rows with distinct keys: each row's value is
    found under its key. *)
Lemma of_rows_fold_get {R V} (key : R → string) (val : R → V)
    (rows : list R) (acc : Js.Obj.t V) (r : R) :
  NoDup (key <$> rows) → r ∈ rows →
  Js.Obj.get (fold_left (λ acc r, Js.Obj.set acc (key r) (val r)) rows acc)
    (key r) = Some (val r).
Proof.
  revert acc. induction rows as [|x rows IH]; intros acc Hnd Hr; simpl.
  - by apply elem_of_nil in Hr.
  - rewrite fmap_cons in Hnd. apply NoDup_cons in Hnd as [Hx Hnd].
    apply elem_of_cons in Hr as [->|Hr]; [|by apply IH].
    rewrite Obj_fold_set_other by done. apply Obj_get_set_eq.
Qed.

(** ** The exclusive-control helper *)

Lemma settle_nothing_running (s : GameService.LockState) (operation : nat) :
  GameService.running s = [] → GameService.settle operation s = None.
Proof. intros H. unfold GameService.settle. by rewrite H. Qed.

Lemma holders_after_settle (key : string) (operation : nat)
    (l : list (string * nat * GameService.Origin)) :
  filter (λ r, r.1.1 = key ∧ r.2 = GameService.Holder)
    (filter (λ r, r.1.2 ≠ operation) l)
  = filter (λ r, r.1.2 ≠ operation)
      (filter (λ r, r.1.1 = key ∧ r.2 = GameService.Holder) l).
Proof.
  rewrite !list_filter_filter. apply list_filter_iff. intros r. tauto.
Qed.

Lemma holder_invariant_step (s s' : GameService.LockState)
    (e : GameService.Event) :
  GameService.holder_invariant s → GameService.step s e = Some s' →
  GameService.holder_invariant s'.
Proof.
  intros Hinv Hstep. destruct e as [k o|o|]; simpl in Hstep.
  - injection Hstep as <-. unfold GameService.withGameLock.
    destruct (default false (GameService.gameOperationLocks s !! k)) eqn:Hlock.
    + exact Hinv.
    + intros key. destruct (Hinv key) as [Hlen Hset].
      unfold GameService.holders in *. cbn [GameService.running
        GameService.gameOperationLocks]. rewrite filter_app.
      destruct (decide (k = key)) as [->|Hne].
      * rewrite lookup_insert_eq.
        destruct (filter _ (GameService.running s)) as [|r rs] eqn:Hh.
        -- rewrite filter_cons_True by done. simpl. split; [lia|done].
        -- rewrite Hset in Hlock by done. done.
      * rewrite filter_cons_False by (simpl; tauto).
        rewrite filter_nil, (right_id_L [] (++)), lookup_insert_ne by done.
        done.
  - unfold GameService.settle in Hstep.
    destruct (List.find _ _) as [[[k o'] origin]|] eqn:Hfind; [|done].
    apply find_some in Hfind as [Hin Hop]. apply list_elem_of_In in Hin.
    unfold GameService.is_op in Hop. apply bool_decide_eq_true in Hop.
    simpl in Hop. subst o'.
    assert (Hsub : ∀ key lk,
      (length (filter (λ r, r.1.1 = key ∧ r.2 = GameService.Holder)
                 (filter (λ r, r.1.2 ≠ o) (GameService.running s))) ≤ 1)%nat
      ∧ (filter (λ r, r.1.1 = key ∧ r.2 = GameService.Holder)
           (filter (λ r, r.1.2 ≠ o) (GameService.running s)) ≠ [] →
         (k ≠ key ∨ origin = GameService.Dequeued) →
         lk = GameService.gameOperationLocks s !! key → lk = Some true)
      ∧ (k = key → origin = GameService.Holder →
         filter (λ r, r.1.1 = key ∧ r.2 = GameService.Holder)
           (filter (λ r, r.1.2 ≠ o) (GameService.running s)) = [])).
    { intros key lk. destruct (Hinv key) as [Hlen Hset].
      unfold GameService.holders in *. rewrite holders_after_settle.
      split; [|split].
      - etrans; [apply length_filter|done].
      - intros Hne _ ->. apply Hset. intros Hnil. by rewrite Hnil in Hne.
      - intros <- ->.
        assert (Hmem : (k, o, GameService.Holder)
                       ∈ filter (λ r, r.1.1 = k ∧ r.2 = GameService.Holder)
                           (GameService.running s))
          by (by apply list_elem_of_filter).
        destruct (filter (λ r, r.1.1 = k ∧ r.2 = GameService.Holder)
                    (GameService.running s)) as [|r [|r' rs]];
          [by apply elem_of_nil in Hmem| |simpl in Hlen; lia].
        apply list_elem_of_singleton in Hmem as <-.
        by rewrite filter_cons_False by (simpl; tauto). }
    destruct origin; injection Hstep as <-.
    + intros key. unfold GameService.release, GameService.holders.
      destruct (Hsub key (GameService.gameOperationLocks s !! key))
        as (Hlen & Hset & Hgone).
      destruct (GameService.gameOperationQueues _ !! k) as [[|next queue]|];
        cbn [GameService.running GameService.gameOperationLocks
             GameService.gameOperationQueues];
        (split; [done|]); intros Hne;
        (destruct (decide (k = key)) as [Heq|Hneq];
          [by rewrite Hgone in Hne
          |rewrite lookup_delete_ne by done; apply Hset; auto]).
    + intros key. unfold GameService.holders.
      destruct (Hsub key (GameService.gameOperationLocks s !! key))
        as (Hlen & Hset & _).
      cbn [GameService.running GameService.gameOperationLocks].
      split; [done|]. intros Hne. apply Hset; auto.
  - unfold GameService.fire in Hstep.
    destruct (GameService.timers s) as [|[k o] rest]; [done|].
    injection Hstep as <-. intros key. destruct (Hinv key) as [Hlen Hset].
    unfold GameService.holders in *.
    cbn [GameService.running GameService.gameOperationLocks].
    rewrite filter_app, filter_cons_False by (simpl; intros [_ ?]; done).
    by rewrite filter_nil, (right_id_L [] (++)).
Qed.

(** Whatever happened since the start, at most one operation started on
    the lock-taking path is in execution under a key. *)
Lemma holders_exclusive (trace : list GameService.Event)
    (s : GameService.LockState) (key : string) :
  GameService.run trace GameService.idle = Some s →
  (length (GameService.holders key s) ≤ 1)%nat.
Proof.
  assert (Hrun : ∀ s0, GameService.holder_invariant s0 →
            GameService.run trace s0 = Some s → GameService.holder_invariant s).
  { induction trace as [|e trace IH]; intros s0 Hinv Hrun; simpl in Hrun.
    - by injection Hrun as <-.
    - destruct (GameService.step s0 e) as [s1|] eqn:Hstep; [|done].
      apply (IH s1); [|done]. by apply (holder_invariant_step s0 s1 e). }
  intros Hs. apply (Hrun GameService.idle); [|done].
  intros k. split; [simpl; lia|done].
Qed.

(** C7, at the failing traces.  Exclusion holds among the operations
    started on the lock-taking path ([holders_exclusive]), not beyond.
    (1) Operation 2 was queued behind 1 and is started by the timer
    without the lock being taken again, so caller 3 finds the lock free
    and runs while 2 is still executing.  (2) With 2 and 3 queued, 2 is
    started when 1 settles; when 2 settles nobody looks at the queue: 3
    is left waiting with the lock free, no timer pending and nothing
    executing. *)
Theorem withGameLock_not_exclusive :
  (∃ s, GameService.run Scenario.lock_late_arrival GameService.idle = Some s
        ∧ GameService.executing Scenario.lock_key s = [2%nat; 3%nat])
  ∧ (∃ s, GameService.run Scenario.lock_two_queued GameService.idle = Some s
          ∧ GameService.waiting Scenario.lock_key s = [3%nat]
          ∧ GameService.executing Scenario.lock_key s = []
          ∧ GameService.gameOperationLocks s !! Scenario.lock_key = None
          ∧ GameService.step s GameService.Fire = None
          ∧ ∀ operation,
              GameService.step s (GameService.Settle operation) = None).
Proof.
  split.
  - eexists. split; [vm_compute; reflexivity|]. vm_compute. reflexivity.
  - eexists. split; [vm_compute; reflexivity|].
    repeat (split; [vm_compute; reflexivity|]).
    intros operation. by apply settle_nothing_running.
Qed.

(** ** The ranking game *)

Lemma Ranking_duplicates_elem (st : Ranking.GameState) (v : Z) :
  v ∈ Ranking.duplicateRanks st
  ↔ Ranking.collides (Ranking.responseValues st) v.
Proof.
  unfold Ranking.duplicateRanks, Ranking.duplicates, Ranking.collides.
  rewrite new_Set_elem, filter_index_repeated. apply repeated_positions.
Qed.

Lemma Ranking_isSuccess_NoDup (st : Ranking.GameState) :
  Ranking.responseValues st ≠ [] →
  Ranking.isSuccess st = true ↔ NoDup (Ranking.responseValues st).
Proof.
  intros Hne. unfold Ranking.isSuccess, Ranking.uniqueRanks.
  rewrite andb_true_iff, Z.eqb_eq, Z.gtb_lt, Nat2Z.inj_iff, new_Set_size_full.
  destruct (Ranking.responseValues st); [done|]. simpl. split; [tauto|].
  intros H. split; [done|lia].
Qed.

(** An object of the handlers holds each key once: [{}], [{...o, [k]: v}]
    and the [reduce] over rows build nothing else. *)
Lemma Obj_set_keys_NoDup {V} (o : Js.Obj.t V) (k : string) (v : V) :
  NoDup (Js.Obj.keys o) → NoDup (Js.Obj.keys (Js.Obj.set o k v)).
Proof.
  intros Hnd. rewrite Obj_keys_set. unfold Js.Set_add.
  destruct (decide (k ∈ Js.Obj.keys o)) as [|Hk]; [done|].
  apply NoDup_app. split; [done|]. split; [|apply NoDup_singleton].
  intros x Hx Hxk. apply list_elem_of_singleton in Hxk. by subst.
Qed.

Lemma of_rows_keys_NoDup {R V} (key : R → string) (val : R → V)
    (rows : list R) :
  NoDup (Js.Obj.keys (Js.Obj.of_rows key val rows)).
Proof.
  unfold Js.Obj.of_rows.
  assert (H : ∀ acc : Js.Obj.t V,
             NoDup (Js.Obj.keys acc) →
             NoDup (Js.Obj.keys
                      (fold_left (λ acc r, Js.Obj.set acc (key r) (val r))
                         rows acc))).
  { induction rows as [|r rows IH]; intros acc Hacc; simpl; [done|].
    apply IH. by apply Obj_set_keys_NoDup. }
  apply H. constructor.
Qed.

Lemma Obj_get_elem {V} (o : Js.Obj.t V) (k : string) (v : V) :
  NoDup (Js.Obj.keys o) → Js.Obj.get o k = Some v ↔ (k, v) ∈ o.
Proof.
  induction o as [|[k' v'] o IH]; simpl; intros Hnd.
  - split; [done|]. intros H. by apply elem_of_nil in H.
  - apply NoDup_cons in Hnd as [Hk' Hnd].
    destruct (decide (k' = k)) as [->|Hne].
    + split.
      * intros [= ->]. left.
      * intros H. apply elem_of_cons in H as [[= ->]|H]; [done|].
        exfalso. apply Hk'. unfold Js.Obj.keys.
        by apply (list_elem_of_fmap_2 fst) in H.
    + rewrite IH by done. split.
      * intros H. by right.
      * intros H. apply elem_of_cons in H as [[= -> ->]|H]; done.
Qed.

(** Two participants gave the rank [v]. *)
Lemma Obj_collides_get (o : Js.Obj.t Z) (v : Z) :
  NoDup (Js.Obj.keys o) →
  Ranking.collides (Js.Obj.values o) v
  ↔ ∃ p q, p ≠ q ∧ Js.Obj.get o p = Some v ∧ Js.Obj.get o q = Some v.
Proof.
  intros Hnd. unfold Ranking.collides, Js.Obj.values. split.
  - intros (i & j & Hij & Hi & Hj).
    rewrite list_lookup_fmap in Hi, Hj.
    apply fmap_Some in Hi as ([p vi] & Ei & Hvi).
    apply fmap_Some in Hj as ([q vj] & Ej & Hvj).
    simpl in Hvi, Hvj. subst vi vj.
    exists p, q. split.
    + intros ->. apply Hij.
      apply (NoDup_lookup (Js.Obj.keys o) i j q); [done|..];
        unfold Js.Obj.keys; rewrite list_lookup_fmap.
      * by rewrite Ei.
      * by rewrite Ej.
    + split; apply Obj_get_elem; try done.
      * by apply list_elem_of_lookup_2 in Ei.
      * by apply list_elem_of_lookup_2 in Ej.
  - intros (p & q & Hpq & Hp & Hq).
    apply Obj_get_elem in Hp, Hq; try done.
    apply list_elem_of_lookup in Hp as [i Hi], Hq as [j Hj].
    exists i, j. split; [|split].
    + intros ->. rewrite Hi in Hj. by injection Hj.
    + by rewrite list_lookup_fmap, Hi.
    + by rewrite list_lookup_fmap, Hj.
Qed.

(** C4. For a non-empty answer set the ranking result is success exactly
    when no two participants submitted the same rank; the reported list
    [duplicateRanks] holds each rank that two participants submitted,
    once, and nothing else, and it is non-empty on failure.  The answer
    set is the [responses] object of the state, which holds each
    participant once ([Obj_set_keys_NoDup], [of_rows_keys_NoDup]). *)
Theorem Ranking_result_correct (st : Ranking.GameState) :
  NoDup (Js.Obj.keys (Ranking.responses st)) →
  Ranking.responses st ≠ Js.Obj.empty →
  (Ranking.isSuccess st = true
   ↔ ∀ p q rank, p ≠ q →
                 Js.Obj.get (Ranking.responses st) p = Some rank →
                 Js.Obj.get (Ranking.responses st) q ≠ Some rank)
  ∧ NoDup (Ranking.duplicateRanks st)
  ∧ (∀ v, v ∈ Ranking.duplicateRanks st
          ↔ ∃ p q, p ≠ q
                   ∧ Js.Obj.get (Ranking.responses st) p = Some v
                   ∧ Js.Obj.get (Ranking.responses st) q = Some v)
  ∧ (Ranking.isSuccess st = false → Ranking.duplicateRanks st ≠ []).
Proof.
  intros Hkeys Hne.
  assert (Hvals : Ranking.responseValues st ≠ []).
  { unfold Ranking.responseValues, Js.Obj.values.
    destruct (Ranking.responses st); done. }
  assert (Hdup : ∀ v, v ∈ Ranking.duplicateRanks st
                      ↔ ∃ p q, p ≠ q
                               ∧ Js.Obj.get (Ranking.responses st) p = Some v
                               ∧ Js.Obj.get (Ranking.responses st) q = Some v).
  { intros v. rewrite Ranking_duplicates_elem. by apply Obj_collides_get. }
  assert (Hok : Ranking.isSuccess st = true
                ↔ ∀ p q rank, p ≠ q →
                      Js.Obj.get (Ranking.responses st) p = Some rank →
                      Js.Obj.get (Ranking.responses st) q ≠ Some rank).
  { rewrite (Ranking_isSuccess_NoDup st Hvals). split.
    - intros Hnd p q rank Hpq Hp Hq.
      assert (Hc : Ranking.collides (Ranking.responseValues st) rank).
      { apply Obj_collides_get; [done|]. by exists p, q. }
      destruct Hc as (i & j & Hij & Hi & Hj).
      apply Hij. by apply (NoDup_lookup _ i j rank Hnd).
    - intros Hdiff. apply NoDup_alt. intros i j x Hi Hj.
      destruct (decide (i = j)) as [|Hij]; [done|]. exfalso.
      assert (Hc : Ranking.collides (Ranking.responseValues st) x)
        by (by exists i, j).
      apply Obj_collides_get in Hc as (p & q & Hpq & Hp & Hq); [|done].
      by apply (Hdiff p q x). }
  split; [done|]. split; [apply new_Set_NoDup|]. split; [done|].
  intros Hfail Hnil.
  assert (Hsome : ¬ ∀ p q rank, p ≠ q →
                      Js.Obj.get (Ranking.responses st) p = Some rank →
                      Js.Obj.get (Ranking.responses st) q ≠ Some rank).
  { rewrite <- Hok. by rewrite Hfail. }
  apply Hsome. intros p q rank Hpq Hp Hq.
  assert (Hx : rank ∈ Ranking.duplicateRanks st) by (apply Hdup; by exists p, q).
  rewrite Hnil in Hx. by apply elem_of_nil in Hx.
Qed.

Example Ranking_123_succeeds :
  Ranking.isSuccess (Scenario.ranking_round Scenario.ranks_123) = true
  ∧ Ranking.duplicateRanks (Scenario.ranking_round Scenario.ranks_123) = [].
Proof. split; reflexivity. Qed.

Example Ranking_122_fails :
  Ranking.isSuccess (Scenario.ranking_round Scenario.ranks_122) = false
  ∧ Ranking.duplicateRanks (Scenario.ranking_round Scenario.ranks_122) = [2].
Proof. split; reflexivity. Qed.

Lemma Ranking_result_correct_witness :
  NoDup (Js.Obj.keys
           (Ranking.responses (Scenario.ranking_round Scenario.ranks_122)))
  ∧ Ranking.responses (Scenario.ranking_round Scenario.ranks_122) ≠ Js.Obj.empty
  ∧ ((Ranking.isSuccess (Scenario.ranking_round Scenario.ranks_122) = true
      ↔ ∀ p q rank, p ≠ q →
          Js.Obj.get
            (Ranking.responses (Scenario.ranking_round Scenario.ranks_122)) p
          = Some rank →
          Js.Obj.get
            (Ranking.responses (Scenario.ranking_round Scenario.ranks_122)) q
          ≠ Some rank)
     ∧ NoDup (Ranking.duplicateRanks (Scenario.ranking_round Scenario.ranks_122))
     ∧ (∀ v, v ∈ Ranking.duplicateRanks (Scenario.ranking_round Scenario.ranks_122)
             ↔ ∃ p q, p ≠ q
                 ∧ Js.Obj.get
                     (Ranking.responses
                        (Scenario.ranking_round Scenario.ranks_122)) p
                   = Some v
                 ∧ Js.Obj.get
                     (Ranking.responses
                        (Scenario.ranking_round Scenario.ranks_122)) q
                   = Some v)
     ∧ (Ranking.isSuccess (Scenario.ranking_round Scenario.ranks_122) = false
        → Ranking.duplicateRanks (Scenario.ranking_round Scenario.ranks_122) ≠ [])).
Proof.
  assert (H1 : NoDup (Js.Obj.keys
                        (Ranking.responses
                           (Scenario.ranking_round Scenario.ranks_122))))
    by (apply (bool_decide_unpack _); vm_compute; exact I).
  assert (H2 : Ranking.responses (Scenario.ranking_round Scenario.ranks_122)
               ≠ Js.Obj.empty) by (vm_compute; discriminate).
  split; [exact H1|]. split; [exact H2|].
  exact (Ranking_result_correct (Scenario.ranking_round Scenario.ranks_122) H1 H2).
Defined.

(** ** Facts on the store operations *)

Lemma upsert_elem {A} (conflict : A → bool) (update : A → A) (new : A)
    (rows : list A) :
  (Supabase.upsert conflict update new rows).1
    ∈ (Supabase.upsert conflict update new rows).2.
Proof.
  induction rows as [|r rows IH]; simpl; [left|].
  destruct (conflict r); simpl; [left|].
  destruct (Supabase.upsert conflict update new rows) as [x rows'].
  simpl in *. by right.
Qed.

Lemma upsert_row {A} (conflict : A → bool) (update : A → A) (new : A)
    (rows : list A) :
  (Supabase.upsert conflict update new rows).1 = new
  ∨ ∃ r, r ∈ rows ∧ conflict r = true
         ∧ (Supabase.upsert conflict update new rows).1 = update r.
Proof.
  induction rows as [|r rows IH]; simpl; [by left|].
  destruct (conflict r) eqn:Hc; simpl.
  - right. exists r. split; [left|done].
  - destruct (Supabase.upsert conflict update new rows) as [x rows'].
    simpl in *. destruct IH as [->|(r' & Hin & Hc' & ->)]; [by left|].
    right. exists r'. split; [by right|done].
Qed.

Lemma upsert_Forall {A} (P : A → Prop) (conflict : A → bool) (update : A → A)
    (new : A) (rows : list A) :
  P new → (∀ r, P (update r)) → Forall P rows →
  Forall P (Supabase.upsert conflict update new rows).2.
Proof.
  intros Hnew Hupd. induction 1 as [|r rows Hr Hrows IH]; simpl.
  - by constructor.
  - destruct (conflict r); simpl; [by constructor|].
    destruct (Supabase.upsert conflict update new rows) as [x rows'].
    simpl in *. by constructor.
Qed.

Lemma upsert_elem_inv {A} (conflict : A → bool) (update : A → A) (new : A)
    (rows : list A) (x : A) :
  x ∈ (Supabase.upsert conflict update new rows).2 →
  x = (Supabase.upsert conflict update new rows).1 ∨ x ∈ rows.
Proof.
  induction rows as [|r rows IH]; simpl.
  - intros Hx. apply list_elem_of_singleton in Hx. by left.
  - destruct (conflict r); simpl.
    + intros Hx. apply elem_of_cons in Hx as [->|Hx]; [by left|].
      right. by right.
    + destruct (Supabase.upsert conflict update new rows) as [row rows'].
      simpl in *. intros Hx. apply elem_of_cons in Hx as [->|Hx].
      * right. left.
      * destruct (IH Hx) as [->|Hin]; [by left|]. right. by right.
Qed.

(** An upsert whose conflict target is a unique key keeps the key unique,
    and the row it returns is the only one under that key. *)
Lemma upsert_key_unique {A K} `{EqDecision K} (f : A → K) (k : K)
    (update : A → A) (new : A) (rows : list A) :
  f new = k → (∀ r, f (update r) = k) → NoDup (f <$> rows) →
  NoDup (f <$> (Supabase.upsert (λ r, bool_decide (f r = k)) update new rows).2)
  ∧ ∀ x, x ∈ (Supabase.upsert (λ r, bool_decide (f r = k)) update new rows).2 →
         f x = k →
         x = (Supabase.upsert (λ r, bool_decide (f r = k)) update new rows).1.
Proof.
  intros Hnew Hupd. induction rows as [|r rows IH]; simpl; intros Hnd.
  - split; [apply NoDup_singleton|]. intros x Hx _.
    by apply list_elem_of_singleton in Hx.
  - apply NoDup_cons in Hnd as [Hr Hnd]. case_bool_decide as Hk; simpl.
    + split.
      * rewrite Hupd, <- Hk. by apply NoDup_cons.
      * intros x Hx Hfx. apply elem_of_cons in Hx as [->|Hx]; [done|].
        exfalso. apply Hr. rewrite Hk, <- Hfx. by apply list_elem_of_fmap_2.
    + pose proof (upsert_elem_inv (λ r, bool_decide (f r = k)) update new rows)
        as Hinv.
      pose proof (upsert_row (λ r, bool_decide (f r = k)) update new rows)
        as Hrow.
      destruct (IH Hnd) as [IH1 IH2]. clear IH.
      destruct (Supabase.upsert _ update new rows) as [row rows'].
      simpl in *.
      assert (Hfrow : f row = k).
      { destruct Hrow as [->|(r' & _ & _ & ->)]; [done|apply Hupd]. }
      split.
      * apply NoDup_cons. split; [|done].
        intros Hin. apply list_elem_of_fmap in Hin as (x & Hfx & Hx).
        destruct (Hinv x Hx) as [->|Hx']; [congruence|].
        apply Hr. rewrite Hfx. by apply list_elem_of_fmap_2.
      * intros x Hx Hfx. apply elem_of_cons in Hx as [->|Hx]; [done|].
        by apply IH2.
Qed.

(** ** The synchro game *)

Lemma NoDup_all_equal_length {A} (l : list A) :
  NoDup l → (∀ a b, a ∈ l → b ∈ l → a = b) → (length l ≤ 1)%nat.
Proof.
  intros Hnd Heq. destruct l as [|x [|y l]]; simpl; [lia..|]. exfalso.
  apply NoDup_cons in Hnd as [Hx _]. apply Hx.
  rewrite (Heq x y); [left|left|right; left].
Qed.

Lemma Synchro_isSuccess_all_equal (st : Synchro.GameState) :
  Synchro.responseValues st ≠ [] →
  Synchro.isSuccess st = true
  ↔ ∀ a b, a ∈ Synchro.responseValues st → b ∈ Synchro.responseValues st → a = b.
Proof.
  intros Hne. unfold Synchro.isSuccess, Synchro.uniqueAnswers.
  rewrite andb_true_iff, Z.eqb_eq, Z.gtb_lt.
  generalize dependent (Synchro.responseValues st). intros l Hne.
  pose proof (new_Set_NoDup l) as Hnd.
  split.
  - intros [Hone _] a b Ha Hb.
    rewrite <- new_Set_elem in Ha, Hb.
    destruct (Js.new_Set l) as [|x [|y u]]; simpl in Hone; try lia.
    apply list_elem_of_singleton in Ha, Hb. congruence.
  - intros Heq. destruct l as [|a l']; [done|]. split; [|simpl; lia].
    assert (Hle : (length (Js.new_Set (a :: l')) ≤ 1)%nat).
    { apply NoDup_all_equal_length; [done|]. intros x y Hx Hy.
      rewrite new_Set_elem in Hx, Hy. by apply Heq. }
    assert (Ha : a ∈ Js.new_Set (a :: l')) by (apply new_Set_elem; left).
    destruct (Js.new_Set (a :: l')); [by apply elem_of_nil in Ha|].
    simpl in *. lia.
Qed.

(** What [handleSubmitAnswer] stores for a participant who may answer,
    the store holding the question and the participant. *)
Lemma Synchro_submit_trims (rq : Supabase.Request) (roomId : string)
    (c : Synchro.Component) (d : GameService.Db) (me : Supabase.Participant.t) :
  Synchro.currentParticipant c = Some me →
  Synchro.hasAnswered c = false →
  Synchro.questionId (Synchro.gameState c) ≠ "" →
  Js.trim (Synchro.currentAnswer c) ≠ [] →
  Supabase.net rq = Supabase.Reached →
  GameService.references
    (GameService.SynchroQuestion.id <$> GameService.synchro_questions d)
    (Synchro.questionId (Synchro.gameState c)) (Supabase.Participant.id me) d →
  ∃ c' d',
    Synchro.handleSubmitAnswer rq roomId c d
    = (c', d',
       [{| Supabase.channel := Synchro.channelName roomId;
           Supabase.event :=
             Synchro.SynchroAnswerSubmitted (Supabase.Participant.id me)
               (Js.trim (Synchro.currentAnswer c)) |}])
    ∧ Synchro.responses (Synchro.gameState c')
      = Js.Obj.set (Synchro.responses (Synchro.gameState c))
          (Supabase.Participant.id me) (Js.trim (Synchro.currentAnswer c))
    ∧ ∃ row, row ∈ GameService.synchro_responses d'
        ∧ GameService.SynchroResponse.question_id row
          = Synchro.questionId (Synchro.gameState c)
        ∧ GameService.SynchroResponse.participant_id row
          = Supabase.Participant.id me
        ∧ GameService.SynchroResponse.answer row
          = Js.trim (Synchro.currentAnswer c).
Proof.
  intros Hme Hans Hq Htrim Hnet Hrefs. unfold Synchro.handleSubmitAnswer.
  rewrite Hme, Hans.
  destruct (Js.trim (Synchro.currentAnswer c)) as [|ch rest] eqn:Et; [done|].
  simpl Js.falsy. cbv iota. rewrite decide_False by done.
  unfold GameService.submitSynchroResponse. rewrite Hnet.
  rewrite decide_True by done.
  match goal with
  | |- context [Supabase.upsert ?cf ?up ?nw ?rs] =>
      pose proof (upsert_elem cf up nw rs) as Hin;
      pose proof (upsert_row cf up nw rs) as Hrow;
      destruct (Supabase.upsert cf up nw rs) as [row rows]
  end.
  simpl in Hin, Hrow. eexists _, _. split; [reflexivity|]. split; [done|].
  exists row. split; [done|].
  destruct Hrow as [->|(r & _ & _ & ->)]; done.
Qed.

Lemma Obj_get_values {V} (o : Js.Obj.t V) (k : string) (v : V) :
  Js.Obj.get o k = Some v → v ∈ Js.Obj.values o.
Proof.
  induction o as [|[k' v'] o IH]; simpl; [done|].
  destruct (decide (k' = k)).
  - intros [= ->]. left.
  - intros H. right. by apply IH.
Qed.

(** C5, as amended.  The result of a non-empty synchro round is success
    exactly when the answers the state holds for the participants are
    all identical, code unit for code unit; and the answer stored,
    broadcast and kept for a participant is the typed text with the white
    space at both ends trimmed off, the store holding the question and
    the participant.  The answer set is the [responses] object of the
    state, which holds each participant once. *)
Theorem Synchro_result_correct (st : Synchro.GameState)
    (rq : Supabase.Request) (roomId : string) (c : Synchro.Component)
    (d : GameService.Db) (me : Supabase.Participant.t) :
  NoDup (Js.Obj.keys (Synchro.responses st)) →
  Synchro.responses st ≠ Js.Obj.empty →
  Synchro.currentParticipant c = Some me →
  Synchro.hasAnswered c = false →
  Synchro.questionId (Synchro.gameState c) ≠ "" →
  Js.trim (Synchro.currentAnswer c) ≠ [] →
  Supabase.net rq = Supabase.Reached →
  GameService.references
    (GameService.SynchroQuestion.id <$> GameService.synchro_questions d)
    (Synchro.questionId (Synchro.gameState c)) (Supabase.Participant.id me) d →
  (Synchro.isSuccess st = true
   ↔ ∀ p q a b, Js.Obj.get (Synchro.responses st) p = Some a →
                Js.Obj.get (Synchro.responses st) q = Some b → a = b)
  ∧ ∃ c' d',
      Synchro.handleSubmitAnswer rq roomId c d
      = (c', d',
         [{| Supabase.channel := Synchro.channelName roomId;
             Supabase.event :=
               Synchro.SynchroAnswerSubmitted (Supabase.Participant.id me)
                 (Js.trim (Synchro.currentAnswer c)) |}])
      ∧ Synchro.responses (Synchro.gameState c')
        = Js.Obj.set (Synchro.responses (Synchro.gameState c))
            (Supabase.Participant.id me) (Js.trim (Synchro.currentAnswer c))
      ∧ ∃ row, row ∈ GameService.synchro_responses d'
          ∧ GameService.SynchroResponse.question_id row
            = Synchro.questionId (Synchro.gameState c)
          ∧ GameService.SynchroResponse.participant_id row
            = Supabase.Participant.id me
          ∧ GameService.SynchroResponse.answer row
            = Js.trim (Synchro.currentAnswer c).
Proof.
  intros Hkeys Hne Hme Hans Hq Htrim Hnet Hrefs. split.
  - assert (Hvals : Synchro.responseValues st ≠ []).
    { unfold Synchro.responseValues, Js.Obj.values.
      destruct (Synchro.responses st); done. }
    rewrite (Synchro_isSuccess_all_equal st Hvals).
    unfold Synchro.responseValues. split.
    + intros Heq p q a b Hp Hq'.
      apply Heq; by eapply Obj_get_values.
    + intros Heq a b Ha Hb.
      apply Obj_values_get in Ha as [p Hp]; [|done].
      apply Obj_values_get in Hb as [q Hq']; [|done].
      by apply (Heq p q).
  - by apply Synchro_submit_trims.
Qed.

(** The claim as written fails: alice typed [" apple"], bob typed
    ["apple"]; the two texts differ, alice's client holds ["apple"] for
    both, and the round is a success. *)
Lemma Synchro_untrimmed_counterexample :
  Synchro.responses (Synchro.gameState Scenario.synchro_alice_view)
  = [("a11ce", Js.of_string "apple"); ("b0b", Js.of_string "apple")]
  ∧ ¬ (Synchro.isSuccess (Synchro.gameState Scenario.synchro_alice_view) = true
       ↔ Scenario.typed_by_alice = Scenario.typed_by_bob).
Proof.
  split; [vm_compute; reflexivity|].
  intros [Hto _]. assert (H : Scenario.typed_by_alice = Scenario.typed_by_bob).
  { apply Hto. vm_compute. reflexivity. }
  vm_compute in H. discriminate H.
Qed.

Lemma Synchro_result_correct_witness :
  NoDup (Js.Obj.keys
           (Synchro.responses (Synchro.gameState Scenario.synchro_alice_view)))
  ∧ Synchro.responses (Synchro.gameState Scenario.synchro_alice_view)
    ≠ Js.Obj.empty
  ∧ Synchro.currentParticipant Scenario.synchro_alice_typing = Some Scenario.alice
  ∧ Synchro.hasAnswered Scenario.synchro_alice_typing = false
  ∧ Synchro.questionId (Synchro.gameState Scenario.synchro_alice_typing) ≠ ""
  ∧ Js.trim (Synchro.currentAnswer Scenario.synchro_alice_typing) ≠ []
  ∧ Supabase.net (Scenario.reaching "r1" 10) = Supabase.Reached
  ∧ GameService.references
      (GameService.SynchroQuestion.id
         <$> GameService.synchro_questions Scenario.synchro_round_db)
      (Synchro.questionId (Synchro.gameState Scenario.synchro_alice_typing))
      (Supabase.Participant.id Scenario.alice) Scenario.synchro_round_db
  ∧ ((Synchro.isSuccess (Synchro.gameState Scenario.synchro_alice_view) = true
      ↔ ∀ p q a b,
          Js.Obj.get
            (Synchro.responses (Synchro.gameState Scenario.synchro_alice_view)) p
          = Some a →
          Js.Obj.get
            (Synchro.responses (Synchro.gameState Scenario.synchro_alice_view)) q
          = Some b → a = b)
     ∧ ∃ c' d',
         Synchro.handleSubmitAnswer (Scenario.reaching "r1" 10) "room1"
           Scenario.synchro_alice_typing Scenario.synchro_round_db
         = (c', d',
            [{| Supabase.channel := Synchro.channelName "room1";
                Supabase.event :=
                  Synchro.SynchroAnswerSubmitted
                    (Supabase.Participant.id Scenario.alice)
                    (Js.trim (Synchro.currentAnswer Scenario.synchro_alice_typing)) |}])
         ∧ Synchro.responses (Synchro.gameState c')
           = Js.Obj.set
               (Synchro.responses (Synchro.gameState Scenario.synchro_alice_typing))
               (Supabase.Participant.id Scenario.alice)
               (Js.trim (Synchro.currentAnswer Scenario.synchro_alice_typing))
         ∧ ∃ row,
             row ∈ GameService.synchro_responses d'
             ∧ GameService.SynchroResponse.question_id row
               = Synchro.questionId (Synchro.gameState Scenario.synchro_alice_typing)
             ∧ GameService.SynchroResponse.participant_id row
               = Supabase.Participant.id Scenario.alice
             ∧ GameService.SynchroResponse.answer row
               = Js.trim (Synchro.currentAnswer Scenario.synchro_alice_typing)).
Proof.
  assert (H0 : NoDup (Js.Obj.keys
                        (Synchro.responses
                           (Synchro.gameState Scenario.synchro_alice_view))))
    by (apply (bool_decide_unpack _); vm_compute; exact I).
  assert (H1 : Synchro.responses (Synchro.gameState Scenario.synchro_alice_view)
               ≠ Js.Obj.empty) by (vm_compute; discriminate).
  assert (H2 : Synchro.currentParticipant Scenario.synchro_alice_typing
               = Some Scenario.alice) by reflexivity.
  assert (H3 : Synchro.hasAnswered Scenario.synchro_alice_typing = false)
    by reflexivity.
  assert (H4 : Synchro.questionId
                 (Synchro.gameState Scenario.synchro_alice_typing) ≠ "")
    by (vm_compute; discriminate).
  assert (H5 : Js.trim (Synchro.currentAnswer Scenario.synchro_alice_typing) ≠ [])
    by (vm_compute; discriminate).
  assert (H6 : Supabase.net (Scenario.reaching "r1" 10) = Supabase.Reached)
    by reflexivity.
  assert (H7 : GameService.references
                 (GameService.SynchroQuestion.id
                    <$> GameService.synchro_questions Scenario.synchro_round_db)
                 (Synchro.questionId
                    (Synchro.gameState Scenario.synchro_alice_typing))
                 (Supabase.Participant.id Scenario.alice)
                 Scenario.synchro_round_db)
    by (apply (bool_decide_unpack _); vm_compute; exact I).
  repeat (split; [assumption|]).
  exact (Synchro_result_correct
           (Synchro.gameState Scenario.synchro_alice_view)
           (Scenario.reaching "r1" 10) "room1" Scenario.synchro_alice_typing
           Scenario.synchro_round_db Scenario.alice
           H0 H1 H2 H3 H4 H5 H6 H7).
Defined.

(** ** Reveal *)

(** Ranking and synchro: reveal moves to the results phase with the
    answers the client already holds. *)
Lemma Ranking_reveal_keeps_local (roomId : string) (c : Ranking.Component) :
  Ranking.responses (Ranking.gameState (Ranking.handleShowResults roomId c).1)
  = Ranking.responses (Ranking.gameState c)
  ∧ Ranking.phase (Ranking.gameState (Ranking.handleShowResults roomId c).1)
    = Ranking.results.
Proof. done. Qed.

Lemma Synchro_reveal_keeps_local (roomId : string) (c : Synchro.Component) :
  Synchro.responses (Synchro.gameState (Synchro.handleShowResults roomId c).1)
  = Synchro.responses (Synchro.gameState c)
  ∧ Synchro.phase (Synchro.gameState (Synchro.handleShowResults roomId c).1)
    = Synchro.results.
Proof. done. Qed.

(** The survey does read the store at reveal, when no cache entry younger
    than two seconds stands in for it. *)
Lemma Survey_reveal_reads_store (now : Z) (roomId : string)
    (c : Survey.Component) (cache : GameService.ResponseCache)
    (d : GameService.Db) :
  Survey.questionId (Survey.gameState c) ≠ "" →
  GameService.cache_hit (GameService.cache_responses cache)
    (Survey.questionId (Survey.gameState c)) now = None →
  Survey.responses
    (Survey.gameState
       (Survey.handleShowResults Supabase.Reached now roomId c cache d).1.1)
  = Js.Obj.of_rows GameService.GameResponse.participant_id
      GameService.GameResponse.response
      (filter (λ r, GameService.GameResponse.question_id r
                    = Survey.questionId (Survey.gameState c))
         (GameService.game_responses d)).
Proof.
  intros Hq Hmiss. unfold Survey.handleShowResults.
  rewrite decide_False by done.
  unfold GameService.getQuestionResponses. rewrite Hmiss. done.
Qed.

(** The survey's reveal shows every answer the store holds for the
    question, one per participant, when it does read the store. *)
Lemma Survey_reveal_includes_persisted (now : Z) (roomId : string)
    (c : Survey.Component) (cache : GameService.ResponseCache)
    (d : GameService.Db) (row : GameService.GameResponse.t) :
  Survey.questionId (Survey.gameState c) ≠ "" →
  GameService.cache_hit (GameService.cache_responses cache)
    (Survey.questionId (Survey.gameState c)) now = None →
  NoDup (GameService.GameResponse.participant_id
           <$> filter (λ r, GameService.GameResponse.question_id r
                            = Survey.questionId (Survey.gameState c))
                 (GameService.game_responses d)) →
  row ∈ GameService.game_responses d →
  GameService.GameResponse.question_id row
  = Survey.questionId (Survey.gameState c) →
  Js.Obj.get
    (Survey.responses
       (Survey.gameState
          (Survey.handleShowResults Supabase.Reached now roomId c cache d).1.1))
    (GameService.GameResponse.participant_id row)
  = Some (GameService.GameResponse.response row).
Proof.
  intros Hq Hmiss Hnd Hrow Hqid.
  rewrite Survey_reveal_reads_store by done.
  apply of_rows_fold_get; [done|]. by apply list_elem_of_filter.
Qed.

(** Within two seconds of an earlier read the survey's reveal takes the
    cached answers: alice's stored answer is not among them. *)
Example Survey_reveal_from_cache :
  (∃ row,
     row ∈ GameService.game_responses (Scenario.survey_alice_answers.1.2)
     ∧ GameService.GameResponse.question_id row = "q1"
     ∧ GameService.GameResponse.participant_id row
       = Supabase.Participant.id Scenario.alice)
  ∧ Survey.phase (Survey.gameState (Scenario.survey_bob_reveals.1.1))
    = Survey.results
  ∧ Survey.responses (Survey.gameState (Scenario.survey_bob_reveals.1.1))
    = Js.Obj.empty.
Proof.
  split.
  - eexists. split.
    + vm_compute. left.
    + split; reflexivity.
  - split; vm_compute; reflexivity.
Qed.

(** C1, at the failing input.  Bob, the questioner, holds an answer of
    each participant, so his client shows the reveal button, and he
    presses it; his own answer is in the store, its broadcast never
    reached alice.  The reveal carries no answers and no client reads the
    store: alice's client, on [ranking_show_results], shows the answers it
    holds.  Bob's is missing there and the round counts as a success,
    while the stored answers collide and bob's client shows a failure. *)
Theorem Ranking_reveal_misses_persisted_answer :
  Ranking.showResultsButton (Scenario.ranking_bob_submits.1.1) = true
  ∧ (∃ row,
       row ∈ GameService.ranking_responses (Scenario.ranking_bob_submits.1.2)
       ∧ GameService.RankingResponse.question_id row = "q1"
       ∧ GameService.RankingResponse.participant_id row
         = Supabase.Participant.id Scenario.bob
       ∧ GameService.RankingResponse.rank_choice row = 1)
  ∧ Scenario.ranking_bob_reveals.2
    = [{| Supabase.channel := Ranking.channelName "room1";
          Supabase.event := Ranking.RankingShowResults |}]
  ∧ Ranking.phase (Ranking.gameState Scenario.ranking_alice_sees)
    = Ranking.results
  ∧ Js.Obj.get
      (Ranking.responses (Ranking.gameState Scenario.ranking_alice_sees))
      (Supabase.Participant.id Scenario.bob) = None
  ∧ Ranking.isSuccess (Ranking.gameState Scenario.ranking_alice_sees) = true
  ∧ Js.Obj.get Scenario.ranking_stored_answers
      (Supabase.Participant.id Scenario.bob) = Some 1
  ∧ Ranking.isSuccess
      (Ranking.with_responses Scenario.ranking_stored_answers
         (Ranking.gameState Scenario.ranking_alice_sees))
    = false
  ∧ Ranking.isSuccess (Ranking.gameState (Scenario.ranking_bob_reveals.1))
    = false
  ∧ ∀ roomId c,
      Ranking.responses
        (Ranking.gameState
           (Ranking.receive roomId
              {| Supabase.channel := Ranking.channelName roomId;
                 Supabase.event := Ranking.RankingShowResults |} c))
      = Ranking.responses (Ranking.gameState c).
Proof.
  split; [vm_compute; reflexivity|]. split.
  - eexists. split.
    + vm_compute. right. left.
    + repeat split; reflexivity.
  - repeat split; try (vm_compute; reflexivity).
    intros roomId c. unfold Ranking.receive.
    cbn [Supabase.channel Supabase.event]. by rewrite decide_True.
Qed.

(** ** The survey and the identity of the answerers *)

Lemma Survey_receive_answers (roomId : string) (answers : list (string * bool))
    (c : Survey.Component) :
  Survey.responses
    (Survey.gameState
       (fold_left (λ c m, Survey.receive roomId m c)
          (Survey.answer_messages roomId answers) c))
  = fold_left (λ o pa, Js.Obj.set o pa.1 pa.2) answers
      (Survey.responses (Survey.gameState c)).
Proof.
  revert c. induction answers as [|[p a] answers IH]; intros c; simpl; [done|].
  rewrite IH. unfold Survey.receive. cbn [Supabase.channel Supabase.event].
  by rewrite decide_True.
Qed.

Lemma yesCount_Permutation (l1 l2 : list bool) :
  l1 ≡ₚ l2 →
  length (List.filter (λ b : bool, b) l1) = length (List.filter (λ b : bool, b) l2).
Proof.
  induction 1 as [|x l1 l2 _ IH|x y l|l1 l2 l3 _ IH1 _ IH2]; simpl.
  - done.
  - destruct x; simpl; congruence.
  - destruct x, y; done.
  - congruence.
Qed.

(** C6, as amended.  What the survey derives from the answers before
    reveal is the pair of counts: after a question has been announced,
    [totalResponses] is the number of distinct participants whose answer
    messages arrived; [yesCount] and [totalResponses] are the same for two
    states whose answers agree up to who gave them. *)
Theorem Survey_aggregate_only (roomId : string) (c : Survey.Component)
    (question questionId questionerId questionerName sessionId : string)
    (answers : list (string * bool)) (g1 g2 : Survey.GameState) :
  Js.Obj.values (Survey.responses g1) ≡ₚ Js.Obj.values (Survey.responses g2) →
  Survey.totalResponses
    (Survey.gameState
       (fold_left (λ c m, Survey.receive roomId m c)
          (Survey.answer_messages roomId answers)
          (Survey.receive roomId
             {| Supabase.channel := Survey.channelName roomId;
                Supabase.event :=
                  Survey.QuestionSubmitted question questionId questionerId
                    questionerName sessionId |} c)))
  = length (Js.new_Set (answers.*1))
  ∧ Survey.yesCount g1 = Survey.yesCount g2
  ∧ Survey.totalResponses g1 = Survey.totalResponses g2.
Proof.
  intros Hperm. split; [|split].
  - unfold Survey.totalResponses.
    rewrite Survey_receive_answers, Obj_keys_fold_set.
    unfold Survey.receive. cbn [Supabase.channel Supabase.event].
    by rewrite decide_True.
  - unfold Survey.yesCount. by apply yesCount_Permutation.
  - apply Permutation_length in Hperm. unfold Js.Obj.values in Hperm.
    rewrite !length_fmap in Hperm.
    unfold Survey.totalResponses, Js.Obj.keys. by rewrite !length_fmap.
Qed.

(** The claim as written fails.  Carol's client, before reveal, holds
    who answered what: the two rounds below have the same counts, yet her
    state differs and tells alice's answer; the message alice's client
    hands to the channel names her together with her answer. *)
Lemma Survey_identity_exposed :
  Survey.phase (Survey.gameState (Scenario.survey_carol_view true false))
  = Survey.answering
  ∧ Survey.phase (Survey.gameState (Scenario.survey_carol_view false true))
    = Survey.answering
  ∧ Survey.yesCount (Survey.gameState (Scenario.survey_carol_view true false))
    = Survey.yesCount (Survey.gameState (Scenario.survey_carol_view false true))
  ∧ Survey.totalResponses (Survey.gameState (Scenario.survey_carol_view true false))
    = Survey.totalResponses (Survey.gameState (Scenario.survey_carol_view false true))
  ∧ Scenario.survey_carol_view true false ≠ Scenario.survey_carol_view false true
  ∧ Js.Obj.get
      (Survey.responses (Survey.gameState (Scenario.survey_carol_view true false)))
      (Supabase.Participant.id Scenario.alice) = Some true
  ∧ Js.Obj.get
      (Survey.responses (Survey.gameState (Scenario.survey_carol_view false true)))
      (Supabase.Participant.id Scenario.alice) = Some false
  ∧ head (Scenario.survey_answers_sent true false)
    = Some {| Supabase.channel := "game-events-room1";
              Supabase.event :=
                Survey.AnswerSubmitted
                  (Supabase.Participant.id Scenario.alice) true |}.
Proof.
  repeat split; try (vm_compute; reflexivity).
  intros H. vm_compute in H. discriminate H.
Qed.

Lemma Survey_aggregate_only_witness :
  Js.Obj.values
    (Survey.responses (Survey.gameState (Scenario.survey_carol_view true false)))
  ≡ₚ Js.Obj.values
       (Survey.responses (Survey.gameState (Scenario.survey_carol_view false true)))
  ∧ (Survey.totalResponses
       (Survey.gameState
          (fold_left (λ c m, Survey.receive "room1" m c)
             (Survey.answer_messages "room1"
                [("a11ce", true); ("b0b", false); ("a11ce", false)])
             (Survey.receive "room1"
                {| Supabase.channel := Survey.channelName "room1";
                   Supabase.event :=
                     Survey.QuestionSubmitted "do you like tea" "q2" "ca401"
                       "carol" "s1" |}
                (Scenario.survey_carol_view true false))))
     = length (Js.new_Set ([("a11ce", true); ("b0b", false); ("a11ce", false)].*1))
     ∧ Survey.yesCount (Survey.gameState (Scenario.survey_carol_view true false))
       = Survey.yesCount (Survey.gameState (Scenario.survey_carol_view false true))
     ∧ Survey.totalResponses
         (Survey.gameState (Scenario.survey_carol_view true false))
       = Survey.totalResponses
           (Survey.gameState (Scenario.survey_carol_view false true))).
Proof.
  assert (H : Js.Obj.values
                (Survey.responses
                   (Survey.gameState (Scenario.survey_carol_view true false)))
              ≡ₚ Js.Obj.values
                   (Survey.responses
                      (Survey.gameState (Scenario.survey_carol_view false true)))).
  { vm_compute. apply perm_swap. }
  split; [exact H|].
  exact (Survey_aggregate_only "room1" (Scenario.survey_carol_view true false)
           "do you like tea" "q2" "ca401" "carol" "s1"
           [("a11ce", true); ("b0b", false); ("a11ce", false)]
           (Survey.gameState (Scenario.survey_carol_view true false))
           (Survey.gameState (Scenario.survey_carol_view false true)) H).
Defined.

(** ** The reads of the services *)

(** The shape all single-query reads share: whatever the transport does,
    [try]/[catch] turns it into a returned value, and a failed query into
    the fallback. *)
Lemma read_caught {A B} (n : Supabase.Net) (answer : Supabase.Response A)
    (f : option A → B) (fallback : B) :
  Supabase.error answer = None →
  ∃ r,
    Supabase.try_catch
      (Supabase.map_outcome f
         (Supabase.data_or_throw (Supabase.await n answer)))
      (λ _, Supabase.Return fallback)
    = Supabase.Return r
    ∧ (n ≠ Supabase.Reached → r = fallback).
Proof.
  intros Herr. destruct n as [|e|e]; simpl.
  - rewrite Herr. simpl. eexists. split; [reflexivity|done].
  - eauto.
  - eauto.
Qed.

Lemma read_caught_single {A} (n : Supabase.Net) (rows : list A) :
  ∃ r,
    Supabase.try_catch
      (Supabase.data_or_throw (Supabase.await n (Supabase.maybeSingle rows)))
      (λ _, Supabase.Return None)
    = Supabase.Return r
    ∧ (n ≠ Supabase.Reached → r = None).
Proof.
  destruct n as [|e|e]; simpl; [|eauto..].
  destruct rows as [|r [|r' rows]]; simpl; eexists; (split; [reflexivity|done]).
Qed.

Lemma getVotes_returns (n : Supabase.Net) (sessionId : string) (voteRound : Z)
    (d : WerewolfService.Db) :
  ∃ rows, WerewolfService.getVotes n sessionId voteRound d = Supabase.Return rows
          ∧ (n ≠ Supabase.Reached → rows = []).
Proof. by apply read_caught. Qed.

Lemma getAllAssignments_returns (n : Supabase.Net) (sessionId : string)
    (d : WerewolfService.Db) :
  ∃ rows, WerewolfService.getAllAssignments n sessionId d = Supabase.Return rows
          ∧ (n ≠ Supabase.Reached → rows = []).
Proof. by apply read_caught. Qed.

Lemma getQuestionResponses_returns (n : Supabase.Net) (now : Z)
    (questionId : string) (cache : GameService.ResponseCache)
    (d : GameService.Db) :
  ∃ rows,
    (GameService.getQuestionResponses n now questionId cache d).1 = Supabase.Return rows
    ∧ (n ≠ Supabase.Reached →
       GameService.cache_hit (GameService.cache_responses cache) questionId now = None →
       rows = []).
Proof.
  unfold GameService.getQuestionResponses.
  destruct (GameService.cache_hit _ _ _) as [cached|];
    [simpl; eexists; (split; [reflexivity|done])|].
  destruct n as [|e|e]; simpl; eexists; (split; [reflexivity|done]).
Qed.

Lemma getRankingResponses_returns (n : Supabase.Net) (now : Z)
    (questionId : string) (cache : GameService.ResponseCache)
    (d : GameService.Db) :
  ∃ rows,
    (GameService.getRankingResponses n now questionId cache d).1 = Supabase.Return rows
    ∧ (n ≠ Supabase.Reached →
       GameService.cache_hit (GameService.cache_ranking_responses cache) questionId now
       = None →
       rows = []).
Proof.
  unfold GameService.getRankingResponses.
  destruct (GameService.cache_hit _ _ _) as [cached|];
    [simpl; eexists; (split; [reflexivity|done])|].
  destruct n as [|e|e]; simpl; eexists; (split; [reflexivity|done]).
Qed.

Lemma getSynchroResponses_returns (n : Supabase.Net) (now : Z)
    (questionId : string) (cache : GameService.ResponseCache)
    (d : GameService.Db) :
  ∃ rows,
    (GameService.getSynchroResponses n now questionId cache d).1 = Supabase.Return rows
    ∧ (n ≠ Supabase.Reached →
       GameService.cache_hit (GameService.cache_synchro_responses cache) questionId now
       = None →
       rows = []).
Proof.
  unfold GameService.getSynchroResponses.
  destruct (GameService.cache_hit _ _ _) as [cached|];
    [simpl; eexists; (split; [reflexivity|done])|].
  destruct n as [|e|e]; simpl; eexists; (split; [reflexivity|done]).
Qed.

Lemma getActiveQuestions_returns (n1 n2 n3 : Supabase.Net) (sessionId : string)
    (d : GameService.Db) :
  ∃ r,
    GameService.getActiveQuestions n1 n2 n3 sessionId d = Supabase.Return r
    ∧ (n1 ≠ Supabase.Reached → GameService.gameQuestions r = [])
    ∧ (n2 ≠ Supabase.Reached → GameService.rankingQuestions r = [])
    ∧ (n3 ≠ Supabase.Reached → GameService.synchroQuestions r = []).
Proof.
  unfold GameService.getActiveQuestions.
  destruct n1 as [|e1|e1], n2 as [|e2|e2], n3 as [|e3|e3]; simpl;
    eexists; (split; [reflexivity|]); simpl; repeat split; done.
Qed.

(** C9.  No read of the services lets an error out: each returns a value
    whatever the transport does, and the value is [null] (single-row
    reads) or the empty list (multi-row reads) when its query did not get
    through; the three cached reads query the store only when no fresh
    cache entry answers. *)
Theorem reads_never_throw (n n2 n3 : Supabase.Net) (now voteRound : Z)
    (roomId sessionId questionId participantId : string)
    (gd : GameService.Db) (cache : GameService.ResponseCache)
    (wd : WerewolfService.Db) :
  (∃ r, GameService.getActiveGameSession n roomId gd = Supabase.Return r
        ∧ (n ≠ Supabase.Reached → r = None))
  ∧ (∃ rows,
       (GameService.getQuestionResponses n now questionId cache gd).1
       = Supabase.Return rows
       ∧ (n ≠ Supabase.Reached →
          GameService.cache_hit (GameService.cache_responses cache) questionId now
          = None →
          rows = []))
  ∧ (∃ rows,
       (GameService.getRankingResponses n now questionId cache gd).1
       = Supabase.Return rows
       ∧ (n ≠ Supabase.Reached →
          GameService.cache_hit (GameService.cache_ranking_responses cache)
            questionId now = None →
          rows = []))
  ∧ (∃ rows,
       (GameService.getSynchroResponses n now questionId cache gd).1
       = Supabase.Return rows
       ∧ (n ≠ Supabase.Reached →
          GameService.cache_hit (GameService.cache_synchro_responses cache)
            questionId now = None →
          rows = []))
  ∧ (∃ r,
       GameService.getActiveQuestions n n2 n3 sessionId gd = Supabase.Return r
       ∧ (n ≠ Supabase.Reached → GameService.gameQuestions r = [])
       ∧ (n2 ≠ Supabase.Reached → GameService.rankingQuestions r = [])
       ∧ (n3 ≠ Supabase.Reached → GameService.synchroQuestions r = []))
  ∧ (∃ rows,
       WerewolfService.getVotes n sessionId voteRound wd = Supabase.Return rows
       ∧ (n ≠ Supabase.Reached → rows = []))
  ∧ (∃ r,
       WerewolfService.getAssignment n sessionId participantId wd
       = Supabase.Return r
       ∧ (n ≠ Supabase.Reached → r = None))
  ∧ (∃ rows,
       WerewolfService.getAllAssignments n sessionId wd = Supabase.Return rows
       ∧ (n ≠ Supabase.Reached → rows = []))
  ∧ (∃ r,
       WerewolfService.getSession n sessionId wd = Supabase.Return r
       ∧ (n ≠ Supabase.Reached → r = None))
  ∧ (∃ r,
       WerewolfService.getActiveSession n roomId wd = Supabase.Return r
       ∧ (n ≠ Supabase.Reached → r = None)).
Proof.
  split; [apply read_caught_single|].
  split; [apply getQuestionResponses_returns|].
  split; [apply getRankingResponses_returns|].
  split; [apply getSynchroResponses_returns|].
  split; [apply getActiveQuestions_returns|].
  split; [apply getVotes_returns|].
  split; [apply read_caught_single|].
  split; [apply getAllAssignments_returns|].
  split; apply read_caught_single.
Qed.

(** ** Votes *)

Lemma submitVote_self (rq : Supabase.Request) (sessionId voterId : string)
    (voteRound : Z) (d : WerewolfService.Db) :
  ∃ e, WerewolfService.submitVote rq sessionId voterId voterId voteRound d
       = (Supabase.Throw e, d).
Proof.
  unfold WerewolfService.submitVote. destruct (Supabase.net rq); [|eauto..].
  rewrite decide_True by done. eauto.
Qed.

Lemma submitVote_keeps_check (rq : Supabase.Request)
    (sessionId voterId targetId : string) (voteRound : Z)
    (d : WerewolfService.Db) :
  Forall WerewolfService.vote_ok (WerewolfService.werewolf_votes d) →
  Forall WerewolfService.vote_ok
    (WerewolfService.werewolf_votes
       (WerewolfService.submitVote rq sessionId voterId targetId voteRound d).2).
Proof.
  intros Hd. unfold WerewolfService.submitVote.
  destruct (Supabase.net rq); [|done..].
  destruct (decide (voterId = targetId)) as [|Hne]; [done|].
  destruct (decide (¬ WerewolfService.vote_references sessionId voterId
                        targetId d)); [done|].
  match goal with
  | |- context [Supabase.upsert ?cf ?up ?nw ?rs] =>
      pose proof (upsert_Forall WerewolfService.vote_ok cf up nw rs) as Hall;
      destruct (Supabase.upsert cf up nw rs) as [row rows]
  end.
  simpl in *. apply Hall; [done| |done]. by intros r.
Qed.

Lemma submitVotes_keep_check (calls : list WerewolfService.VoteCall)
    (d : WerewolfService.Db) :
  Forall WerewolfService.vote_ok (WerewolfService.werewolf_votes d) →
  Forall WerewolfService.vote_ok
    (WerewolfService.werewolf_votes (WerewolfService.submitVotes calls d)).
Proof.
  revert d. induction calls as [|vc calls IH]; intros d Hd; simpl; [done|].
  apply IH. by apply submitVote_keeps_check.
Qed.

(** C3.  A vote for oneself is refused: [submitVote] throws and the store
    is as before; [handleVote] then leaves the client as it was and sends
    nothing; the vote phase offers no button for oneself; and whatever
    calls of [submitVote] the store serves, starting without such a row,
    no row of [werewolf_votes] has its voter as target. *)
Theorem Werewolf_self_vote_rejected (rq : Supabase.Request)
    (roomId sessionId voterId : string) (voteRound : Z)
    (c : Werewolf.Component) (d : WerewolfService.Db)
    (me : Supabase.Participant.t) (calls : list WerewolfService.VoteCall) :
  Werewolf.currentParticipant c = Some me →
  (∃ e, WerewolfService.submitVote rq sessionId voterId voterId voteRound d
        = (Supabase.Throw e, d))
  ∧ Werewolf.handleVote rq roomId (Supabase.Participant.id me) c d = (c, d, [])
  ∧ (∀ p, p ∈ Werewolf.voteButtons c
          → Supabase.Participant.id p ≠ Supabase.Participant.id me)
  ∧ ∀ d0,
      Forall WerewolfService.vote_ok (WerewolfService.werewolf_votes d0) →
      Forall WerewolfService.vote_ok
        (WerewolfService.werewolf_votes (WerewolfService.submitVotes calls d0)).
Proof.
  intros Hme. split; [apply submitVote_self|]. split; [|split].
  - unfold Werewolf.handleVote. rewrite Hme.
    destruct (Werewolf.session (Werewolf.gameState c)) as [s|]; [|done].
    destruct (Werewolf.hasVoted c); [done|].
    destruct (submitVote_self rq (WerewolfService.WerewolfSession.id s)
                (Supabase.Participant.id me)
                (Werewolf.voteRound (Werewolf.gameState c)) d) as [e ->].
    done.
  - intros p Hp. unfold Werewolf.voteButtons in Hp.
    apply list_elem_of_filter in Hp as [Hp _]. rewrite Hme in Hp. simpl in Hp.
    congruence.
  - intros d0. apply submitVotes_keep_check.
Qed.

Lemma Werewolf_self_vote_rejected_witness :
  Werewolf.currentParticipant
    (Scenario.werewolf_client WerewolfService.vote 1 Scenario.alice)
  = Some Scenario.alice
  ∧ ((∃ e,
        WerewolfService.submitVote (Scenario.reaching "v1" 20) "w1" "a11ce"
          "a11ce" 1 (Scenario.werewolf_db WerewolfService.vote)
        = (Supabase.Throw e, Scenario.werewolf_db WerewolfService.vote))
     ∧ Werewolf.handleVote (Scenario.reaching "v1" 20) "room1"
         (Supabase.Participant.id Scenario.alice)
         (Scenario.werewolf_client WerewolfService.vote 1 Scenario.alice)
         (Scenario.werewolf_db WerewolfService.vote)
       = (Scenario.werewolf_client WerewolfService.vote 1 Scenario.alice,
          Scenario.werewolf_db WerewolfService.vote, [])
     ∧ (∀ p,
          p ∈ Werewolf.voteButtons
                (Scenario.werewolf_client WerewolfService.vote 1 Scenario.alice)
          → Supabase.Participant.id p ≠ Supabase.Participant.id Scenario.alice)
     ∧ ∀ d0,
         Forall WerewolfService.vote_ok (WerewolfService.werewolf_votes d0) →
         Forall WerewolfService.vote_ok
           (WerewolfService.werewolf_votes
              (WerewolfService.submitVotes
                 [{| WerewolfService.request := Scenario.reaching "v1" 20;
                     WerewolfService.sessionId := "w1";
                     WerewolfService.voterId := "a11ce";
                     WerewolfService.targetId := "a11ce";
                     WerewolfService.voteRound := 1 |};
                  {| WerewolfService.request := Scenario.reaching "v2" 21;
                     WerewolfService.sessionId := "w1";
                     WerewolfService.voterId := "b0b";
                     WerewolfService.targetId := "a11ce";
                     WerewolfService.voteRound := 1 |}]
                 d0))).
Proof.
  split; [reflexivity|].
  exact (Werewolf_self_vote_rejected (Scenario.reaching "v1" 20) "room1" "w1"
           "a11ce" 1
           (Scenario.werewolf_client WerewolfService.vote 1 Scenario.alice)
           (Scenario.werewolf_db WerewolfService.vote) Scenario.alice _
           eq_refl).
Defined.

(** ** The guess of the werewolf *)

(** C8, as amended.  A guess that is not blank, made for a session and
    by a participant the store holds, over a request that reaches it, is
    stored trimmed and judged after trimming: the announced winner is the
    werewolf exactly when the trimmed guess equals the citizens' topic
    code unit for code unit, the citizens otherwise. *)
Theorem Werewolf_guess_verdict (rq : Supabase.Request) (roomId : string)
    (c : Werewolf.Component) (d : WerewolfService.Db)
    (s : WerewolfService.WerewolfSession.t) (me : Supabase.Participant.t) :
  Werewolf.session (Werewolf.gameState c) = Some s →
  Werewolf.currentParticipant c = Some me →
  Js.trim (Werewolf.guessInput c) ≠ [] →
  Supabase.net rq = Supabase.Reached →
  WerewolfService.guess_references (WerewolfService.WerewolfSession.id s)
    (Supabase.Participant.id me) d →
  ∃ c' d' result,
    Werewolf.handleWerewolfGuess rq roomId c d
    = (c', d', [{| Supabase.channel := Werewolf.channelName roomId;
                   Supabase.event := Werewolf.WerewolfGameEnd result |}])
    ∧ (Werewolf.winner result = Some WerewolfService.werewolf
       ↔ Js.trim (Werewolf.guessInput c)
         = WerewolfService.WerewolfSession.citizen_topic s)
    ∧ (Werewolf.winner result = Some WerewolfService.citizen
       ↔ Js.trim (Werewolf.guessInput c)
         ≠ WerewolfService.WerewolfSession.citizen_topic s)
    ∧ Werewolf.werewolfGuess result = Some (Js.trim (Werewolf.guessInput c))
    ∧ ∃ row,
        row ∈ WerewolfService.werewolf_guesses d'
        ∧ WerewolfService.WerewolfGuess.session_id row
          = WerewolfService.WerewolfSession.id s
        ∧ WerewolfService.WerewolfGuess.werewolf_id row
          = Supabase.Participant.id me
        ∧ WerewolfService.WerewolfGuess.guessed_topic row
          = Js.trim (Werewolf.guessInput c).
Proof.
  intros Hs Hme Htrim Hnet Hrefs. unfold Werewolf.handleWerewolfGuess.
  rewrite Hs, Hme.
  destruct (Js.trim (Werewolf.guessInput c)) as [|ch rest] eqn:Et; [done|].
  simpl Js.falsy. cbv iota.
  unfold WerewolfService.submitGuess. rewrite Hnet.
  rewrite decide_True by done.
  match goal with
  | |- context [Supabase.upsert ?cf ?up ?nw ?rs] =>
      pose proof (upsert_elem cf up nw rs) as Hin;
      pose proof (upsert_row cf up nw rs) as Hrow;
      destruct (Supabase.upsert cf up nw rs) as [row rows]
  end.
  simpl in Hin, Hrow.
  eexists _, _, _. split; [reflexivity|]. cbn.
  split; [|split; [|split; [done|]]].
  - case_bool_decide as Heq; simpl; split; (done || congruence).
  - case_bool_decide as Heq; simpl; split; (done || congruence).
  - exists row. split; [done|].
    destruct Hrow as [->|(r & _ & _ & ->)]; done.
Qed.

(** The claim as written fails: alice's guess [" coffee"] is not the
    citizens' topic ["coffee"], and the werewolf is announced as winner.
    At the same input neither alice's client nor the stored session is in
    phase [finished] once the handler is done. *)
Lemma Werewolf_guess_untrimmed_counterexample :
  ¬ (∀ result,
       Supabase.event <$> Scenario.werewolf_guess.2
       = [Werewolf.WerewolfGameEnd result] →
       (Werewolf.winner result = Some WerewolfService.werewolf
        ↔ Werewolf.guessInput Scenario.werewolf_alice_guessing
          = WerewolfService.WerewolfSession.citizen_topic
              (Scenario.werewolf_session WerewolfService.reverse_chance)))
  ∧ Werewolf.phase (Werewolf.gameState (Scenario.werewolf_guess.1.1))
    = WerewolfService.reverse_chance
  ∧ WerewolfService.WerewolfSession.phase
      <$> WerewolfService.werewolf_sessions (Scenario.werewolf_guess.1.2)
    = [WerewolfService.reverse_chance].
Proof.
  split; [|split; vm_compute; reflexivity].
  intros H.
  specialize (H {| Werewolf.winner := Some WerewolfService.werewolf;
                   Werewolf.eliminatedPlayer := Some "a11ce";
                   Werewolf.werewolfGuess := Some (Js.of_string "coffee");
                   Werewolf.isCorrectGuess := true |}).
  destruct H as [Hto _]; [vm_compute; reflexivity|].
  specialize (Hto eq_refl). vm_compute in Hto. discriminate Hto.
Qed.

Lemma Werewolf_guess_verdict_witness :
  Werewolf.session (Werewolf.gameState Scenario.werewolf_alice_guessing)
  = Some (Scenario.werewolf_session WerewolfService.reverse_chance)
  ∧ Werewolf.currentParticipant Scenario.werewolf_alice_guessing
    = Some Scenario.alice
  ∧ Js.trim (Werewolf.guessInput Scenario.werewolf_alice_guessing) ≠ []
  ∧ Supabase.net (Scenario.reaching "g1" 40) = Supabase.Reached
  ∧ WerewolfService.guess_references
      (WerewolfService.WerewolfSession.id
         (Scenario.werewolf_session WerewolfService.reverse_chance))
      (Supabase.Participant.id Scenario.alice)
      (Scenario.werewolf_db WerewolfService.reverse_chance)
  ∧ ∃ c' d' result,
      Werewolf.handleWerewolfGuess (Scenario.reaching "g1" 40) "room1"
        Scenario.werewolf_alice_guessing
        (Scenario.werewolf_db WerewolfService.reverse_chance)
      = (c', d',
         [{| Supabase.channel := Werewolf.channelName "room1";
             Supabase.event := Werewolf.WerewolfGameEnd result |}])
      ∧ (Werewolf.winner result = Some WerewolfService.werewolf
         ↔ Js.trim (Werewolf.guessInput Scenario.werewolf_alice_guessing)
           = WerewolfService.WerewolfSession.citizen_topic
               (Scenario.werewolf_session WerewolfService.reverse_chance))
      ∧ (Werewolf.winner result = Some WerewolfService.citizen
         ↔ Js.trim (Werewolf.guessInput Scenario.werewolf_alice_guessing)
           ≠ WerewolfService.WerewolfSession.citizen_topic
               (Scenario.werewolf_session WerewolfService.reverse_chance))
      ∧ Werewolf.werewolfGuess result
        = Some (Js.trim (Werewolf.guessInput Scenario.werewolf_alice_guessing))
      ∧ ∃ row,
          row ∈ WerewolfService.werewolf_guesses d'
          ∧ WerewolfService.WerewolfGuess.session_id row
            = WerewolfService.WerewolfSession.id
                (Scenario.werewolf_session WerewolfService.reverse_chance)
          ∧ WerewolfService.WerewolfGuess.werewolf_id row
            = Supabase.Participant.id Scenario.alice
          ∧ WerewolfService.WerewolfGuess.guessed_topic row
            = Js.trim (Werewolf.guessInput Scenario.werewolf_alice_guessing).
Proof.
  assert (H1 : Werewolf.session (Werewolf.gameState Scenario.werewolf_alice_guessing)
               = Some (Scenario.werewolf_session WerewolfService.reverse_chance))
    by reflexivity.
  assert (H2 : Werewolf.currentParticipant Scenario.werewolf_alice_guessing
               = Some Scenario.alice) by reflexivity.
  assert (H3 : Js.trim (Werewolf.guessInput Scenario.werewolf_alice_guessing) ≠ [])
    by (vm_compute; discriminate).
  assert (H4 : Supabase.net (Scenario.reaching "g1" 40) = Supabase.Reached)
    by reflexivity.
  assert (H5 : WerewolfService.guess_references
                 (WerewolfService.WerewolfSession.id
                    (Scenario.werewolf_session WerewolfService.reverse_chance))
                 (Supabase.Participant.id Scenario.alice)
                 (Scenario.werewolf_db WerewolfService.reverse_chance))
    by (apply (bool_decide_unpack _); vm_compute; exact I).
  repeat (split; [assumption|]).
  exact (Werewolf_guess_verdict (Scenario.reaching "g1" 40) "room1"
           Scenario.werewolf_alice_guessing
           (Scenario.werewolf_db WerewolfService.reverse_chance)
           (Scenario.werewolf_session WerewolfService.reverse_chance)
           Scenario.alice H1 H2 H3 H4 H5).
Defined.

(** ** The tally *)

(** The counting loop: each target's entry is the number of votes for it. *)
Lemma voteCount_fold (votes : list WerewolfService.WerewolfVote.t)
    (acc : Js.Obj.t Z) (id : string) :
  Js.Obj.get
    (fold_left
       (λ count vote,
          Js.Obj.set count (WerewolfService.WerewolfVote.target_id vote)
            (default 0
               (Js.Obj.get count (WerewolfService.WerewolfVote.target_id vote))
             + 1))
       votes acc) id
  = match Js.Obj.get acc id, Werewolf.votes_for votes id with
    | None, O => None
    | o, n => Some (default 0 o + Z.of_nat n)
    end.
Proof.
  revert acc. unfold Werewolf.votes_for.
  induction votes as [|v votes IH]; intros acc.
  - simpl. destruct (Js.Obj.get acc id); simpl; [apply (f_equal Some); lia|done].
  - cbn [fold_left]. rewrite IH. clear IH.
    destruct (decide (WerewolfService.WerewolfVote.target_id v = id)) as [Heq|Hne].
    + rewrite filter_cons_True by done. rewrite Heq, Obj_get_set_eq.
      cbn [length default].
      destruct (Js.Obj.get acc id), (length _); simpl;
        apply (f_equal Some); lia.
    + rewrite filter_cons_False by done. by rewrite Obj_get_set_ne.
Qed.

Lemma voteCount_get (votes : list WerewolfService.WerewolfVote.t) (id : string) :
  Js.Obj.get (Werewolf.voteCount votes) id
  = match Werewolf.votes_for votes id with
    | O => None
    | n => Some (Z.of_nat n)
    end.
Proof.
  unfold Werewolf.voteCount. rewrite voteCount_fold. simpl.
  by destruct (Werewolf.votes_for votes id).
Qed.

Lemma voteCount_keys_NoDup (votes : list WerewolfService.WerewolfVote.t) :
  NoDup (Js.Obj.keys (Werewolf.voteCount votes)).
Proof.
  unfold Werewolf.voteCount.
  assert (H : ∀ acc : Js.Obj.t Z,
    Js.Obj.keys
      (fold_left
         (λ count vote,
            Js.Obj.set count (WerewolfService.WerewolfVote.target_id vote)
              (default 0
                 (Js.Obj.get count (WerewolfService.WerewolfVote.target_id vote))
               + 1))
         votes acc)
    = fold_left Js.Set_add (WerewolfService.WerewolfVote.target_id <$> votes)
        (Js.Obj.keys acc)).
  { induction votes as [|v votes IH]; intros acc; simpl; [done|].
    by rewrite IH, Obj_keys_set. }
  rewrite H. apply Set_fold_NoDup. constructor.
Qed.

Lemma Math_max_spec (l : list Z) (m : Z) :
  Werewolf.Math_max l = Some m ↔ m ∈ l ∧ ∀ x, x ∈ l → x ≤ m.
Proof.
  destruct l as [|v l]; simpl.
  - split; [done|]. intros [H _]. by apply elem_of_nil in H.
  - assert (H : ∀ a, fold_left Z.max l a ∈ a :: l
                     ∧ ∀ x, x ∈ a :: l → x ≤ fold_left Z.max l a).
    { induction l as [|y l IH]; intros a; simpl.
      - split; [left|]. intros x Hx. apply list_elem_of_singleton in Hx. lia.
      - destruct (IH (Z.max a y)) as [Hin Hle]. split.
        + apply elem_of_cons in Hin as [Heq|Hin]; [|by do 2 right].
          rewrite Heq. destruct (Z.max_spec a y) as [[_ ->]|[_ ->]];
            [right; left|left].
        + intros x Hx.
          assert (Hx' : x ≤ Z.max a y ∨ x ∈ l).
          { apply elem_of_cons in Hx as [->|Hx]; [left; lia|].
            apply elem_of_cons in Hx as [->|Hx]; [left; lia|by right]. }
          destruct Hx' as [Hx'|Hx'].
          * specialize (Hle (Z.max a y)). etrans; [exact Hx'|]. apply Hle. left.
          * apply Hle. by right. }
    destruct (H v) as [Hin Hle]. split.
    + intros [= <-]. done.
    + intros [Hm Hmax]. f_equal. apply Z.le_antisymm; [by apply Hmax|by apply Hle].
Qed.

(** The candidates the tally keeps are those holding the maximum. *)
Lemma eliminatedCandidates_spec (votes : list WerewolfService.WerewolfVote.t)
    (id : string) :
  id ∈ Werewolf.eliminatedCandidates votes ↔ Werewolf.holds_maximum votes id.
Proof.
  unfold Werewolf.eliminatedCandidates, Werewolf.holds_maximum, Werewolf.maxVotes.
  rewrite list_elem_of_In, filter_In, <- list_elem_of_In, bool_decide_eq_true.
  rewrite <- Obj_get_keys, voteCount_get.
  pose proof (voteCount_keys_NoDup votes) as Hnd.
  split.
  - intros [Hsome Hmax].
    destruct (Werewolf.votes_for votes id) as [|n] eqn:En; [by destruct Hsome|].
    split; [lia|]. intros id'. symmetry in Hmax.
    apply Math_max_spec in Hmax as [_ Hle].
    destruct (Werewolf.votes_for votes id') as [|n'] eqn:En'; [lia|].
    assert (Hin : Z.of_nat (S n') ∈ Js.Obj.values (Werewolf.voteCount votes)).
    { apply Obj_values_get; [done|]. exists id'. by rewrite voteCount_get, En'. }
    specialize (Hle _ Hin). lia.
  - intros [Hpos Hmax].
    destruct (Werewolf.votes_for votes id) as [|n] eqn:En; [lia|].
    split; [eauto|]. symmetry. apply Math_max_spec. split.
    + apply Obj_values_get; [done|]. exists id. by rewrite voteCount_get, En.
    + intros x Hx. apply Obj_values_get in Hx as [k Hk]; [|done].
      rewrite voteCount_get in Hk. specialize (Hmax k).
      destruct (Werewolf.votes_for votes k); [done|].
      injection Hk as <-. lia.
Qed.

Lemma eliminatedCandidates_NoDup (votes : list WerewolfService.WerewolfVote.t) :
  NoDup (Werewolf.eliminatedCandidates votes).
Proof.
  unfold Werewolf.eliminatedCandidates.
  pose proof (voteCount_keys_NoDup votes) as Hnd.
  induction Hnd as [|k ks Hk Hks IH]; simpl; [constructor|].
  destruct (bool_decide _); [|done]. constructor; [|done].
  rewrite list_elem_of_In, filter_In, <- list_elem_of_In. tauto.
Qed.

(** More than one candidate is kept exactly when two different
    candidates hold the maximum. *)
Lemma tie_spec (votes : list WerewolfService.WerewolfVote.t) :
  1 < Z.of_nat (length (Werewolf.eliminatedCandidates votes))
  ↔ ∃ a b, a ≠ b ∧ Werewolf.holds_maximum votes a
           ∧ Werewolf.holds_maximum votes b.
Proof.
  pose proof (eliminatedCandidates_NoDup votes) as Hnd.
  pose proof (eliminatedCandidates_spec votes) as Hspec.
  destruct (Werewolf.eliminatedCandidates votes) as [|a [|b l]]; simpl.
  - split; [lia|]. intros (a & b & _ & Ha & _).
    apply Hspec in Ha. by apply elem_of_nil in Ha.
  - split; [lia|]. intros (x & y & Hne & Hx & Hy).
    apply Hspec, list_elem_of_singleton in Hx.
    apply Hspec, list_elem_of_singleton in Hy. congruence.
  - split; [|lia]. intros _. exists a, b. split.
    + apply NoDup_cons in Hnd as [Ha _]. intros ->. apply Ha. left.
    + split; apply Hspec; [left|right; left].
Qed.

Lemma handlePhaseChange_reached (rq : Supabase.Request) (roomId sessionId : string)
    (p : WerewolfService.Phase) (d : WerewolfService.Db) :
  Supabase.net rq = Supabase.Reached →
  ∃ d',
    Werewolf.handlePhaseChange rq roomId sessionId p d
    = (d', [{| Supabase.channel := Werewolf.channelName roomId;
               Supabase.event := Werewolf.WerewolfPhaseChange p |}])
    ∧ ∀ r, r ∈ WerewolfService.werewolf_sessions d' →
           WerewolfService.WerewolfSession.id r = sessionId →
           WerewolfService.WerewolfSession.phase r = p.
Proof.
  intros Hnet. unfold Werewolf.handlePhaseChange, WerewolfService.updatePhase.
  rewrite Hnet. eexists. split; [reflexivity|]. simpl.
  intros r Hr Hid. apply list_elem_of_fmap in Hr as (r0 & -> & _).
  destruct (decide (WerewolfService.WerewolfSession.id r0 = sessionId));
    simpl in *; done.
Qed.

(** The button bound to [handleShowResults] exists in phase [vote]
    alone, and there a tie always opens a sudden death: the round number
    of the tallying client goes up by one, the phase [sudden_death] is
    stored and announced, and the game is not finished. *)
Lemma Werewolf_tie_at_the_button (nv na : Supabase.Net) (rq : Supabase.Request)
    (roomId : string) (c : Werewolf.Component) (d : WerewolfService.Db)
    (s : WerewolfService.WerewolfSession.t)
    (voteRows : list WerewolfService.WerewolfVote.t) :
  Werewolf.showResultsButton c = true →
  Werewolf.session (Werewolf.gameState c) = Some s →
  WerewolfService.getVotes nv (WerewolfService.WerewolfSession.id s)
    (Werewolf.voteRound (Werewolf.gameState c)) d
  = Supabase.Return voteRows →
  (∃ a b, a ≠ b ∧ Werewolf.holds_maximum voteRows a
          ∧ Werewolf.holds_maximum voteRows b) →
  Werewolf.pressShowResults nv na rq roomId c d
  = (Werewolf.with_gameState
       {| Werewolf.phase := WerewolfService.vote;
          Werewolf.session := Werewolf.session (Werewolf.gameState c);
          Werewolf.assignment := Werewolf.assignment (Werewolf.gameState c);
          Werewolf.votes := Werewolf.votes (Werewolf.gameState c);
          Werewolf.voteRound := Werewolf.voteRound (Werewolf.gameState c) + 1;
          Werewolf.gameResult := Werewolf.gameResult (Werewolf.gameState c) |}
       c,
     (Werewolf.handlePhaseChange rq roomId
        (WerewolfService.WerewolfSession.id s) WerewolfService.sudden_death d).1,
     (Werewolf.handlePhaseChange rq roomId
        (WerewolfService.WerewolfSession.id s) WerewolfService.sudden_death d).2).
Proof.
  intros Hbutton Hs Hvotes Htie. apply tie_spec in Htie.
  unfold Werewolf.pressShowResults. rewrite Hbutton.
  unfold Werewolf.showResultsButton in Hbutton. rewrite Hs in Hbutton.
  apply bool_decide_eq_true in Hbutton.
  assert (Hne : bool_decide (length voteRows = 0%nat) = false).
  { destruct voteRows; [simpl in Htie; lia|done]. }
  destruct (getAllAssignments_returns na (WerewolfService.WerewolfSession.id s) d)
    as (assignmentRows & Hassign & _).
  unfold Werewolf.handleShowResults.
  rewrite Hs, Hvotes, Hassign, Hne, bool_decide_eq_true_2 by done.
  rewrite Hbutton. rewrite decide_False by done.
  by destruct (Werewolf.handlePhaseChange _ _ _ _ _).
Qed.

(** C2, at the failing input.  In the game below the vote is tied, the
    sudden death is stored and announced, alice and bob press the phase
    button, which leads back to the phase [vote], and vote for each other
    again.  The second tie does not end the game for the werewolf: alice's
    tally, made in phase [vote] as every tally is, raises her round number
    and announces a sudden death once more.  The round number had gone up
    on carol's client alone, so the second votes of alice and bob were
    stored under round 1, over their first ones. *)
Theorem Werewolf_second_tie_escalates :
  (∀ nv na rq roomId c d,
     Werewolf.phase (Werewolf.gameState c) = WerewolfService.sudden_death →
     Werewolf.pressShowResults nv na rq roomId c d = (c, d, []))
  ∧ (∀ nv na rq roomId c d s voteRows,
       Werewolf.showResultsButton c = true →
       Werewolf.session (Werewolf.gameState c) = Some s →
       WerewolfService.getVotes nv (WerewolfService.WerewolfSession.id s)
         (Werewolf.voteRound (Werewolf.gameState c)) d
       = Supabase.Return voteRows →
       (∃ a b, a ≠ b ∧ Werewolf.holds_maximum voteRows a
               ∧ Werewolf.holds_maximum voteRows b) →
       Werewolf.phase
         (Werewolf.gameState (Werewolf.pressShowResults nv na rq roomId c d).1.1)
       = WerewolfService.vote
       ∧ Werewolf.voteRound
           (Werewolf.gameState
              (Werewolf.pressShowResults nv na rq roomId c d).1.1)
         = Werewolf.voteRound (Werewolf.gameState c) + 1
       ∧ ∀ m result,
           m ∈ (Werewolf.pressShowResults nv na rq roomId c d).2 →
           Supabase.event m ≠ Werewolf.WerewolfGameEnd result)
  ∧ Supabase.event <$> Scenario.twice_first_tally.2
    = [Werewolf.WerewolfPhaseChange WerewolfService.sudden_death]
  ∧ WerewolfService.WerewolfSession.phase
      <$> WerewolfService.werewolf_sessions (Scenario.twice_first_tally.1.2)
    = [WerewolfService.sudden_death]
  ∧ Werewolf.voteRound (Werewolf.gameState (Scenario.twice_first_tally.1.1)) = 2
  ∧ Werewolf.phase (Werewolf.gameState Scenario.twice_alice_sudden_death)
    = WerewolfService.sudden_death
  ∧ Werewolf.phase (Werewolf.gameState Scenario.twice_bob_sudden_death)
    = WerewolfService.sudden_death
  ∧ Werewolf.phase (Werewolf.gameState (Scenario.twice_alice_back_to_vote.1.1))
    = WerewolfService.vote
  ∧ Werewolf.phase (Werewolf.gameState Scenario.twice_bob_back_to_vote)
    = WerewolfService.vote
  ∧ Werewolf.voteRound
      (Werewolf.gameState (Scenario.twice_alice_back_to_vote.1.1)) = 1
  ∧ Werewolf.voteRound (Werewolf.gameState Scenario.twice_bob_back_to_vote) = 1
  ∧ (λ r, (WerewolfService.WerewolfVote.voter_id r,
           WerewolfService.WerewolfVote.target_id r,
           WerewolfService.WerewolfVote.vote_round r))
      <$> WerewolfService.werewolf_votes (Scenario.twice_bob_votes_again.1.2)
    = [("a11ce", "b0b", 1); ("b0b", "a11ce", 1)]
  ∧ Supabase.event <$> Scenario.twice_bob_votes_again.2
    = [Werewolf.WerewolfVoteSubmitted "b0b" "a11ce"]
  ∧ Supabase.event <$> Scenario.twice_second_tally.2
    = [Werewolf.WerewolfPhaseChange WerewolfService.sudden_death]
  ∧ Werewolf.phase (Werewolf.gameState (Scenario.twice_second_tally.1.1))
    = WerewolfService.vote
  ∧ Werewolf.winner
      (Werewolf.gameResult
         (Werewolf.gameState (Scenario.twice_second_tally.1.1)))
    = None
  ∧ Werewolf.voteRound (Werewolf.gameState (Scenario.twice_second_tally.1.1))
    = 2
  ∧ WerewolfService.WerewolfSession.phase
      <$> WerewolfService.werewolf_sessions (Scenario.twice_second_tally.1.2)
    = [WerewolfService.sudden_death].
Proof.
  split; [|split].
  - intros nv na rq roomId c d Hphase.
    unfold Werewolf.pressShowResults, Werewolf.showResultsButton.
    rewrite Hphase. by destruct (Werewolf.session (Werewolf.gameState c)).
  - intros nv na rq roomId c d s voteRows Hbutton Hs Hvotes Htie.
    rewrite (Werewolf_tie_at_the_button nv na rq roomId c d s voteRows)
      by done.
    split; [done|]. split; [done|]. intros m result Hm.
    unfold Werewolf.handlePhaseChange in Hm.
    destruct (WerewolfService.updatePhase _ _ _ _) as [[|] d']; simpl in Hm.
    + apply list_elem_of_singleton in Hm as ->. done.
    + by apply elem_of_nil in Hm.
  - repeat split; vm_compute; reflexivity.
Qed.

(** ** Joining a room *)

Lemma upsert_room_reached (rq : Supabase.Request) (roomId : string)
    (d : RoomService.Db) :
  Supabase.net rq = Supabase.Reached →
  ∃ row rows,
    RoomService.upsert_room rq roomId d
    = (Supabase.Return (Supabase.ok row),
       {| RoomService.rooms := rows;
          RoomService.participants := RoomService.participants d |})
    ∧ roomId ∈ Supabase.Room.id <$> rows.
Proof.
  intros Hnet. unfold RoomService.upsert_room. rewrite Hnet.
  match goal with
  | |- context [Supabase.upsert ?cf ?up ?nw ?rs] =>
      pose proof (upsert_elem cf up nw rs) as Hin;
      pose proof (upsert_row cf up nw rs) as Hrow;
      destruct (Supabase.upsert cf up nw rs) as [row rows]
  end.
  simpl in *. exists row, rows. split; [done|].
  apply list_elem_of_fmap. exists row. split; [|done].
  destruct Hrow as [->|(r & _ & Hc & ->)]; [done|].
  simpl. by apply bool_decide_eq_true in Hc.
Qed.

(** One attempt whose three requests reach the store. *)
Lemma tryJoinRoom_reached (a : RoomService.Attempt)
    (roomId nickname sessionToken : string) (ls : RoomService.LocalStorage)
    (d : RoomService.Db) :
  Supabase.net (RoomService.room_request a) = Supabase.Reached →
  RoomService.cleanup_net a = Supabase.Reached →
  Supabase.net (RoomService.join_request a) = Supabase.Reached →
  NoDup (Supabase.Participant.session_token <$> RoomService.participants d) →
  ∃ row d',
    RoomService.tryJoinRoom a roomId nickname sessionToken ls d
    = (Supabase.Return row, RoomService.setCurrentParticipant row ls, d',
       [{| Supabase.channel := "room-updates-" +:+ roomId;
           Supabase.event := RoomService.ParticipantJoined row |};
        {| Supabase.channel := "participants-" +:+ roomId;
           Supabase.event := RoomService.ParticipantUpdateJoined row |}])
    ∧ Supabase.Participant.room_id row = roomId
    ∧ Supabase.Participant.nickname row = nickname
    ∧ Supabase.Participant.session_token row = sessionToken
    ∧ row ∈ RoomService.participants d'
    ∧ (∀ r, r ∈ RoomService.participants d →
            RoomService.holds_nickname_elsewhere roomId nickname sessionToken r →
            r ∉ RoomService.participants d')
    ∧ (∀ r, r ∈ RoomService.participants d' →
            Supabase.Participant.room_id r = roomId →
            Supabase.Participant.nickname r = nickname →
            r = row)
    ∧ NoDup (Supabase.Participant.session_token <$> RoomService.participants d').
Proof.
  intros Hroom Hclean Hjoin Hnd. unfold RoomService.tryJoinRoom.
  destruct (upsert_room_reached (RoomService.room_request a) roomId d Hroom)
    as (room & rooms' & -> & Hfk).
  cbn [Supabase.data_or_throw Supabase.ok Supabase.error].
  unfold RoomService.delete_nickname. rewrite Hclean.
  unfold RoomService.upsert_participant. rewrite Hjoin.
  cbn [RoomService.rooms RoomService.participants].
  rewrite bool_decide_eq_true_2 by done.
  set (kept := filter
                 (λ r, ¬ RoomService.holds_nickname_elsewhere roomId nickname
                         sessionToken r)
                 (RoomService.participants d)).
  assert (Hkept : ∀ r, r ∈ kept ↔
            ¬ RoomService.holds_nickname_elsewhere roomId nickname sessionToken r
            ∧ r ∈ RoomService.participants d)
    by (intros r; unfold kept; by rewrite list_elem_of_filter).
  rewrite bool_decide_eq_false_2; cycle 1.
  { intros Hex. apply Exists_exists in Hex as (r & Hr & Hheld).
    apply Hkept in Hr as [Hr _]. done. }
  assert (Hndk : NoDup (Supabase.Participant.session_token <$> kept)).
  { eapply sublist_NoDup; [exact Hnd|]. apply fmap_sublist, sublist_filter. }
  match goal with
  | |- context [Supabase.upsert ?cf ?up ?nw kept] =>
      pose proof (upsert_elem cf up nw kept) as Hin;
      pose proof (upsert_row cf up nw kept) as Hrow;
      pose proof (upsert_elem_inv cf up nw kept) as Hinv;
      pose proof (upsert_key_unique Supabase.Participant.session_token
                    sessionToken up nw kept eq_refl (λ _, eq_refl) Hndk)
        as [Hnd' Huniq];
      destruct (Supabase.upsert cf up nw kept) as [row rows]
  end.
  cbn [fst snd] in *.
  assert (Hfields : Supabase.Participant.room_id row = roomId
                    ∧ Supabase.Participant.nickname row = nickname
                    ∧ Supabase.Participant.session_token row = sessionToken).
  { destruct Hrow as [->|(r & _ & _ & ->)]; done. }
  destruct Hfields as (Hf1 & Hf2 & Hf3).
  exists row, {| RoomService.rooms := rooms'; RoomService.participants := rows |}.
  split; [done|]. repeat (split; [done|]).
  cbn [RoomService.participants]. split; [|split; [|done]].
  - intros r Hr Hheld Hin'. destruct (Hinv r Hin') as [->|Hk].
    + destruct Hheld as (_ & _ & Htok). done.
    + apply Hkept in Hk as [Hk _]. done.
  - intros r Hr Hroomr Hnick. apply Huniq; [done|].
    destruct (Hinv r Hr) as [->|Hk]; [done|].
    apply Hkept in Hk as [Hk _].
    destruct (decide (Supabase.Participant.session_token r = sessionToken));
      [done|].
    exfalso. apply Hk. done.
Qed.

(** C10.  With the store's token uniqueness in force and the requests of
    the first attempt reaching the store, [joinRoom] succeeds under a
    nickname another session holds: the rows of that nickname in the room
    with another session token are gone, the caller's row is in, it is
    the only row of the room with the nickname, and token uniqueness
    still holds. *)
Theorem joinRoom_evicts_nickname (isMobile : bool) (fresh : string)
    (attempts : nat → RoomService.Attempt) (roomId nickname : string)
    (ls : RoomService.LocalStorage) (d : RoomService.Db) :
  NoDup (Supabase.Participant.session_token <$> RoomService.participants d) →
  Supabase.net (RoomService.room_request (attempts 0%nat)) = Supabase.Reached →
  RoomService.cleanup_net (attempts 0%nat) = Supabase.Reached →
  Supabase.net (RoomService.join_request (attempts 0%nat)) = Supabase.Reached →
  ∃ row ls' d' sent,
    RoomService.joinRoom isMobile fresh attempts roomId nickname ls d
    = (Supabase.Return row, ls', d', sent)
    ∧ Supabase.Participant.room_id row = roomId
    ∧ Supabase.Participant.nickname row = nickname
    ∧ Supabase.Participant.session_token row
      = (RoomService.getSessionToken fresh ls).1
    ∧ RoomService.current_participant ls' = Some row
    ∧ row ∈ RoomService.participants d'
    ∧ (∀ r, r ∈ RoomService.participants d →
            RoomService.holds_nickname_elsewhere roomId nickname
              (RoomService.getSessionToken fresh ls).1 r →
            r ∉ RoomService.participants d')
    ∧ (∀ r, r ∈ RoomService.participants d' →
            Supabase.Participant.room_id r = roomId →
            Supabase.Participant.nickname r = nickname →
            r = row)
    ∧ NoDup (Supabase.Participant.session_token <$> RoomService.participants d').
Proof.
  intros Hnd Hroom Hclean Hjoin. unfold RoomService.joinRoom.
  destruct (RoomService.getSessionToken fresh ls) as [sessionToken ls0].
  cbn [fst].
  destruct (tryJoinRoom_reached (attempts 0%nat) roomId nickname sessionToken
              ls0 d Hroom Hclean Hjoin Hnd)
    as (row & d' & Htry & Hr1 & Hr2 & Hr3 & Hin & Hevict & Honly & Hnd').
  assert (Hattempt : ∀ left,
    RoomService.attemptJoinRoom left 0 attempts roomId nickname sessionToken ls0 d
    = (Supabase.Return row, RoomService.setCurrentParticipant row ls0, d',
       [{| Supabase.channel := "room-updates-" +:+ roomId;
           Supabase.event := RoomService.ParticipantJoined row |};
        {| Supabase.channel := "participants-" +:+ roomId;
           Supabase.event := RoomService.ParticipantUpdateJoined row |}])).
  { intros left. destruct left; simpl; by rewrite Htry. }
  rewrite Hattempt. cbn [Supabase.try_catch].
  eexists row, _, d', _. split; [reflexivity|]. done.
Qed.

Example joinRoom_taken_nickname :
  Supabase.Participant.session_token
    <$> RoomService.participants
          ((RoomService.joinRoom false "unused" Scenario.all_reach "room1"
              "alice" Scenario.alice_browser Scenario.lobby).1.2)
  = ["session_b"; "session_a"].
Proof. vm_compute. reflexivity. Qed.

Lemma joinRoom_evicts_nickname_witness :
  NoDup (Supabase.Participant.session_token
           <$> RoomService.participants Scenario.lobby)
  ∧ Supabase.net (RoomService.room_request (Scenario.all_reach 0%nat))
    = Supabase.Reached
  ∧ RoomService.cleanup_net (Scenario.all_reach 0%nat) = Supabase.Reached
  ∧ Supabase.net (RoomService.join_request (Scenario.all_reach 0%nat))
    = Supabase.Reached
  ∧ ∃ row ls' d' sent,
      RoomService.joinRoom false "unused" Scenario.all_reach "room1" "alice"
        Scenario.alice_browser Scenario.lobby
      = (Supabase.Return row, ls', d', sent)
      ∧ Supabase.Participant.nickname row = "alice"
      ∧ Supabase.Participant.session_token row = "session_a"
      ∧ (Scenario.old_alice ∉ RoomService.participants d')
      ∧ (∀ r, r ∈ RoomService.participants d' →
              Supabase.Participant.room_id r = "room1" →
              Supabase.Participant.nickname r = "alice" →
              r = row).
Proof.
  assert (H1 : NoDup (Supabase.Participant.session_token
                        <$> RoomService.participants Scenario.lobby)).
  { vm_compute. apply NoDup_cons. split.
    - intros H. apply list_elem_of_singleton in H. discriminate H.
    - apply NoDup_singleton. }
  assert (H2 : Supabase.net (RoomService.room_request (Scenario.all_reach 0%nat))
               = Supabase.Reached) by reflexivity.
  assert (H3 : RoomService.cleanup_net (Scenario.all_reach 0%nat)
               = Supabase.Reached) by reflexivity.
  assert (H4 : Supabase.net (RoomService.join_request (Scenario.all_reach 0%nat))
               = Supabase.Reached) by reflexivity.
  repeat (split; [assumption|]).
  destruct (joinRoom_evicts_nickname false "unused" Scenario.all_reach "room1"
              "alice" Scenario.alice_browser Scenario.lobby H1 H2 H3 H4)
    as (row & ls' & d' & sent & Hrun & _ & Hnick & Htok & _ & _ & Hevict
        & Honly & _).
  exists row, ls', d', sent. split; [exact Hrun|]. split; [exact Hnick|].
  split; [exact Htok|]. split; [|exact Honly].
  apply Hevict; [left|]. repeat split. discriminate.
Defined.

(** ** Sessions: which one is active, and how one ends *)

(** What [order(created_at, descending).limit(1).maybeSingle()] answers:
    a newest row, or nothing when there is no row. *)
Lemma newest_row {A} (created_at : A → Z) (rows : list A) :
  match Supabase.maybeSingle (take 1 (Supabase.order_desc created_at rows)) with
  | {| Supabase.data := Some s; Supabase.error := None |} =>
      s ∈ rows ∧ ∀ s', s' ∈ rows → created_at s' ≤ created_at s
  | {| Supabase.data := None; Supabase.error := None |} => rows = []
  | _ => False
  end.
Proof.
  unfold Supabase.order_desc.
  set (R := λ a b : A, created_at b ≤ created_at a).
  set (dec := λ a b : A, decide (created_at b ≤ created_at a)).
  assert (HT : Transitive R) by (intros x y z; unfold R; lia).
  assert (HTot : Total R) by (intros x y; unfold R; lia).
  pose proof (@merge_sort_Permutation A R dec rows) as Hperm.
  pose proof (@StronglySorted_merge_sort A R dec HT HTot rows) as Hsorted.
  destruct (merge_sort R rows) as [|s sorted].
  - simpl. by apply Permutation_nil_l in Hperm.
  - apply StronglySorted_inv in Hsorted as [_ Hall].
    rewrite Forall_forall in Hall.
    assert (Hmax : ∀ s', s' ∈ rows → created_at s' ≤ created_at s).
    { intros s' Hs'. rewrite <- Hperm in Hs'.
      apply elem_of_cons in Hs' as [->|Hs']; [lia|]. by apply Hall. }
    assert (Hs : s ∈ rows) by (rewrite <- Hperm; left).
    by destruct sorted.
Qed.

(** X1. [getActiveGameSession], its request reaching the store, returns
    a session exactly when the room has an active one, and the session it
    returns is an active session of the room that no other one is newer
    than: of two sessions created in a race, every client is given the
    later one. *)
Theorem getActiveGameSession_newest (roomId : string) (d : GameService.Db) :
  match GameService.getActiveGameSession Supabase.Reached roomId d with
  | Supabase.Return (Some s) =>
      s ∈ GameService.game_sessions d
      ∧ GameService.GameSession.room_id s = roomId
      ∧ GameService.GameSession.status s = "active"
      ∧ ∀ s', s' ∈ GameService.game_sessions d →
              GameService.GameSession.room_id s' = roomId →
              GameService.GameSession.status s' = "active" →
              GameService.GameSession.created_at s'
              ≤ GameService.GameSession.created_at s
  | Supabase.Return None =>
      ∀ s', s' ∈ GameService.game_sessions d →
            ¬ (GameService.GameSession.room_id s' = roomId
               ∧ GameService.GameSession.status s' = "active")
  | Supabase.Throw _ => False
  end.
Proof.
  unfold GameService.getActiveGameSession.
  pose proof
    (newest_row GameService.GameSession.created_at
       (filter (λ r, GameService.GameSession.room_id r = roomId
                     ∧ GameService.GameSession.status r = "active")
          (GameService.game_sessions d))) as Hnew.
  destruct (Supabase.maybeSingle _) as [[s|] [e|]]; try done; simpl.
  - destruct Hnew as [Hs Hmax].
    apply list_elem_of_filter in Hs as [[Hroom Hactive] Hs].
    repeat split; try done.
    intros s' Hs' Hroom' Hactive'. apply Hmax.
    by apply list_elem_of_filter.
  - intros s' Hs' Hboth.
    assert (Hin : s' ∈ filter
                    (λ r, GameService.GameSession.room_id r = roomId
                          ∧ GameService.GameSession.status r = "active")
                    (GameService.game_sessions d))
      by by apply list_elem_of_filter.
    rewrite Hnew in Hin. by apply elem_of_nil in Hin.
Qed.

(** A session [getActiveGameSession] returns is an active row of the
    room. *)
Lemma getActiveGameSession_elem (n : Supabase.Net) (roomId : string)
    (d : GameService.Db) (s : GameService.GameSession.t) :
  GameService.getActiveGameSession n roomId d = Supabase.Return (Some s) →
  s ∈ GameService.game_sessions d
  ∧ GameService.GameSession.room_id s = roomId
  ∧ GameService.GameSession.status s = "active".
Proof.
  unfold GameService.getActiveGameSession. destruct n as [|e|e]; [|done..].
  pose proof
    (newest_row GameService.GameSession.created_at
       (filter (λ r, GameService.GameSession.room_id r = roomId
                     ∧ GameService.GameSession.status r = "active")
          (GameService.game_sessions d))) as Hnew.
  destruct (Supabase.maybeSingle _) as [[s0|] [e|]]; try done; simpl.
  intros [= <-]. destruct Hnew as [Hs _].
  by apply list_elem_of_filter in Hs as [[Hroom Hactive] Hs].
Qed.

(** X2. [endGameSession], its request reaching the store, is final for
    the session: whatever active session [getActiveGameSession] returns
    afterwards is another one, a session of the table as it was; and the
    whole response cache is dropped.  A request that fails throws and
    changes neither the store nor the cache. *)
Theorem endGameSession_final (rq : Supabase.Request) (now : Z)
    (sessionId : string) (cache : GameService.ResponseCache)
    (d : GameService.Db) :
  match Supabase.net rq with
  | Supabase.Reached =>
      (GameService.endGameSession rq now sessionId cache d).1
      = (Supabase.Return (), GameService.no_cache)
      ∧ ∀ n roomId s,
          GameService.getActiveGameSession n roomId
            (GameService.endGameSession rq now sessionId cache d).2
          = Supabase.Return (Some s) →
          GameService.GameSession.id s ≠ sessionId
          ∧ s ∈ GameService.game_sessions d
  | Supabase.Failed e | Supabase.Rejected e =>
      GameService.endGameSession rq now sessionId cache d
      = (Supabase.Throw e, cache, d)
  end.
Proof.
  unfold GameService.endGameSession.
  destruct (Supabase.net rq) as [|e|e]; [|done..].
  split; [done|]. intros n roomId s Hget.
  apply getActiveGameSession_elem in Hget as (Hs & _ & Hactive).
  simpl in Hs. apply list_elem_of_fmap in Hs as (r & -> & Hr).
  destruct (decide (GameService.GameSession.id r = sessionId)); [done|].
  by split.
Qed.

(** ** The response cache *)

(** X3. A read of the answers that reached the store is served again,
    unchanged and without a request, to every call made less than
    [CACHE_DURATION] (2000 ms) after it, whatever the store holds by then;
    from 2000 ms on the store is read again. *)
Theorem getQuestionResponses_cache_window (now now' : Z) (questionId : string)
    (cache : GameService.ResponseCache) (d d' : GameService.Db)
    (n' : Supabase.Net) :
  GameService.cache_hit (GameService.cache_responses cache) questionId now
  = None →
  (GameService.getQuestionResponses Supabase.Reached now questionId cache d).1
  = Supabase.Return
      (filter (λ r, GameService.GameResponse.question_id r = questionId)
         (GameService.game_responses d))
  ∧ (now' - now < GameService.CACHE_DURATION →
     GameService.getQuestionResponses n' now' questionId
       (GameService.getQuestionResponses Supabase.Reached now questionId
          cache d).2 d'
     = GameService.getQuestionResponses Supabase.Reached now questionId cache d)
  ∧ (GameService.CACHE_DURATION ≤ now' - now →
     (GameService.getQuestionResponses Supabase.Reached now' questionId
        (GameService.getQuestionResponses Supabase.Reached now questionId
           cache d).2 d').1
     = Supabase.Return
         (filter (λ r, GameService.GameResponse.question_id r = questionId)
            (GameService.game_responses d'))).
Proof.
  intros Hmiss. unfold GameService.getQuestionResponses at 1 3 4 6.
  rewrite Hmiss. simpl. split; [done|].
  unfold GameService.getQuestionResponses, GameService.cache_hit. simpl.
  rewrite lookup_insert_eq. simpl. split; intros Hage.
  - by rewrite (proj2 (Z.ltb_lt _ _) Hage).
  - by rewrite (proj2 (Z.ltb_ge _ _) Hage).
Qed.

(** X4. A read of the answers that failed returns the empty list and
    leaves the cache as it was, so the next read, however soon, goes to
    the store. *)
Theorem getQuestionResponses_failure_not_cached (n : Supabase.Net) (now now' : Z)
    (questionId : string) (cache : GameService.ResponseCache)
    (d : GameService.Db) :
  n ≠ Supabase.Reached →
  GameService.cache_hit (GameService.cache_responses cache) questionId now
  = None →
  GameService.cache_hit (GameService.cache_responses cache) questionId now'
  = None →
  GameService.getQuestionResponses n now questionId cache d
  = (Supabase.Return [], cache)
  ∧ (GameService.getQuestionResponses Supabase.Reached now' questionId
       (GameService.getQuestionResponses n now questionId cache d).2 d).1
    = Supabase.Return
        (filter (λ r, GameService.GameResponse.question_id r = questionId)
           (GameService.game_responses d)).
Proof.
  intros Hn Hmiss Hmiss'.
  assert (Hfail : GameService.getQuestionResponses n now questionId cache d
                  = (Supabase.Return [], cache)).
  { unfold GameService.getQuestionResponses. rewrite Hmiss.
    by destruct n. }
  split; [done|]. rewrite Hfail. simpl.
  unfold GameService.getQuestionResponses. by rewrite Hmiss'.
Qed.

(** X5. After [clearResponseCache(questionId)] the three kinds of
    answers of that question are read from the store, and what is cached
    for any other question is still served. *)
Theorem clearResponseCache_forgets_question (now : Z) (questionId : string)
    (cache : GameService.ResponseCache) (d : GameService.Db) :
  questionId ≠ "" →
  (GameService.getQuestionResponses Supabase.Reached now questionId
     (GameService.clearResponseCache (Some questionId) cache) d).1
  = Supabase.Return
      (filter (λ r, GameService.GameResponse.question_id r = questionId)
         (GameService.game_responses d))
  ∧ (GameService.getRankingResponses Supabase.Reached now questionId
       (GameService.clearResponseCache (Some questionId) cache) d).1
    = Supabase.Return
        (filter (λ r, GameService.RankingResponse.question_id r = questionId)
           (GameService.ranking_responses d))
  ∧ (GameService.getSynchroResponses Supabase.Reached now questionId
       (GameService.clearResponseCache (Some questionId) cache) d).1
    = Supabase.Return
        (filter (λ r, GameService.SynchroResponse.question_id r = questionId)
           (GameService.synchro_responses d))
  ∧ ∀ other n d',
      other ≠ questionId →
      (GameService.getQuestionResponses n now other
         (GameService.clearResponseCache (Some questionId) cache) d').1
      = (GameService.getQuestionResponses n now other cache d').1
      ∧ (GameService.getRankingResponses n now other
           (GameService.clearResponseCache (Some questionId) cache) d').1
        = (GameService.getRankingResponses n now other cache d').1
      ∧ (GameService.getSynchroResponses n now other
           (GameService.clearResponseCache (Some questionId) cache) d').1
        = (GameService.getSynchroResponses n now other cache d').1.
Proof.
  intros Hq. unfold GameService.clearResponseCache.
  destruct (decide (questionId = "")) as [|_]; [done|].
  unfold GameService.getQuestionResponses, GameService.getRankingResponses,
    GameService.getSynchroResponses, GameService.cache_hit. simpl.
  rewrite !lookup_delete_eq. simpl. repeat split; try done.
  all: rewrite lookup_delete_ne by done.
  all: by repeat case_match.
Qed.

(** ** Submitting an answer *)

Lemma upsert_ext {A} (conflict conflict' : A → bool) (update : A → A)
    (new : A) (rows : list A) :
  (∀ r, conflict r = conflict' r) →
  Supabase.upsert conflict update new rows
  = Supabase.upsert conflict' update new rows.
Proof.
  intros Hext. induction rows as [|r rows IH]; simpl; [done|].
  by rewrite Hext, IH.
Qed.

(** The rows that are not in conflict stay as they are. *)
Lemma upsert_other_rows {A} (conflict : A → bool) (update : A → A) (new : A)
    (rows : list A) (x : A) :
  conflict new = true → (∀ r, conflict (update r) = true) →
  conflict x = false →
  x ∈ (Supabase.upsert conflict update new rows).2 ↔ x ∈ rows.
Proof.
  intros Hnew Hupd Hx. induction rows as [|r rows IH]; simpl.
  - rewrite list_elem_of_singleton. split; [intros ->; congruence|].
    intros Hin. by apply elem_of_nil in Hin.
  - destruct (conflict r) eqn:Hr; simpl.
    + rewrite !elem_of_cons. split; intros [->|Hin]; try by right.
      * specialize (Hupd r). congruence.
      * congruence.
    + destruct (Supabase.upsert conflict update new rows) as [row rows'].
      simpl in *. rewrite !elem_of_cons. by rewrite IH.
Qed.

(** The table an upsert leaves is as long as before, or longer by the one
    new row. *)
Lemma upsert_length {A} (conflict : A → bool) (update : A → A) (new : A)
    (rows : list A) :
  length (Supabase.upsert conflict update new rows).2
  = if existsb conflict rows then length rows else S (length rows).
Proof.
  induction rows as [|r rows IH]; simpl; [done|].
  destruct (conflict r); simpl; [done|].
  destruct (Supabase.upsert conflict update new rows) as [row rows'].
  simpl in *. rewrite IH. by destruct (existsb conflict rows).
Qed.

(** What one request of [submitResponse] does to the table when it
    reaches a store that holds the question and the participant. *)
Lemma upsert_game_response_reached (c : Supabase.Request)
    (questionId participantId : string) (response : bool)
    (d : GameService.Db) :
  Supabase.net c = Supabase.Reached →
  GameService.references
    (GameService.GameQuestion.id <$> GameService.game_questions d)
    questionId participantId d →
  NoDup ((λ r, (GameService.GameResponse.question_id r,
                GameService.GameResponse.participant_id r))
           <$> GameService.game_responses d) →
  ∃ row rows,
    GameService.upsert_game_response c questionId participantId response d
    = (Supabase.Return (Supabase.ok row), GameService.with_game_responses rows d)
    ∧ row ∈ rows
    ∧ GameService.GameResponse.question_id row = questionId
    ∧ GameService.GameResponse.participant_id row = participantId
    ∧ GameService.GameResponse.response row = response
    ∧ NoDup ((λ r, (GameService.GameResponse.question_id r,
                    GameService.GameResponse.participant_id r)) <$> rows)
    ∧ (∀ x, x ∈ rows →
            GameService.GameResponse.question_id x = questionId →
            GameService.GameResponse.participant_id x = participantId →
            x = row)
    ∧ (∀ x, ¬ (GameService.GameResponse.question_id x = questionId
               ∧ GameService.GameResponse.participant_id x = participantId) →
            x ∈ rows ↔ x ∈ GameService.game_responses d).
Proof.
  intros Hnet Hrefs Hnd. unfold GameService.upsert_game_response.
  rewrite Hnet. rewrite decide_True by done.
  match goal with
  | |- context [Supabase.upsert ?cf ?up ?nw ?rs] =>
      set (key := λ r, (GameService.GameResponse.question_id r,
                        GameService.GameResponse.participant_id r));
      rewrite (upsert_ext cf
                 (λ r, bool_decide (key r = (questionId, participantId)))
                 up nw rs);
      [ pose proof (upsert_elem
                      (λ r, bool_decide (key r = (questionId, participantId)))
                      up nw rs) as Hin;
        pose proof (upsert_row
                      (λ r, bool_decide (key r = (questionId, participantId)))
                      up nw rs) as Hrow;
        pose proof (upsert_key_unique key (questionId, participantId)
                      up nw rs eq_refl (λ _, eq_refl) Hnd) as [Hnd' Honly];
        pose proof (upsert_other_rows
                      (λ r, bool_decide (key r = (questionId, participantId)))
                      up nw rs) as Hother
      | intros r; apply bool_decide_ext; unfold key;
        split; [by intros [-> ->]|by intros [= -> ->]] ]
  end.
  destruct (Supabase.upsert _ _ _ _) as [row rows]. simpl in *.
  exists row, rows. split; [done|]. split; [done|].
  assert (Hkey : key row = (questionId, participantId)).
  { by destruct Hrow as [->|(r & _ & _ & ->)]. }
  injection Hkey as Hq Hp.
  assert (Hresp : GameService.GameResponse.response row = response).
  { by destruct Hrow as [->|(r & _ & _ & ->)]. }
  do 4 (split; [done|]). split.
  - intros x Hx Hxq Hxp. apply Honly; [done|]. unfold key. by rewrite Hxq, Hxp.
  - intros x Hx. apply Hother.
    + by rewrite bool_decide_eq_true.
    + intros r. by rewrite bool_decide_eq_true.
    + rewrite bool_decide_eq_false. unfold key. intros [= Hxq Hxp].
      by apply Hx.
Qed.

Lemma unreached_error (rq : Supabase.Request) :
  Supabase.net rq ≠ Supabase.Reached → ∃ e, Supabase.unreached rq e.
Proof.
  unfold Supabase.unreached. destruct (Supabase.net rq) as [|e|e]; [done|..]; eauto.
Qed.

(** A request of [submitResponse] that does not reach the store leaves it
    as it is, and the attempt ends in the [catch] with that error. *)
Lemma upsert_game_response_failed (c : Supabase.Request)
    (questionId participantId : string) (response : bool)
    (d : GameService.Db) (e : Supabase.Error) :
  Supabase.unreached c e →
  ∃ r,
    GameService.upsert_game_response c questionId participantId response d
    = (r, d)
    ∧ Supabase.single_or_throw r = Supabase.Throw e.
Proof.
  unfold Supabase.unreached, GameService.upsert_game_response.
  intros [Hnet|Hnet]; rewrite Hnet; by eexists.
Qed.

(** Failed attempts are skipped: the retry counter moves on, the store
    does not. *)
Lemma attemptSubmitResponse_skips (calls : nat → Supabase.Request)
    (questionId participantId : string) (response : bool)
    (d : GameService.Db) (k left retryCount : nat) :
  (∀ i, (retryCount ≤ i < retryCount + k)%nat →
        Supabase.net (calls i) ≠ Supabase.Reached) →
  GameService.attemptSubmitResponse (k + left) retryCount calls questionId
    participantId response d
  = GameService.attemptSubmitResponse left (retryCount + k) calls questionId
      participantId response d.
Proof.
  revert retryCount. induction k as [|k IH]; intros retryCount Hfail.
  - by rewrite Nat.add_0_r.
  - destruct (unreached_error (calls retryCount)) as [e He].
    { apply Hfail. lia. }
    destruct (upsert_game_response_failed (calls retryCount) questionId
                participantId response d e He) as (r & Hup & Hthrow).
    simpl. rewrite Hup, Hthrow.
    rewrite IH by (intros i Hi; apply Hfail; lia).
    f_equal. lia.
Qed.

(** When no attempt reaches the store, what is thrown is the error of
    the last one. *)
Lemma attemptSubmitResponse_exhausted (calls : nat → Supabase.Request)
    (questionId participantId : string) (response : bool)
    (d : GameService.Db) (left retryCount : nat) (e : Supabase.Error) :
  (∀ i, (retryCount ≤ i ≤ retryCount + left)%nat →
        Supabase.net (calls i) ≠ Supabase.Reached) →
  Supabase.unreached (calls (retryCount + left)%nat) e →
  GameService.attemptSubmitResponse left retryCount calls questionId
    participantId response d
  = (Supabase.Throw e, d).
Proof.
  revert retryCount. induction left as [|left IH]; intros retryCount Hfail Hlast.
  - rewrite Nat.add_0_r in Hlast.
    destruct (upsert_game_response_failed (calls retryCount) questionId
                participantId response d e Hlast) as (r & Hup & Hthrow).
    simpl. by rewrite Hup, Hthrow.
  - destruct (unreached_error (calls retryCount)) as [e0 He0].
    { apply Hfail. lia. }
    destruct (upsert_game_response_failed (calls retryCount) questionId
                participantId response d e0 He0) as (r & Hup & Hthrow).
    simpl. rewrite Hup, Hthrow. apply IH.
    + intros i Hi. apply Hfail. lia.
    + by replace (S retryCount + left)%nat with (retryCount + S left)%nat by lia.
Qed.

(** Only the requests of the attempts that may be made are looked at. *)
Lemma attemptSubmitResponse_ext (calls calls' : nat → Supabase.Request)
    (questionId participantId : string) (response : bool)
    (d : GameService.Db) (left retryCount : nat) :
  (∀ i, (retryCount ≤ i ≤ retryCount + left)%nat → calls' i = calls i) →
  GameService.attemptSubmitResponse left retryCount calls' questionId
    participantId response d
  = GameService.attemptSubmitResponse left retryCount calls questionId
      participantId response d.
Proof.
  revert retryCount d. induction left as [|left IH]; intros retryCount d Hext.
  - simpl. by rewrite Hext by lia.
  - simpl. rewrite Hext by lia.
    destruct (GameService.upsert_game_response (calls retryCount) questionId
                participantId response d) as [r d'].
    destruct (Supabase.single_or_throw r); [done|].
    apply IH. intros i Hi. apply Hext. lia.
Qed.

(** A list without repetition in which [a] is the only element with [P]. *)
Lemma filter_only {A} (P : A → Prop) `{∀ x, Decision (P x)} (l : list A)
    (a : A) :
  NoDup l → a ∈ l → P a → (∀ x, x ∈ l → P x → x = a) → filter P l = [a].
Proof.
  induction l as [|x l IH]; intros Hnd Hin Ha Honly.
  - by apply elem_of_nil in Hin.
  - apply NoDup_cons in Hnd as [Hx Hnd]. rewrite filter_cons.
    destruct (decide (P x)) as [HPx|HPx].
    + assert (x = a) as -> by (apply Honly; [left|done]).
      f_equal. destruct (filter P l) as [|y rest] eqn:Hrest; [done|].
      assert (Hy : y ∈ filter P l) by (rewrite Hrest; left).
      apply list_elem_of_filter in Hy as [HPy Hy].
      exfalso. apply Hx. rewrite <- (Honly y); [done|by right|done].
    + apply elem_of_cons in Hin as [->|Hin]; [done|].
      apply IH; try done. intros y Hy. apply Honly. by right.
Qed.

(** X6. If the request of one of the attempts [submitResponse] may make
    (three on a mobile browser, one elsewhere) reaches the store, the
    earlier ones having failed, and the store holds the question and the
    participant, the answer is stored and its row returned: the table
    then holds exactly one row for the question and the participant, with
    the answer just given, whatever was stored for them before, and every
    other row is as it was. *)
Theorem submitResponse_one_row (isMobile : bool)
    (calls : nat → Supabase.Request) (questionId participantId : string)
    (response : bool) (d : GameService.Db) (k : nat) :
  NoDup ((λ r, (GameService.GameResponse.question_id r,
                GameService.GameResponse.participant_id r))
           <$> GameService.game_responses d) →
  questionId ∈ GameService.GameQuestion.id <$> GameService.game_questions d →
  participantId ∈ Supabase.Participant.id <$> GameService.participants d →
  (k < if isMobile then 3 else 1)%nat →
  (∀ i, (i < k)%nat → Supabase.net (calls i) ≠ Supabase.Reached) →
  Supabase.net (calls k) = Supabase.Reached →
  ∃ row,
    (GameService.submitResponse isMobile calls questionId participantId
       response d).1 = Supabase.Return row
    ∧ GameService.GameResponse.response row = response
    ∧ filter (λ r, GameService.GameResponse.question_id r = questionId
                   ∧ GameService.GameResponse.participant_id r = participantId)
        (GameService.game_responses
           (GameService.submitResponse isMobile calls questionId
              participantId response d).2)
      = [row]
    ∧ ∀ x, ¬ (GameService.GameResponse.question_id x = questionId
              ∧ GameService.GameResponse.participant_id x = participantId) →
           x ∈ GameService.game_responses
                 (GameService.submitResponse isMobile calls questionId
                    participantId response d).2
           ↔ x ∈ GameService.game_responses d.
Proof.
  intros Hnd Hquestion Hparticipant Hk Hfail Hreach.
  unfold GameService.submitResponse.
  set (maxRetries := if isMobile then 3%nat else 1%nat) in *.
  replace (maxRetries - 1)%nat with (k + (maxRetries - 1 - k))%nat by lia.
  rewrite attemptSubmitResponse_skips by (intros i Hi; apply Hfail; lia).
  simpl.
  destruct (upsert_game_response_reached (calls k) questionId participantId
              response d Hreach (conj Hquestion Hparticipant) Hnd)
    as (row & rows & Hup & Hin & Hq & Hp & Hresp & Hnd' & Honly & Hother).
  assert (Hattempt :
    GameService.attemptSubmitResponse (maxRetries - 1 - k) k calls questionId
      participantId response d
    = (Supabase.Return row, GameService.with_game_responses rows d)).
  { destruct (maxRetries - 1 - k)%nat; simpl; by rewrite Hup. }
  rewrite Hattempt. simpl. exists row. split; [done|]. split; [done|].
  split; [|done].
  apply filter_only; try done.
  - by apply NoDup_fmap_1 in Hnd'.
  - intros x Hx [Hxq Hxp]. by apply Honly.
Qed.

(** X7. If none of the attempts [submitResponse] may make reaches the
    store, the store is as it was and what is thrown is a new [Error]
    whose message wraps that of the last attempt's error when this is an
    instance of [Error], and [Unknown error] when it is not; requests a
    further attempt would have made play no part in the call. *)
Theorem submitResponse_gives_up (isMobile : bool)
    (calls : nat → Supabase.Request) (questionId participantId : string)
    (response : bool) (d : GameService.Db) :
  (∀ i, (i < if isMobile then 3 else 1)%nat →
        Supabase.net (calls i) ≠ Supabase.Reached) →
  (∃ e,
     (Supabase.net (calls ((if isMobile then 3 else 1) - 1)%nat)
      = Supabase.Failed e
      ∨ Supabase.net (calls ((if isMobile then 3 else 1) - 1)%nat)
        = Supabase.Rejected e)
     ∧ GameService.submitResponse isMobile calls questionId participantId
         response d
       = (Supabase.Throw
            {| Supabase.message :=
                 "回答の送信に失敗しました。("
                 +:+ (if Supabase.instanceofError e then Supabase.message e
                      else "Unknown error")
                 +:+ ")";
               Supabase.instanceofError := true |},
          d))
  ∧ ∀ calls' : nat → Supabase.Request,
      (∀ i, (i < if isMobile then 3 else 1)%nat → calls' i = calls i) →
      GameService.submitResponse isMobile calls' questionId participantId
        response d
      = GameService.submitResponse isMobile calls questionId participantId
          response d.
Proof.
  intros Hfail. split.
  - destruct (unreached_error (calls ((if isMobile then 3 else 1) - 1)%nat))
      as [e He].
    { apply Hfail. destruct isMobile; lia. }
    exists e. split; [exact He|].
    unfold GameService.submitResponse.
    rewrite (attemptSubmitResponse_exhausted calls questionId participantId
               response d ((if isMobile then 3 else 1) - 1) 0 e).
    + done.
    + intros i Hi. apply Hfail. destruct isMobile; lia.
    + exact He.
  - intros calls' Hext. unfold GameService.submitResponse.
    rewrite (attemptSubmitResponse_ext calls calls'); [done|].
    intros i Hi. apply Hext. destruct isMobile; lia.
Qed.

Lemma submitResponse_one_row_witness :
  ∃ row,
    (GameService.submitResponse true (Scenario.flaky 2 "r9" 1600) "q1"
       "a11ce" false (Scenario.survey_alice_answers.1.2)).1
    = Supabase.Return row
    ∧ GameService.GameResponse.response row = false
    ∧ filter (λ r, GameService.GameResponse.question_id r = "q1"
                   ∧ GameService.GameResponse.participant_id r = "a11ce")
        (GameService.game_responses
           (GameService.submitResponse true (Scenario.flaky 2 "r9" 1600)
              "q1" "a11ce" false (Scenario.survey_alice_answers.1.2)).2)
      = [row]
    ∧ ∀ x, ¬ (GameService.GameResponse.question_id x = "q1"
              ∧ GameService.GameResponse.participant_id x = "a11ce") →
           x ∈ GameService.game_responses
                 (GameService.submitResponse true (Scenario.flaky 2 "r9" 1600)
                    "q1" "a11ce" false (Scenario.survey_alice_answers.1.2)).2
           ↔ x ∈ GameService.game_responses (Scenario.survey_alice_answers.1.2).
Proof.
  apply (submitResponse_one_row true (Scenario.flaky 2 "r9" 1600) "q1"
           "a11ce" false (Scenario.survey_alice_answers.1.2) 2).
  - vm_compute. apply NoDup_singleton.
  - apply (bool_decide_unpack _). vm_compute. exact I.
  - apply (bool_decide_unpack _). vm_compute. exact I.
  - simpl. lia.
  - intros i Hi. unfold Scenario.flaky. by rewrite bool_decide_eq_true_2.
  - reflexivity.
Defined.

Lemma submitResponse_gives_up_witness :
  (∃ e,
     (Supabase.net (Scenario.flaky 3 "r9" 1600 2%nat) = Supabase.Failed e
      ∨ Supabase.net (Scenario.flaky 3 "r9" 1600 2%nat) = Supabase.Rejected e)
     ∧ GameService.submitResponse true (Scenario.flaky 3 "r9" 1600) "q1"
         "a11ce" false (Scenario.survey_alice_answers.1.2)
       = (Supabase.Throw
            {| Supabase.message :=
                 "回答の送信に失敗しました。("
                 +:+ (if Supabase.instanceofError e then Supabase.message e
                      else "Unknown error")
                 +:+ ")";
               Supabase.instanceofError := true |},
          Scenario.survey_alice_answers.1.2))
  ∧ ∀ calls' : nat → Supabase.Request,
      (∀ i, (i < 3)%nat → calls' i = Scenario.flaky 3 "r9" 1600 i) →
      GameService.submitResponse true calls' "q1" "a11ce" false
        (Scenario.survey_alice_answers.1.2)
      = GameService.submitResponse true (Scenario.flaky 3 "r9" 1600) "q1"
          "a11ce" false (Scenario.survey_alice_answers.1.2).
Proof.
  apply (submitResponse_gives_up true (Scenario.flaky 3 "r9" 1600)).
  intros i Hi. unfold Scenario.flaky. by rewrite bool_decide_eq_true_2.
Defined.

(** ** The listeners *)

Lemma Obj_set_set {V} (o : Js.Obj.t V) (k : string) (v : V) :
  Js.Obj.set (Js.Obj.set o k v) k v = Js.Obj.set o k v.
Proof.
  induction o as [|[k' v'] o IH]; simpl.
  - by rewrite decide_True.
  - destruct (decide (k' = k)) as [Hk|Hk]; simpl.
    + by rewrite decide_True.
    + by rewrite decide_False, IH.
Qed.

(** X8. Delivering a message of a prompt game twice is delivering it
    once: the listeners of the survey, the ranking and the synchro
    component leave the state that one delivery gave. *)
Theorem receive_twice (roomId : string) :
  (∀ m c, Survey.receive roomId m (Survey.receive roomId m c)
          = Survey.receive roomId m c)
  ∧ (∀ m c, Ranking.receive roomId m (Ranking.receive roomId m c)
            = Ranking.receive roomId m c)
  ∧ (∀ m c, Synchro.receive roomId m (Synchro.receive roomId m c)
            = Synchro.receive roomId m c).
Proof.
  split; [|split]; intros m c.
  - unfold Survey.receive.
    destruct (decide (Supabase.channel m = Survey.channelName roomId)); [|done].
    destruct (Supabase.event m) as [qid qname| | | | |]; try done.
    + cbn. f_equal. destruct (Survey.currentParticipant c) as [me|]; [|done].
      by destruct (decide (qid = Supabase.Participant.id me)).
    + unfold Survey.with_gameState, Survey.with_responses. cbn.
      by rewrite Obj_set_set.
  - unfold Ranking.receive.
    destruct (decide (Supabase.channel m = Ranking.channelName roomId)); [|done].
    destruct (Supabase.event m) as [qid qname| | | |]; try done.
    + cbn. f_equal. destruct (Ranking.currentParticipant c) as [me|]; [|done].
      by destruct (decide (qid = Supabase.Participant.id me)).
    + unfold Ranking.with_gameState, Ranking.with_responses. cbn.
      by rewrite Obj_set_set.
  - unfold Synchro.receive.
    destruct (decide (Supabase.channel m = Synchro.channelName roomId)); [|done].
    destruct (Supabase.event m) as [gid gname| | | |]; try done.
    + cbn. f_equal. destruct (Synchro.currentParticipant c) as [me|]; [|done].
      by destruct (decide (gid = Supabase.Participant.id me)).
    + unfold Synchro.with_gameState, Synchro.with_responses. cbn.
      by rewrite Obj_set_set.
Qed.

Lemma append_ne (s t : string) : t ≠ "" → s +:+ t ≠ s.
Proof.
  intros Ht. induction s as [|a s IH]; simpl; [done|].
  intros [= Heq]. by apply IH.
Qed.

(** X9. The copy of the stored answers that the survey's
    [handleShowResults] sends goes to the channel [game-events-<room>-sync],
    on which no listener is registered: of the messages of a reveal only
    [show_results] is heard, and a peer keeps the answers it has and
    changes its phase. *)
Theorem Survey_sync_not_heard (n : Supabase.Net) (now : Z) (roomId : string)
    (c peer : Survey.Component) (cache : GameService.ResponseCache)
    (d : GameService.Db) :
  fold_left (λ p m, Survey.receive roomId m p)
    (Survey.handleShowResults n now roomId c cache d).2 peer
  = Survey.with_gameState
      (Survey.with_phase Survey.results (Survey.gameState peer)) peer.
Proof.
  assert (Hshow : ∀ p,
    Survey.receive roomId
      {| Supabase.channel := Survey.channelName roomId;
         Supabase.event := Survey.ShowResults |} p
    = Survey.with_gameState
        (Survey.with_phase Survey.results (Survey.gameState p)) p).
  { intros p. unfold Survey.receive. cbn [Supabase.channel Supabase.event].
    by rewrite decide_True. }
  assert (Hsync : ∀ r p,
    Survey.receive roomId
      {| Supabase.channel := Survey.channelName roomId +:+ "-sync";
         Supabase.event := Survey.SyncResponses r |} p = p).
  { intros r p. unfold Survey.receive. cbn [Supabase.channel Supabase.event].
    rewrite decide_False; [done|]. by apply append_ne. }
  unfold Survey.handleShowResults.
  destruct (decide (Survey.questionId (Survey.gameState c) = "")).
  - cbn [snd app fold_left]. apply Hshow.
  - destruct (GameService.getQuestionResponses _ _ _ _ _) as [[rows|e] cache'].
    + cbn [snd app fold_left]. by rewrite Hsync, Hshow.
    + cbn [snd app fold_left]. apply Hshow.
Qed.

(** X10. When the read of the survey's [handleShowResults] fails, with
    nothing cached, the revealing client does not keep the answers it
    has: the service returns the empty list in place of an error, and the
    client shows the results of no answer at all. *)
Theorem Survey_reveal_failed_read (n : Supabase.Net) (now : Z)
    (roomId : string) (c : Survey.Component)
    (cache : GameService.ResponseCache) (d : GameService.Db) :
  n ≠ Supabase.Reached →
  Survey.questionId (Survey.gameState c) ≠ "" →
  GameService.cache_hit (GameService.cache_responses cache)
    (Survey.questionId (Survey.gameState c)) now = None →
  Survey.responses
    (Survey.gameState (Survey.handleShowResults n now roomId c cache d).1.1)
  = Js.Obj.empty
  ∧ Survey.phase
      (Survey.gameState (Survey.handleShowResults n now roomId c cache d).1.1)
    = Survey.results
  ∧ Survey.totalResponses
      (Survey.gameState (Survey.handleShowResults n now roomId c cache d).1.1)
    = 0%nat
  ∧ (Survey.handleShowResults n now roomId c cache d).1.2 = cache.
Proof.
  intros Hn Hq Hmiss. unfold Survey.handleShowResults.
  rewrite decide_False by done.
  unfold GameService.getQuestionResponses. rewrite Hmiss.
  by destruct n.
Qed.

(** X11. A participant answers a survey question once.  After
    [handleAnswer] has stored and announced an answer, a further call on
    the resulting state, whatever answer it carries, changes neither the
    state nor the store and announces nothing. *)
Theorem Survey_answers_once (isMobile isMobile' : bool)
    (calls calls' : nat → Supabase.Request) (roomId : string)
    (answer answer' : bool) (c : Survey.Component) (d : GameService.Db) :
  (Survey.handleAnswer isMobile calls roomId answer c d).2 ≠ [] →
  Survey.handleAnswer isMobile' calls' roomId answer'
    (Survey.handleAnswer isMobile calls roomId answer c d).1.1
    (Survey.handleAnswer isMobile calls roomId answer c d).1.2
  = ((Survey.handleAnswer isMobile calls roomId answer c d).1.1,
     (Survey.handleAnswer isMobile calls roomId answer c d).1.2, []).
Proof.
  intros Hsent.
  assert (Hdone :
    Survey.hasAnswered
      (Survey.handleAnswer isMobile calls roomId answer c d).1.1 = true
    ∧ Survey.currentParticipant
        (Survey.handleAnswer isMobile calls roomId answer c d).1.1
      = Survey.currentParticipant c
    ∧ Survey.currentParticipant c ≠ None).
  { revert Hsent. unfold Survey.handleAnswer.
    destruct (Survey.currentParticipant c) as [me|] eqn:Hme; [|done].
    destruct (Survey.hasAnswered c); [done|].
    destruct (decide (Survey.questionId (Survey.gameState c) = "")); [done|].
    destruct (GameService.submitResponse _ _ _ _ _ _) as [[row|e] d'].
    - intros _. cbn. by rewrite Hme.
    - intros Hsent. by destruct Hsent. }
  destruct Hdone as (Hanswered & Hme & Hsome).
  unfold Survey.handleAnswer at 1. rewrite Hme, Hanswered.
  by destruct (Survey.currentParticipant c).
Qed.

(** ** The round taken from the store *)

(** X12. [restoreGameState] of the survey, given an active survey session
    of the room and an active question of it, puts the client into the
    answering phase of the newest such question with the answers the
    store holds for it, and [hasAnswered] is set exactly when one of them
    is the local participant's. *)
Theorem Survey_restore_from_store (ns nq1 nq2 nq3 : Supabase.Net) (now : Z)
    (roomId : string) (c : Survey.Component)
    (cache : GameService.ResponseCache) (d : GameService.Db)
    (me : Supabase.Participant.t) (s : GameService.GameSession.t)
    (active : GameService.ActiveQuestions) (q : GameService.GameQuestion.t)
    (older : list GameService.GameQuestion.t) :
  roomId ≠ "" →
  Survey.gameParticipants c ≠ [] →
  Survey.currentParticipant c = Some me →
  GameService.getActiveGameSession ns roomId d = Supabase.Return (Some s) →
  GameService.GameSession.game_type s = "anonymous_survey" →
  GameService.getActiveQuestions nq1 nq2 nq3 (GameService.GameSession.id s) d
  = Supabase.Return active →
  GameService.gameQuestions active = q :: older →
  GameService.cache_hit (GameService.cache_responses cache)
    (GameService.GameQuestion.id q) now = None →
  Survey.phase
    (Survey.gameState
       (Survey.restoreGameState ns nq1 nq2 nq3 Supabase.Reached now roomId c
          cache d).1)
  = Survey.answering
  ∧ Survey.questionId
      (Survey.gameState
         (Survey.restoreGameState ns nq1 nq2 nq3 Supabase.Reached now roomId c
            cache d).1)
    = GameService.GameQuestion.id q
  ∧ Survey.question
      (Survey.gameState
         (Survey.restoreGameState ns nq1 nq2 nq3 Supabase.Reached now roomId c
            cache d).1)
    = GameService.GameQuestion.question q
  ∧ Survey.responses
      (Survey.gameState
         (Survey.restoreGameState ns nq1 nq2 nq3 Supabase.Reached now roomId c
            cache d).1)
    = Js.Obj.of_rows GameService.GameResponse.participant_id
        GameService.GameResponse.response
        (filter (λ r, GameService.GameResponse.question_id r
                      = GameService.GameQuestion.id q)
           (GameService.game_responses d))
  ∧ Survey.sessionId
      (Survey.gameState
         (Survey.restoreGameState ns nq1 nq2 nq3 Supabase.Reached now roomId c
            cache d).1)
    = GameService.GameSession.id s
  ∧ Survey.currentGameSessionId
      (Survey.restoreGameState ns nq1 nq2 nq3 Supabase.Reached now roomId c
         cache d).1
    = GameService.GameSession.id s
  ∧ (Survey.hasAnswered
       (Survey.restoreGameState ns nq1 nq2 nq3 Supabase.Reached now roomId c
          cache d).1 = true
     ↔ ∃ row, row ∈ GameService.game_responses d
              ∧ GameService.GameResponse.question_id row
                = GameService.GameQuestion.id q
              ∧ GameService.GameResponse.participant_id row
                = Supabase.Participant.id me).
Proof.
  intros Hroom Hparts Hme Hsession Htype Hactive Hq Hmiss.
  unfold Survey.restoreGameState. rewrite decide_False by done.
  destruct (Survey.gameParticipants c) as [|p ps]; [done|].
  rewrite Hme, Hsession. rewrite decide_True by done.
  rewrite Hactive, Hq.
  unfold GameService.getQuestionResponses. rewrite Hmiss.
  cbn [Supabase.await Supabase.data_or_throw Supabase.ok Supabase.error
       Supabase.data Supabase.or_empty default fst Survey.gameState
       Survey.currentGameSessionId Survey.hasAnswered Survey.questionerName
       Survey.phase Survey.questionId Survey.question Survey.responses
       Survey.sessionId].
  unfold id. do 6 (split; [done|]).
  set (rows := filter (λ r, GameService.GameResponse.question_id r
                            = GameService.GameQuestion.id q)
                 (GameService.game_responses d)).
  destruct (List.find _ rows) as [row|] eqn:Hfind.
  - split; [|done]. intros _. apply find_some in Hfind as [Hin Hmine].
    apply bool_decide_eq_true in Hmine.
    apply list_elem_of_In, list_elem_of_filter in Hin as [Hqid Hin].
    by exists row.
  - split; [done|]. intros (row & Hin & Hqid & Hmine). exfalso.
    assert (Hrow : row ∈ rows) by by apply list_elem_of_filter.
    apply list_elem_of_In in Hrow.
    apply (find_none _ _ Hfind) in Hrow.
    by rewrite bool_decide_eq_true_2 in Hrow.
Qed.

(** ** The tally with one candidate at the maximum *)

Lemma eliminatedCandidates_unique (votes : list WerewolfService.WerewolfVote.t)
    (a : string) :
  Werewolf.holds_maximum votes a →
  (∀ b, Werewolf.holds_maximum votes b → b = a) →
  Werewolf.eliminatedCandidates votes = [a].
Proof.
  intros Ha Honly.
  pose proof (eliminatedCandidates_NoDup votes) as Hnd.
  pose proof (eliminatedCandidates_spec votes) as Hspec.
  apply Hspec in Ha.
  destruct (Werewolf.eliminatedCandidates votes) as [|x [|y l]].
  - by apply elem_of_nil in Ha.
  - by apply list_elem_of_singleton in Ha as ->.
  - exfalso. apply NoDup_cons in Hnd as [Hx _]. apply Hx.
    rewrite (Honly x) by (apply Hspec; left).
    rewrite <- (Honly y) by (apply Hspec; right; left). left.
Qed.

Lemma holds_maximum_nonempty (votes : list WerewolfService.WerewolfVote.t)
    (a : string) :
  Werewolf.holds_maximum votes a → length votes ≠ 0%nat.
Proof.
  intros [Hpos _]. unfold Werewolf.votes_for in Hpos.
  destruct votes; simpl in *; [lia|done].
Qed.

(** The role the tally finds for [a]: that of the first assignment read
    for [a]. *)
Lemma find_assignment_role (rows : list WerewolfService.WerewolfAssignment.t)
    (a : string) (r : WerewolfService.Role) :
  (∃ row, row ∈ rows ∧ WerewolfService.WerewolfAssignment.participant_id row = a) →
  (∀ row, row ∈ rows →
          WerewolfService.WerewolfAssignment.participant_id row = a →
          WerewolfService.WerewolfAssignment.role row = r) →
  WerewolfService.WerewolfAssignment.role
    <$> List.find
          (λ x, bool_decide
                  (Some (WerewolfService.WerewolfAssignment.participant_id x)
                   = Some a))
          rows
  = Some r.
Proof.
  intros (row & Hrow & Hid) Hrole.
  destruct (List.find _ rows) as [x|] eqn:Hfind.
  - apply find_some in Hfind as [Hx Hxid].
    apply bool_decide_eq_true in Hxid. injection Hxid as Hxid.
    apply list_elem_of_In in Hx. simpl. f_equal. by apply Hrole.
  - apply list_elem_of_In in Hrow. apply (find_none _ _ Hfind) in Hrow.
    by rewrite bool_decide_eq_true_2 in Hrow by by rewrite Hid.
Qed.

(** X13. The tally with exactly one participant [a] at the maximum, whose
    assignment among those read has role [r].  A werewolf voted out in
    reverse mode is given the chance to guess: the phase [reverse_chance]
    is stored and announced and the client is left as it is.  In every
    other case the game is finished without a write to the store: [a] is
    the eliminated player, and the citizens win if [a] is a werewolf, the
    werewolf if not. *)
Theorem Werewolf_unique_maximum (nv na : Supabase.Net) (rq : Supabase.Request)
    (roomId : string) (c : Werewolf.Component) (d : WerewolfService.Db)
    (s : WerewolfService.WerewolfSession.t)
    (voteRows : list WerewolfService.WerewolfVote.t)
    (assignmentRows : list WerewolfService.WerewolfAssignment.t)
    (a : string) (r : WerewolfService.Role) :
  Werewolf.session (Werewolf.gameState c) = Some s →
  WerewolfService.getVotes nv (WerewolfService.WerewolfSession.id s)
    (Werewolf.voteRound (Werewolf.gameState c)) d
  = Supabase.Return voteRows →
  WerewolfService.getAllAssignments na (WerewolfService.WerewolfSession.id s) d
  = Supabase.Return assignmentRows →
  Werewolf.holds_maximum voteRows a →
  (∀ b, Werewolf.holds_maximum voteRows b → b = a) →
  (∃ row, row ∈ assignmentRows
          ∧ WerewolfService.WerewolfAssignment.participant_id row = a) →
  (∀ row, row ∈ assignmentRows →
          WerewolfService.WerewolfAssignment.participant_id row = a →
          WerewolfService.WerewolfAssignment.role row = r) →
  Werewolf.handleShowResults nv na rq roomId c d
  = if bool_decide (r = WerewolfService.werewolf) && Werewolf.reverseMode c
    then
      (c,
       (Werewolf.handlePhaseChange rq roomId (WerewolfService.WerewolfSession.id s)
          WerewolfService.reverse_chance d).1,
       (Werewolf.handlePhaseChange rq roomId (WerewolfService.WerewolfSession.id s)
          WerewolfService.reverse_chance d).2)
    else
      ((Werewolf.finish
          {| Werewolf.winner :=
               Some (if bool_decide (r = WerewolfService.werewolf)
                     then WerewolfService.citizen
                     else WerewolfService.werewolf);
             Werewolf.eliminatedPlayer := Some a;
             Werewolf.werewolfGuess := None;
             Werewolf.isCorrectGuess := false |} roomId c).1,
       d,
       (Werewolf.finish
          {| Werewolf.winner :=
               Some (if bool_decide (r = WerewolfService.werewolf)
                     then WerewolfService.citizen
                     else WerewolfService.werewolf);
             Werewolf.eliminatedPlayer := Some a;
             Werewolf.werewolfGuess := None;
             Werewolf.isCorrectGuess := false |} roomId c).2).
Proof.
  intros Hs Hvotes Hassign Ha Honly Hrow Hrole.
  unfold Werewolf.handleShowResults. rewrite Hs, Hvotes, Hassign.
  rewrite bool_decide_eq_false_2 by by eapply holds_maximum_nonempty.
  rewrite (eliminatedCandidates_unique voteRows a Ha Honly).
  rewrite bool_decide_eq_false_2 by (simpl; lia).
  cbn [head]. rewrite (find_assignment_role assignmentRows a r Hrow Hrole).
  destruct r.
  - rewrite !bool_decide_eq_false_2 by done. simpl. done.
  - rewrite !bool_decide_eq_true_2 by done. simpl.
    destruct (Werewolf.reverseMode c); [|done].
    by destruct (Werewolf.handlePhaseChange _ _ _ _ _).
Qed.

(** X14. What the swallowed errors of the reads do to the tally.  If the
    votes are read and one participant [a] holds the maximum, but the
    assignments cannot be read, [a] is taken for a citizen: the game is
    finished with the werewolf as winner, in reverse mode too.  If the
    votes cannot be read, [handleShowResults] does nothing at all. *)
Theorem Werewolf_tally_failed_reads (nv na : Supabase.Net)
    (rq : Supabase.Request) (roomId : string) (c : Werewolf.Component)
    (d : WerewolfService.Db) (s : WerewolfService.WerewolfSession.t)
    (voteRows : list WerewolfService.WerewolfVote.t) (a : string) :
  na ≠ Supabase.Reached →
  Werewolf.session (Werewolf.gameState c) = Some s →
  WerewolfService.getVotes nv (WerewolfService.WerewolfSession.id s)
    (Werewolf.voteRound (Werewolf.gameState c)) d
  = Supabase.Return voteRows →
  Werewolf.holds_maximum voteRows a →
  (∀ b, Werewolf.holds_maximum voteRows b → b = a) →
  Werewolf.handleShowResults nv na rq roomId c d
  = ((Werewolf.finish
        {| Werewolf.winner := Some WerewolfService.werewolf;
           Werewolf.eliminatedPlayer := Some a;
           Werewolf.werewolfGuess := None;
           Werewolf.isCorrectGuess := false |} roomId c).1,
     d,
     (Werewolf.finish
        {| Werewolf.winner := Some WerewolfService.werewolf;
           Werewolf.eliminatedPlayer := Some a;
           Werewolf.werewolfGuess := None;
           Werewolf.isCorrectGuess := false |} roomId c).2)
  ∧ ∀ nv', nv' ≠ Supabase.Reached →
           Werewolf.handleShowResults nv' na rq roomId c d = (c, d, []).
Proof.
  intros Hna Hs Hvotes Ha Honly. split.
  - unfold Werewolf.handleShowResults. rewrite Hs, Hvotes.
    destruct (getAllAssignments_returns na
                (WerewolfService.WerewolfSession.id s) d)
      as (rows & -> & Hrows).
    rewrite (Hrows Hna).
    rewrite bool_decide_eq_false_2 by by eapply holds_maximum_nonempty.
    rewrite (eliminatedCandidates_unique voteRows a Ha Honly).
    by rewrite bool_decide_eq_false_2 by (simpl; lia).
  - intros nv' Hnv. unfold Werewolf.handleShowResults. rewrite Hs.
    destruct (getVotes_returns nv' (WerewolfService.WerewolfSession.id s)
                (Werewolf.voteRound (Werewolf.gameState c)) d)
      as (rows & -> & Hrows).
    rewrite (Hrows Hnv).
    by destruct (WerewolfService.getAllAssignments _ _ _).
Qed.

(** ** The phase button *)

Lemma Set_add_length_two (clicks : list string) (pid : string) :
  NoDup clicks →
  2 ≤ Z.of_nat (length (Js.Set_add clicks pid))
  ↔ ∃ other, other ∈ clicks ∧ other ≠ pid.
Proof.
  intros Hnd. unfold Js.Set_add.
  destruct (decide (pid ∈ clicks)) as [Hin|Hout].
  - destruct clicks as [|x [|y l]]; simpl.
    + by apply elem_of_nil in Hin.
    + apply list_elem_of_singleton in Hin as ->. split; [lia|].
      intros (other & Hother & Hne). by apply list_elem_of_singleton in Hother.
    + split; [|lia]. intros _. apply NoDup_cons in Hnd as [Hx _].
      destruct (decide (x = pid)) as [->|Hne].
      * exists y. split; [right; left|]. intros ->. apply Hx. left.
      * exists x. split; [left|done].
  - rewrite length_app. simpl. destruct clicks as [|x l]; simpl.
    + split; [lia|]. intros (other & Hother & _). by apply elem_of_nil in Hother.
    + split; [|lia]. intros _. exists x. split; [left|].
      intros ->. apply Hout. left.
Qed.

(** X15. The talk ends on the second participant's click.  A client that
    hears the click of [pid] moves the game to the vote, storing and
    announcing the phase, exactly when it knows the click of a
    participant other than [pid]; however often one participant's click
    arrives, it counts once. *)
Theorem Werewolf_phase_button_quorum (n1 n2 : Supabase.Net)
    (rq : Supabase.Request) (roomId pid : string) (c : Werewolf.Component)
    (d : WerewolfService.Db) (s : WerewolfService.WerewolfSession.t) :
  NoDup (Werewolf.phaseButtonClicks c) →
  Werewolf.session (Werewolf.gameState c) = Some s →
  Supabase.net rq = Supabase.Reached →
  ((∃ other, other ∈ Werewolf.phaseButtonClicks c ∧ other ≠ pid) →
   (Werewolf.receive n1 n2 rq roomId
      {| Supabase.channel := Werewolf.channelName roomId;
         Supabase.event := Werewolf.WerewolfPhaseButtonClick pid |} c d).2
   = [{| Supabase.channel := Werewolf.channelName roomId;
         Supabase.event :=
           Werewolf.WerewolfPhaseChange WerewolfService.vote |}]
   ∧ ∀ r, r ∈ WerewolfService.werewolf_sessions
                (Werewolf.receive n1 n2 rq roomId
                   {| Supabase.channel := Werewolf.channelName roomId;
                      Supabase.event :=
                        Werewolf.WerewolfPhaseButtonClick pid |} c d).1.2 →
          WerewolfService.WerewolfSession.id r
          = WerewolfService.WerewolfSession.id s →
          WerewolfService.WerewolfSession.phase r = WerewolfService.vote)
  ∧ ((∀ other, other ∈ Werewolf.phaseButtonClicks c → other = pid) →
     (Werewolf.receive n1 n2 rq roomId
        {| Supabase.channel := Werewolf.channelName roomId;
           Supabase.event := Werewolf.WerewolfPhaseButtonClick pid |} c d).2
     = []
     ∧ (Werewolf.receive n1 n2 rq roomId
          {| Supabase.channel := Werewolf.channelName roomId;
             Supabase.event := Werewolf.WerewolfPhaseButtonClick pid |} c d).1.2
       = d
     ∧ Werewolf.phaseButtonClicks
         (Werewolf.receive n1 n2 rq roomId
            {| Supabase.channel := Werewolf.channelName roomId;
               Supabase.event := Werewolf.WerewolfPhaseButtonClick pid |} c d).1.1
       = [pid]).
Proof.
  intros Hnd Hs Hnet.
  pose proof (Set_add_length_two (Werewolf.phaseButtonClicks c) pid Hnd) as Htwo.
  unfold Werewolf.receive. cbn [Supabase.channel Supabase.event].
  rewrite decide_True by done. rewrite Hs. split.
  - intros Hother. rewrite bool_decide_eq_true_2 by by apply Htwo.
    destruct (handlePhaseChange_reached rq roomId
                (WerewolfService.WerewolfSession.id s) WerewolfService.vote d
                Hnet) as (d' & -> & Hphase).
    by split.
  - intros Honly. rewrite bool_decide_eq_false_2.
    + split; [done|]. split; [done|]. cbn. unfold Js.Set_add.
      destruct (decide (pid ∈ Werewolf.phaseButtonClicks c)) as [Hin|Hout].
      * destruct (Werewolf.phaseButtonClicks c) as [|x [|y l]].
        -- by apply elem_of_nil in Hin.
        -- by apply list_elem_of_singleton in Hin as ->.
        -- exfalso. apply NoDup_cons in Hnd as [Hx _]. apply Hx.
           rewrite (Honly x) by left. rewrite <- (Honly y) by (right; left).
           left.
      * destruct (Werewolf.phaseButtonClicks c) as [|x l]; [done|].
        exfalso. apply Hout. rewrite <- (Honly x) by left. left.
    + rewrite Htwo. intros (other & Hother & Hne). by apply Hne, Honly.
Qed.

(** X16. A participant's press of the phase button is announced once: the
    press records and announces the click, alone when no other click is
    known yet, and a further press on the resulting state changes nothing
    and announces nothing. *)
Theorem Werewolf_press_once (rq rq' : Supabase.Request) (roomId : string)
    (c : Werewolf.Component) (d : WerewolfService.Db)
    (me : Supabase.Participant.t) :
  Werewolf.currentParticipant c = Some me →
  Werewolf.hasClickedPhaseButton c = false →
  head (Werewolf.handlePhaseButtonClick rq roomId c d).2
  = Some {| Supabase.channel := Werewolf.channelName roomId;
            Supabase.event :=
              Werewolf.WerewolfPhaseButtonClick (Supabase.Participant.id me) |}
  ∧ (Werewolf.phaseButtonClicks c = [] →
     Werewolf.handlePhaseButtonClick rq roomId c d
     = ((Werewolf.handlePhaseButtonClick rq roomId c d).1.1, d,
        [{| Supabase.channel := Werewolf.channelName roomId;
            Supabase.event :=
              Werewolf.WerewolfPhaseButtonClick (Supabase.Participant.id me) |}])
     ∧ Werewolf.phaseButtonClicks
         (Werewolf.handlePhaseButtonClick rq roomId c d).1.1
       = [Supabase.Participant.id me])
  ∧ Werewolf.handlePhaseButtonClick rq' roomId
      (Werewolf.handlePhaseButtonClick rq roomId c d).1.1
      (Werewolf.handlePhaseButtonClick rq roomId c d).1.2
    = ((Werewolf.handlePhaseButtonClick rq roomId c d).1.1,
       (Werewolf.handlePhaseButtonClick rq roomId c d).1.2, []).
Proof.
  intros Hme Hfirst.
  assert (Hafter :
    Werewolf.currentParticipant
      (Werewolf.handlePhaseButtonClick rq roomId c d).1.1 = Some me
    ∧ Werewolf.hasClickedPhaseButton
        (Werewolf.handlePhaseButtonClick rq roomId c d).1.1 = true).
  { unfold Werewolf.handlePhaseButtonClick. rewrite Hme, Hfirst.
    destruct (bool_decide _); [|done].
    destruct (Werewolf.session (Werewolf.gameState c)); [|done].
    by destruct (Werewolf.handlePhaseChange _ _ _ _ _). }
  destruct Hafter as [Hme' Hclicked]. split; [|split].
  - unfold Werewolf.handlePhaseButtonClick. rewrite Hme, Hfirst.
    destruct (bool_decide _); [|done].
    destruct (Werewolf.session (Werewolf.gameState c)); [|done].
    by destruct (Werewolf.handlePhaseChange _ _ _ _ _).
  - intros Hnone. unfold Werewolf.handlePhaseButtonClick.
    by rewrite Hme, Hfirst, Hnone.
  - unfold Werewolf.handlePhaseButtonClick at 1. by rewrite Hme', Hclicked.
Qed.

(** ** One vote per voter and round *)

Lemma submitVote_keeps_unique (rq : Supabase.Request)
    (sessionId voterId targetId : string) (voteRound : Z)
    (d : WerewolfService.Db) :
  NoDup ((λ r, (WerewolfService.WerewolfVote.session_id r,
                WerewolfService.WerewolfVote.voter_id r,
                WerewolfService.WerewolfVote.vote_round r))
           <$> WerewolfService.werewolf_votes d) →
  NoDup ((λ r, (WerewolfService.WerewolfVote.session_id r,
                WerewolfService.WerewolfVote.voter_id r,
                WerewolfService.WerewolfVote.vote_round r))
           <$> WerewolfService.werewolf_votes
                 (WerewolfService.submitVote rq sessionId voterId targetId
                    voteRound d).2)
  ∧ (Supabase.net rq = Supabase.Reached → voterId ≠ targetId →
     WerewolfService.vote_references sessionId voterId targetId d →
     WerewolfService.WerewolfVote.target_id
       <$> filter (λ r, WerewolfService.WerewolfVote.session_id r = sessionId
                        ∧ WerewolfService.WerewolfVote.voter_id r = voterId
                        ∧ WerewolfService.WerewolfVote.vote_round r = voteRound)
             (WerewolfService.werewolf_votes
                (WerewolfService.submitVote rq sessionId voterId targetId
                   voteRound d).2)
     = [targetId]).
Proof.
  intros Hnd. unfold WerewolfService.submitVote.
  destruct (Supabase.net rq) as [|e|e]; [|done..].
  destruct (decide (voterId = targetId)) as [|Hne]; [done|].
  destruct (decide (¬ WerewolfService.vote_references sessionId voterId
                        targetId d)) as [Hno|_]; [done|].
  match goal with
  | |- context [Supabase.upsert ?cf ?up ?nw ?rs] =>
      set (key := λ r, (WerewolfService.WerewolfVote.session_id r,
                        WerewolfService.WerewolfVote.voter_id r,
                        WerewolfService.WerewolfVote.vote_round r));
      rewrite (upsert_ext cf
                 (λ r, bool_decide (key r = (sessionId, voterId, voteRound)))
                 up nw rs);
      [ pose proof (upsert_elem
                      (λ r, bool_decide (key r = (sessionId, voterId, voteRound)))
                      up nw rs) as Hin;
        pose proof (upsert_row
                      (λ r, bool_decide (key r = (sessionId, voterId, voteRound)))
                      up nw rs) as Hrow;
        pose proof (upsert_key_unique key (sessionId, voterId, voteRound)
                      up nw rs eq_refl (λ _, eq_refl) Hnd) as [Hnd' Honly]
      | intros r; apply bool_decide_ext; unfold key;
        split; [by intros (-> & -> & ->)|by intros [= -> -> ->]] ]
  end.
  destruct (Supabase.upsert _ _ _ _) as [row rows]. simpl in *.
  split; [done|]. intros _ _ _.
  assert (Hkey : key row = (sessionId, voterId, voteRound)).
  { by destruct Hrow as [->|(r & _ & _ & ->)]. }
  assert (Htarget : WerewolfService.WerewolfVote.target_id row = targetId).
  { by destruct Hrow as [->|(r & _ & _ & ->)]. }
  rewrite (filter_only _ rows row).
  - simpl. by rewrite Htarget.
  - by apply NoDup_fmap_1 in Hnd'.
  - done.
  - injection Hkey as Hk1 Hk2 Hk3. done.
  - intros x Hx (Hx1 & Hx2 & Hx3). apply Honly; [done|].
    unfold key. by rewrite Hx1, Hx2, Hx3.
Qed.

(** The calls of [submitVote] write the vote table alone. *)
Lemma submitVotes_frame (calls : list WerewolfService.VoteCall)
    (d : WerewolfService.Db) :
  WerewolfService.participants (WerewolfService.submitVotes calls d)
  = WerewolfService.participants d
  ∧ WerewolfService.werewolf_sessions (WerewolfService.submitVotes calls d)
    = WerewolfService.werewolf_sessions d.
Proof.
  revert d. induction calls as [|vc calls IH]; intros d; simpl; [done|].
  destruct (IH (WerewolfService.submitVote (WerewolfService.request vc)
                  (WerewolfService.sessionId vc) (WerewolfService.voterId vc)
                  (WerewolfService.targetId vc) (WerewolfService.voteRound vc)
                  d).2) as [-> ->].
  unfold WerewolfService.submitVote.
  destruct (Supabase.net (WerewolfService.request vc)); [|done..].
  destruct (decide _); [done|]. destruct (decide _); [done|].
  by destruct (Supabase.upsert _ _ _ _).
Qed.

(** X17. [werewolf_votes] holds at most one vote of a voter for a round,
    whatever calls of [submitVote] the store serves; a vote that reaches
    the store, for a target other than the voter, in a session and
    between participants the store holds, replaces the voter's earlier
    vote of the round, so the one vote the table holds names the target
    chosen last. *)
Theorem Werewolf_one_vote_per_round (calls : list WerewolfService.VoteCall)
    (last : WerewolfService.VoteCall) (d : WerewolfService.Db) :
  NoDup ((λ r, (WerewolfService.WerewolfVote.session_id r,
                WerewolfService.WerewolfVote.voter_id r,
                WerewolfService.WerewolfVote.vote_round r))
           <$> WerewolfService.werewolf_votes d) →
  NoDup ((λ r, (WerewolfService.WerewolfVote.session_id r,
                WerewolfService.WerewolfVote.voter_id r,
                WerewolfService.WerewolfVote.vote_round r))
           <$> WerewolfService.werewolf_votes
                 (WerewolfService.submitVotes calls d))
  ∧ (Supabase.net (WerewolfService.request last) = Supabase.Reached →
     WerewolfService.voterId last ≠ WerewolfService.targetId last →
     WerewolfService.vote_references (WerewolfService.sessionId last)
       (WerewolfService.voterId last) (WerewolfService.targetId last) d →
     WerewolfService.WerewolfVote.target_id
       <$> filter (λ r, WerewolfService.WerewolfVote.session_id r
                        = WerewolfService.sessionId last
                        ∧ WerewolfService.WerewolfVote.voter_id r
                          = WerewolfService.voterId last
                        ∧ WerewolfService.WerewolfVote.vote_round r
                          = WerewolfService.voteRound last)
             (WerewolfService.werewolf_votes
                (WerewolfService.submitVotes (calls ++ [last]) d))
     = [WerewolfService.targetId last]).
Proof.
  intros Hnd.
  assert (Hinv : ∀ calls d,
    NoDup ((λ r, (WerewolfService.WerewolfVote.session_id r,
                  WerewolfService.WerewolfVote.voter_id r,
                  WerewolfService.WerewolfVote.vote_round r))
             <$> WerewolfService.werewolf_votes d) →
    NoDup ((λ r, (WerewolfService.WerewolfVote.session_id r,
                  WerewolfService.WerewolfVote.voter_id r,
                  WerewolfService.WerewolfVote.vote_round r))
             <$> WerewolfService.werewolf_votes
                   (WerewolfService.submitVotes calls d))).
  { clear. induction calls as [|vc calls IH]; intros d Hd; simpl; [done|].
    apply IH. by apply submitVote_keeps_unique. }
  split; [by apply Hinv|]. intros Hnet Hne Hrefs.
  unfold WerewolfService.submitVotes. rewrite fold_left_app. simpl.
  apply submitVote_keeps_unique; [by apply Hinv|done..|].
  destruct (submitVotes_frame calls d) as [Hp Hs].
  unfold WerewolfService.vote_references, WerewolfService.submitVotes in *.
  by rewrite Hp, Hs.
Qed.

(** ** The roles of a game *)

Lemma filter_all {A} (P : A → Prop) `{∀ x, Decision (P x)} (l : list A) :
  Forall P l → filter P l = l.
Proof.
  induction 1 as [|x l Hx _ IH]; [done|].
  by rewrite filter_cons, decide_True, IH.
Qed.

Lemma filter_none {A} (P : A → Prop) `{∀ x, Decision (P x)} (l : list A) :
  Forall (λ x, ¬ P x) l → filter P l = [].
Proof.
  induction 1 as [|x l Hx _ IH]; [done|].
  by rewrite filter_cons, decide_False, IH.
Qed.

Section assignments.
Context (rq : Supabase.Request) (uuids : nat → string)
  (session : WerewolfService.WerewolfSession.t) (sessionId : string)
  (participants shuffled : list Supabase.Participant.t).




End assignments.




(** ** Presence: the participant list, leaving, and who the caller is *)

(** X20. [getParticipants], its read reaching the store, returns the
    participants of the room that are online, in the order they joined;
    when its clean-up reached the store none of them was last seen more
    than two minutes before the caller's clock, and every online
    participant of the room seen since is among them.  Unlike the reads
    of the game services it throws when the read fails. *)
Theorem getParticipants_online_in_order (rq : Supabase.Request) (now : Z)
    (roomId : string) (d : RoomService.Db) :
  (∃ l,
     (RoomService.getParticipants rq now Supabase.Reached roomId d).1
     = Supabase.Return l
     ∧ StronglySorted
         (λ a b, Supabase.Participant.joined_at a
                 ≤ Supabase.Participant.joined_at b) l
     ∧ (∀ p, p ∈ l →
             p ∈ RoomService.participants d
             ∧ Supabase.Participant.room_id p = roomId
             ∧ Supabase.Participant.is_online p = true
             ∧ (Supabase.net rq = Supabase.Reached →
                now - 2 * 60 * 1000 ≤ Supabase.Participant.last_seen p))
     ∧ (∀ p, p ∈ RoomService.participants d →
             Supabase.Participant.room_id p = roomId →
             Supabase.Participant.is_online p = true →
             now - 2 * 60 * 1000 ≤ Supabase.Participant.last_seen p →
             p ∈ l))
  ∧ (∀ e, (RoomService.getParticipants rq now (Supabase.Failed e) roomId d).1
          = Supabase.Throw e
          ∧ (RoomService.getParticipants rq now (Supabase.Rejected e) roomId d).1
            = Supabase.Throw e).
Proof.
  split; [|done].
  unfold RoomService.getParticipants, RoomService.order_joined_at.
  cbn [fst Supabase.await Supabase.ok Supabase.data_or_throw Supabase.error
       Supabase.data Supabase.map_outcome Supabase.or_empty default].
  unfold id.
  set (R := λ a b : Supabase.Participant.t,
              Supabase.Participant.joined_at a
              ≤ Supabase.Participant.joined_at b).
  set (dec := λ a b : Supabase.Participant.t,
                decide (Supabase.Participant.joined_at a
                        ≤ Supabase.Participant.joined_at b)).
  set (rows := filter (λ r, Supabase.Participant.room_id r = roomId
                            ∧ Supabase.Participant.is_online r = true)
                 (RoomService.participants
                    (RoomService.cleanupInactiveParticipants rq now roomId d))).
  assert (HT : Transitive R) by (intros x y z; unfold R; lia).
  assert (HTot : Total R) by (intros x y; unfold R; lia).
  pose proof (@merge_sort_Permutation _ R dec rows) as Hperm.
  pose proof (@StronglySorted_merge_sort _ R dec HT HTot rows) as Hsorted.
  exists (@merge_sort _ R dec rows). split; [done|]. split; [done|]. split.
  - intros p Hp. rewrite Hperm in Hp.
    apply list_elem_of_filter in Hp as [[Hroom Honline] Hp].
    unfold RoomService.cleanupInactiveParticipants in Hp.
    destruct (Supabase.net rq) as [|e|e]; [|done..].
    cbn [RoomService.participants] in Hp.
    apply list_elem_of_filter in Hp as [Hactive Hp].
    repeat split; try done. intros _. unfold RoomService.inactive in Hactive.
    destruct (decide (Supabase.Participant.last_seen p < now - 2 * 60 * 1000));
      [|lia].
    exfalso. by apply Hactive.
  - intros p Hp Hroom Honline Hseen. rewrite Hperm.
    apply list_elem_of_filter. split; [done|].
    unfold RoomService.cleanupInactiveParticipants.
    destruct (Supabase.net rq) as [|e|e]; [|done..].
    cbn [RoomService.participants]. apply list_elem_of_filter.
    split; [|done]. unfold RoomService.inactive. lia.
Qed.

Lemma upsert_existing {A} (conflict : A → bool) (update : A → A) (new : A)
    (rows : list A) (r : A) :
  r ∈ rows → conflict r = true →
  ∃ r', r' ∈ rows ∧ conflict r' = true
        ∧ (Supabase.upsert conflict update new rows).1 = update r'.
Proof.
  induction rows as [|x rows IH]; intros Hr Hc.
  - by apply elem_of_nil in Hr.
  - simpl. destruct (conflict x) eqn:Hx; simpl.
    + exists x. split; [left|done].
    + apply elem_of_cons in Hr as [->|Hr]; [congruence|].
      destruct (IH Hr Hc) as (r' & Hr' & Hc' & Hrow).
      destruct (Supabase.upsert conflict update new rows) as [row rows'].
      simpl in *. exists r'. split; [by right|done].
Qed.

Lemma upsert_fresh {A} (conflict : A → bool) (update : A → A) (new : A)
    (rows : list A) :
  (∀ r, r ∈ rows → conflict r = false) →
  Supabase.upsert conflict update new rows = (new, rows ++ [new]).
Proof.
  induction rows as [|x rows IH]; intros Hfree; simpl; [done|].
  rewrite (Hfree x) by left. rewrite IH; [done|].
  intros r Hr. apply Hfree. by right.
Qed.

(** The row a join writes: it is online, and it is the caller's earlier
    row, with the id that row had, when the store knows the caller's
    session already. *)
Lemma tryJoinRoom_row (a : RoomService.Attempt)
    (roomId nickname sessionToken : string) (ls : RoomService.LocalStorage)
    (d : RoomService.Db) (row : Supabase.Participant.t)
    (ls' : RoomService.LocalStorage) (d' : RoomService.Db)
    (sent : list (Supabase.Message RoomService.Event)) :
  RoomService.tryJoinRoom a roomId nickname sessionToken ls d
  = (Supabase.Return row, ls', d', sent) →
  Supabase.Participant.is_online row = true
  ∧ Supabase.Participant.joined_at row
    = Supabase.clock (RoomService.join_request a)
  ∧ (∀ r0, r0 ∈ RoomService.participants d →
           Supabase.Participant.session_token r0 = sessionToken →
           ∃ r1, r1 ∈ RoomService.participants d
                 ∧ Supabase.Participant.session_token r1 = sessionToken
                 ∧ Supabase.Participant.id row = Supabase.Participant.id r1)
  ∧ ((∀ r0, r0 ∈ RoomService.participants d →
            Supabase.Participant.session_token r0 ≠ sessionToken) →
     Supabase.Participant.id row
     = Supabase.uuid (RoomService.join_request a)).
Proof.
  unfold RoomService.tryJoinRoom.
  destruct (RoomService.upsert_room _ _ _) as [roomResult d1] eqn:Hroom.
  assert (Hd1 : RoomService.participants d1 = RoomService.participants d).
  { revert Hroom. unfold RoomService.upsert_room.
    destruct (Supabase.net _); [|by intros [= _ <-]..].
    destruct (Supabase.upsert _ _ _ _). by intros [= _ <-]. }
  destruct (Supabase.data_or_throw roomResult); [|done].
  unfold RoomService.delete_nickname.
  destruct (RoomService.cleanup_net a) as [|e|e]; [| |done].
  - unfold RoomService.upsert_participant.
    destruct (Supabase.net (RoomService.join_request a)); [|done..].
    cbn [RoomService.rooms RoomService.participants].
    destruct (bool_decide (roomId ∈ _)); [|done].
    destruct (bool_decide (Exists _ _)); [done|].
    rewrite Hd1.
    set (kept := filter
                   (λ r, ¬ RoomService.holds_nickname_elsewhere roomId nickname
                           sessionToken r)
                   (RoomService.participants d)).
    match goal with
    | |- context [Supabase.upsert ?cf ?up ?nw kept] =>
        set (nw0 := nw);
        pose proof (upsert_row cf up nw0 kept) as Hrow;
        pose proof (upsert_existing cf up nw0 kept) as Hexisting;
        pose proof (upsert_fresh cf up nw0 kept) as Hfresh;
        destruct (Supabase.upsert cf up nw0 kept) as [row0 rows0]
    end.
    cbn [fst snd Supabase.single_or_throw Supabase.data_or_throw Supabase.ok
         Supabase.error Supabase.data] in *.
    intros [= <- _ _ _]. split; [|split; [|split]].
    + by destruct Hrow as [->|(r & _ & _ & ->)].
    + by destruct Hrow as [->|(r & _ & _ & ->)].
    + intros r0 Hr0 Htok.
      destruct (Hexisting r0) as (r1 & Hr1 & Hc1 & ->).
      * unfold kept. apply list_elem_of_filter. split; [|done].
        intros (_ & _ & Hne). done.
      * by apply bool_decide_eq_true.
      * apply list_elem_of_filter in Hr1 as [_ Hr1].
        apply bool_decide_eq_true in Hc1. by exists r1.
    + intros Hnew.
      assert (Heq : (row0, rows0) = (nw0, kept ++ [nw0])).
      { apply Hfresh. intros r Hr. apply bool_decide_eq_false.
        apply list_elem_of_filter in Hr as [_ Hr]. by apply Hnew. }
      by injection Heq as -> _.
  - unfold RoomService.upsert_participant.
    destruct (Supabase.net (RoomService.join_request a)); [|done..].
    cbn [RoomService.rooms RoomService.participants].
    destruct (bool_decide (roomId ∈ _)); [|done].
    destruct (bool_decide (Exists _ _)); [done|].
    rewrite Hd1.
    match goal with
    | |- context [Supabase.upsert ?cf ?up ?nw ?rs] =>
        set (nw0 := nw);
        pose proof (upsert_row cf up nw0 rs) as Hrow;
        pose proof (upsert_existing cf up nw0 rs) as Hexisting;
        pose proof (upsert_fresh cf up nw0 rs) as Hfresh;
        destruct (Supabase.upsert cf up nw0 rs) as [row0 rows0]
    end.
    cbn [fst snd Supabase.single_or_throw Supabase.data_or_throw Supabase.ok
         Supabase.error Supabase.data] in *.
    intros [= <- _ _ _]. split; [|split; [|split]].
    + by destruct Hrow as [->|(r & _ & _ & ->)].
    + by destruct Hrow as [->|(r & _ & _ & ->)].
    + intros r0 Hr0 Htok.
      destruct (Hexisting r0) as (r1 & Hr1 & Hc1 & ->); [done| |].
      * by apply bool_decide_eq_true.
      * apply bool_decide_eq_true in Hc1. by exists r1.
    + intros Hnew.
      assert (Heq : (row0, rows0)
                    = (nw0, RoomService.participants d ++ [nw0])).
      { apply Hfresh. intros r Hr. apply bool_decide_eq_false.
        by apply Hnew. }
      by injection Heq as -> _.
Qed.

Lemma NoDup_fmap_eq {A B} (f : A → B) (l : list A) (x y : A) :
  NoDup (f <$> l) → x ∈ l → y ∈ l → f x = f y → x = y.
Proof.
  induction l as [|a l IH]; intros Hnd Hx Hy Hf.
  - by apply elem_of_nil in Hx.
  - rewrite fmap_cons in Hnd. apply NoDup_cons in Hnd as [Ha Hnd].
    apply elem_of_cons in Hx as [->|Hx]; apply elem_of_cons in Hy as [->|Hy].
    + done.
    + exfalso. apply Ha. rewrite Hf. by apply list_elem_of_fmap_2.
    + exfalso. apply Ha. rewrite <- Hf. by apply list_elem_of_fmap_2.
    + by apply IH.
Qed.

Lemma getSessionToken_kept (fresh : string) (ls : RoomService.LocalStorage) :
  RoomService.room_session_token (RoomService.getSessionToken fresh ls).2
  = Some (RoomService.getSessionToken fresh ls).1.
Proof.
  unfold RoomService.getSessionToken.
  by destruct (RoomService.room_session_token ls) eqn:Htoken.
Qed.

Lemma joinRoom_first_attempt (isMobile : bool) (fresh : string)
    (attempts : nat → RoomService.Attempt) (roomId nickname : string)
    (ls : RoomService.LocalStorage) (d : RoomService.Db)
    (row : Supabase.Participant.t) (ls' : RoomService.LocalStorage)
    (d' : RoomService.Db) (sent : list (Supabase.Message RoomService.Event)) :
  RoomService.tryJoinRoom (attempts 0%nat) roomId nickname
    (RoomService.getSessionToken fresh ls).1
    (RoomService.getSessionToken fresh ls).2 d
  = (Supabase.Return row, ls', d', sent) →
  RoomService.joinRoom isMobile fresh attempts roomId nickname ls d
  = (Supabase.Return row, ls', d', sent).
Proof.
  intros Htry. unfold RoomService.joinRoom.
  destruct (RoomService.getSessionToken fresh ls) as [sessionToken ls0].
  cbn [fst snd] in Htry.
  assert (Hattempt : ∀ left,
    RoomService.attemptJoinRoom left 0 attempts roomId nickname sessionToken
      ls0 d
    = (Supabase.Return row, ls', d', sent)).
  { intros left. destruct left; simpl; by rewrite Htry. }
  by rewrite Hattempt.
Qed.

(** X21. Who joined is who the room says the caller is.  After a
    [joinRoom] whose first attempt reached the store, every
    [getCurrentParticipantFromRoom] of the same browser for the room that
    reaches the store returns the row the join returned, keeps the
    browser's token and participant, and stamps the row's [last_seen]. *)
Theorem joinRoom_then_current (isMobile : bool) (fresh : string)
    (attempts : nat → RoomService.Attempt) (roomId nickname : string)
    (ls : RoomService.LocalStorage) (d : RoomService.Db) :
  NoDup (Supabase.Participant.session_token <$> RoomService.participants d) →
  Supabase.net (RoomService.room_request (attempts 0%nat)) = Supabase.Reached →
  RoomService.cleanup_net (attempts 0%nat) = Supabase.Reached →
  Supabase.net (RoomService.join_request (attempts 0%nat)) = Supabase.Reached →
  ∃ row ls' d' sent,
    RoomService.joinRoom isMobile fresh attempts roomId nickname ls d
    = (Supabase.Return row, ls', d', sent)
    ∧ ∀ fresh' rq,
        RoomService.getCurrentParticipantFromRoom fresh' Supabase.Reached rq
          roomId ls' d'
        = (Some row, ls', RoomService.updateLastSeen rq
                            (Supabase.Participant.id row) d').
Proof.
  intros Hnd Hroom Hclean Hjoin.
  destruct (tryJoinRoom_reached (attempts 0%nat) roomId nickname
              (RoomService.getSessionToken fresh ls).1
              (RoomService.getSessionToken fresh ls).2 d Hroom Hclean Hjoin Hnd)
    as (row & d' & Htry & Hr1 & Hr2 & Hr3 & Hin & _ & _ & Hnd').
  destruct (tryJoinRoom_row _ _ _ _ _ _ _ _ _ _ Htry) as (Honline & _).
  eexists row, _, d', _. split; [by apply joinRoom_first_attempt|].
  intros fresh' rq. unfold RoomService.getCurrentParticipantFromRoom.
  unfold RoomService.getSessionToken at 1.
  cbn [RoomService.setCurrentParticipant RoomService.room_session_token].
  rewrite getSessionToken_kept.
  rewrite (filter_only _ (RoomService.participants d') row).
  - done.
  - by apply NoDup_fmap_1 in Hnd'.
  - done.
  - done.
  - intros x Hx (_ & Htok & _).
    apply (NoDup_fmap_eq Supabase.Participant.session_token
             (RoomService.participants d')); try done.
    by rewrite Htok, Hr3.
Qed.

(** X22. A browser that joins again keeps its participant: when the store
    holds a row with the browser's session token, the row a [joinRoom]
    returns has that row's id, whatever room or nickname it joins with. *)
Theorem joinRoom_again_keeps_id (isMobile : bool) (fresh : string)
    (attempts : nat → RoomService.Attempt) (roomId nickname : string)
    (ls : RoomService.LocalStorage) (d : RoomService.Db)
    (earlier : Supabase.Participant.t) :
  NoDup (Supabase.Participant.session_token <$> RoomService.participants d) →
  Supabase.net (RoomService.room_request (attempts 0%nat)) = Supabase.Reached →
  RoomService.cleanup_net (attempts 0%nat) = Supabase.Reached →
  Supabase.net (RoomService.join_request (attempts 0%nat)) = Supabase.Reached →
  earlier ∈ RoomService.participants d →
  RoomService.room_session_token ls
  = Some (Supabase.Participant.session_token earlier) →
  ∃ row ls' d' sent,
    RoomService.joinRoom isMobile fresh attempts roomId nickname ls d
    = (Supabase.Return row, ls', d', sent)
    ∧ Supabase.Participant.id row = Supabase.Participant.id earlier
    ∧ Supabase.Participant.room_id row = roomId
    ∧ Supabase.Participant.nickname row = nickname
    ∧ filter (λ r, Supabase.Participant.session_token r
                   = Supabase.Participant.session_token earlier)
        (RoomService.participants d')
      = [row].
Proof.
  intros Hnd Hroom Hclean Hjoin Hearlier Hls.
  destruct (tryJoinRoom_reached (attempts 0%nat) roomId nickname
              (RoomService.getSessionToken fresh ls).1
              (RoomService.getSessionToken fresh ls).2 d Hroom Hclean Hjoin Hnd)
    as (row & d' & Htry & Hr1 & Hr2 & Hr3 & Hin & _ & _ & Hnd').
  destruct (tryJoinRoom_row _ _ _ _ _ _ _ _ _ _ Htry) as (_ & _ & Hsame & _).
  assert (Htoken : (RoomService.getSessionToken fresh ls).1
                   = Supabase.Participant.session_token earlier).
  { unfold RoomService.getSessionToken. by rewrite Hls. }
  eexists row, _, d', _. split; [by apply joinRoom_first_attempt|].
  split; [|split; [done|split; [done|]]].
  - destruct (Hsame earlier Hearlier) as (r1 & Hr1in & Hr1tok & ->); [done|].
    f_equal.
    apply (NoDup_fmap_eq Supabase.Participant.session_token
             (RoomService.participants d)); try done.
    by rewrite Hr1tok.
  - apply filter_only.
    + by apply NoDup_fmap_1 in Hnd'.
    + done.
    + by rewrite Hr3.
    + intros x Hx Htok.
      apply (NoDup_fmap_eq Supabase.Participant.session_token
               (RoomService.participants d')); try done.
      by rewrite Htok, Hr3.
Qed.

(** X23. [leaveRoom], its delete reaching the store, removes the rows
    with the participant's id and no other row, and forgets the browser's
    token and participant: with the new token the browser is given next,
    [getCurrentParticipantFromRoom] finds it in no room.  The departure is
    announced on the channels of the room the row was found in.  A delete
    that fails throws and changes nothing, the browser's token included. *)
Theorem leaveRoom_removes (rq : Supabase.Request) (participantId : string)
    (ls : RoomService.LocalStorage) (d : RoomService.Db) :
  match Supabase.net rq with
  | Supabase.Reached =>
      (RoomService.leaveRoom Supabase.Reached rq participantId ls d).1.1.1
      = Supabase.Return ()
      ∧ (∀ p, p ∈ RoomService.participants
                    (RoomService.leaveRoom Supabase.Reached rq participantId
                       ls d).1.2
              ↔ p ∈ RoomService.participants d
                ∧ Supabase.Participant.id p ≠ participantId)
      ∧ (∀ fresh n rq' roomId,
           (∀ p, p ∈ RoomService.participants d →
                 Supabase.Participant.session_token p ≠ fresh) →
           (RoomService.getCurrentParticipantFromRoom fresh n rq' roomId
              (RoomService.leaveRoom Supabase.Reached rq participantId ls d).1.1.2
              (RoomService.leaveRoom Supabase.Reached rq participantId ls d).1.2).1.1
           = None)
      ∧ (RoomService.leaveRoom Supabase.Reached rq participantId ls d).2
        = match
            filter (λ r, Supabase.Participant.id r = participantId)
              (RoomService.participants d)
          with
          | [p] =>
              [{| Supabase.channel :=
                    "room-updates-" +:+ Supabase.Participant.room_id p;
                  Supabase.event := RoomService.ParticipantLeft participantId |};
               {| Supabase.channel :=
                    "participants-" +:+ Supabase.Participant.room_id p;
                  Supabase.event :=
                    RoomService.ParticipantUpdateLeft participantId |}]
          | _ => []
          end
  | Supabase.Failed e | Supabase.Rejected e =>
      ∀ n, ∃ e',
        RoomService.leaveRoom n rq participantId ls d
        = (Supabase.Throw e', ls, d, [])
  end.
Proof.
  unfold RoomService.leaveRoom.
  destruct (Supabase.net rq) as [|e|e].
  - cbn [Supabase.await fst snd RoomService.participants].
    split; [done|]. split; [|split].
    + intros p. by rewrite list_elem_of_filter, (comm and).
    + intros fresh n rq' roomId Hfresh.
      unfold RoomService.getCurrentParticipantFromRoom.
      cbn [RoomService.getSessionToken RoomService.clearCurrentParticipant
           RoomService.room_session_token RoomService.participants].
      rewrite filter_none; [by destruct n|].
      apply Forall_forall. intros p Hp (_ & Htok & _).
      apply list_elem_of_filter in Hp as [_ Hp]. by apply (Hfresh p).
    + by destruct (filter _ (RoomService.participants d)) as [|p [|q l]].
  - intros n. destruct n as [|e0|e0]; simpl; by eexists.
  - intros n. destruct n as [|e0|e0]; simpl; by eexists.
Qed.

Lemma filter_twice {A} (P : A → Prop) `{∀ x, Decision (P x)} (l : list A) :
  filter P (filter P l) = filter P l.
Proof.
  apply filter_all, Forall_forall. intros x Hx.
  by apply list_elem_of_filter in Hx as [HP _].
Qed.

(** One attempt whose clean-up reaches the store and whose join does not. *)
Lemma tryJoinRoom_join_fails (a : RoomService.Attempt)
    (roomId nickname sessionToken : string) (ls : RoomService.LocalStorage)
    (d : RoomService.Db) :
  Supabase.net (RoomService.room_request a) = Supabase.Reached →
  RoomService.cleanup_net a = Supabase.Reached →
  Supabase.net (RoomService.join_request a) ≠ Supabase.Reached →
  ∃ e d',
    RoomService.tryJoinRoom a roomId nickname sessionToken ls d
    = (Supabase.Throw e, ls, d', [])
    ∧ RoomService.participants d'
      = filter (λ r, ¬ RoomService.holds_nickname_elsewhere roomId nickname
                       sessionToken r)
          (RoomService.participants d).
Proof.
  intros Hroom Hclean Hjoin. unfold RoomService.tryJoinRoom.
  destruct (upsert_room_reached (RoomService.room_request a) roomId d Hroom)
    as (room & rooms' & -> & _).
  cbn [Supabase.data_or_throw Supabase.ok Supabase.error].
  unfold RoomService.delete_nickname. rewrite Hclean.
  unfold RoomService.upsert_participant.
  cbn [RoomService.rooms RoomService.participants].
  destruct (Supabase.net (RoomService.join_request a)) as [|e|e]; [done|..];
    by eexists _, _.
Qed.

(** X24. The clean-up of a join is not undone when the join fails.  If in
    every attempt [joinRoom] may make (five on a mobile browser, three
    elsewhere) the room and the clean-up reach the store and the join
    does not, [joinRoom] throws and announces nothing, no row is added,
    and the rows of other sessions under the nickname in the room are
    deleted all the same. *)
Theorem joinRoom_failed_join_evicts (isMobile : bool) (fresh : string)
    (attempts : nat → RoomService.Attempt) (roomId nickname : string)
    (ls : RoomService.LocalStorage) (d : RoomService.Db) :
  (∀ i, (i < if isMobile then 5 else 3)%nat →
        Supabase.net (RoomService.room_request (attempts i)) = Supabase.Reached
        ∧ RoomService.cleanup_net (attempts i) = Supabase.Reached
        ∧ Supabase.net (RoomService.join_request (attempts i))
          ≠ Supabase.Reached) →
  ∃ e,
    (RoomService.joinRoom isMobile fresh attempts roomId nickname ls d).1.1.1
    = Supabase.Throw e
    ∧ (RoomService.joinRoom isMobile fresh attempts roomId nickname ls d).2 = []
    ∧ RoomService.participants
        (RoomService.joinRoom isMobile fresh attempts roomId nickname ls d).1.2
      = filter (λ r, ¬ RoomService.holds_nickname_elsewhere roomId nickname
                       (RoomService.getSessionToken fresh ls).1 r)
          (RoomService.participants d).
Proof.
  intros Hfail. unfold RoomService.joinRoom.
  destruct (RoomService.getSessionToken fresh ls) as [sessionToken ls0].
  cbn [fst].
  assert (Hattempt : ∀ left retryCount d0,
    (∀ i, (retryCount ≤ i ≤ retryCount + left)%nat →
          Supabase.net (RoomService.room_request (attempts i)) = Supabase.Reached
          ∧ RoomService.cleanup_net (attempts i) = Supabase.Reached
          ∧ Supabase.net (RoomService.join_request (attempts i))
            ≠ Supabase.Reached) →
    ∃ e d',
      RoomService.attemptJoinRoom left retryCount attempts roomId nickname
        sessionToken ls0 d0
      = (Supabase.Throw e, ls0, d', [])
      ∧ RoomService.participants d'
        = filter (λ r, ¬ RoomService.holds_nickname_elsewhere roomId nickname
                         sessionToken r)
            (RoomService.participants d0)).
  { induction left as [|left IH]; intros retryCount d0 Hall.
    - destruct (Hall retryCount) as (H1 & H2 & H3); [lia|].
      destruct (tryJoinRoom_join_fails (attempts retryCount) roomId nickname
                  sessionToken ls0 d0 H1 H2 H3) as (e & d' & Htry & Hd').
      exists e, d'. simpl. by rewrite Htry.
    - destruct (Hall retryCount) as (H1 & H2 & H3); [lia|].
      destruct (tryJoinRoom_join_fails (attempts retryCount) roomId nickname
                  sessionToken ls0 d0 H1 H2 H3) as (e & d1 & Htry & Hd1).
      destruct (IH (S retryCount) d1) as (e' & d' & Hrest & Hd').
      { intros i Hi. apply Hall. lia. }
      exists e', d'. simpl. rewrite Htry. split; [done|].
      by rewrite Hd', Hd1, filter_twice. }
  destruct (Hattempt ((if isMobile then 5 else 3) - 1)%nat 0%nat d)
    as (e & d' & -> & Hd').
  { intros i Hi. apply Hfail. destruct isMobile; lia. }
  cbn. by eexists.
Qed.

(** ** The creation of a session *)

Lemma update_room_last_activity_ids (now : Z) (changed : list Supabase.Participant.t)
    (rooms : list Supabase.Room.t) :
  Supabase.Room.id
    <$> fold_left (RoomService.update_room_last_activity now) changed rooms
  = Supabase.Room.id <$> rooms.
Proof.
  revert rooms. induction changed as [|p changed IH]; intros rooms; simpl;
    [done|].
  rewrite IH. unfold RoomService.update_room_last_activity.
  rewrite <- list_fmap_compose. apply Forall_fmap_ext, Forall_forall.
  intros r _. simpl. by destruct (decide _).
Qed.

Lemma getCurrentParticipantFromRoom_rooms (fresh : string) (n : Supabase.Net)
    (rq : Supabase.Request) (roomId : string) (ls : RoomService.LocalStorage)
    (d : RoomService.Db) :
  Supabase.Room.id
    <$> RoomService.rooms
          (RoomService.getCurrentParticipantFromRoom fresh n rq roomId ls d).2
  = Supabase.Room.id <$> RoomService.rooms d.
Proof.
  unfold RoomService.getCurrentParticipantFromRoom.
  destruct (RoomService.getSessionToken fresh ls) as [sessionToken ls0].
  destruct (Supabase.data_or_throw _) as [[data|]|e]; [|done..].
  simpl. unfold RoomService.updateLastSeen.
  destruct (Supabase.net rq); [|done..].
  apply update_room_last_activity_ids.
Qed.

(** X25. [createGameSession] for a room the store knows, the insert of
    its first attempt reaching the store: a session of the room with
    status [active] is added and returned, and no earlier session is
    ended or changed by it.  Being the newest, it is the session
    [getActiveGameSession] returns for the room from then on. *)
Theorem createGameSession_active (isMobile : bool) (fresh : string)
    (attempts : nat → GameSessions.Attempt) (roomId gameType : string)
    (ls : RoomService.LocalStorage) (rd : RoomService.Db)
    (d : GameService.Db) :
  roomId ∈ Supabase.Room.id <$> RoomService.rooms rd →
  Supabase.net (GameSessions.insert_request (attempts 0%nat))
  = Supabase.Reached →
  (∀ s, s ∈ GameService.game_sessions d →
        GameService.GameSession.created_at s
        < Supabase.clock (GameSessions.insert_request (attempts 0%nat))) →
  ∃ s,
    (GameSessions.createGameSession isMobile fresh attempts roomId gameType
       ls rd d).1.1.1 = Supabase.Return s
    ∧ GameService.GameSession.id s
      = Supabase.uuid (GameSessions.insert_request (attempts 0%nat))
    ∧ GameService.GameSession.room_id s = roomId
    ∧ GameService.GameSession.game_type s = gameType
    ∧ GameService.GameSession.status s = "active"
    ∧ GameService.game_sessions
        (GameSessions.createGameSession isMobile fresh attempts roomId
           gameType ls rd d).2
      = GameService.game_sessions d ++ [s]
    ∧ GameService.getActiveGameSession Supabase.Reached roomId
        (GameSessions.createGameSession isMobile fresh attempts roomId
           gameType ls rd d).2
      = Supabase.Return (Some s).
Proof.
  intros Hroom Hnet Hnewest. unfold GameSessions.createGameSession.
  set (left := ((if isMobile then 3 else 1) - 1)%nat). clearbody left.
  assert (Hattempt : ∃ s ls' rd',
    GameSessions.attemptCreateSession left 0 fresh attempts roomId gameType
      ls rd d
    = (Supabase.Return s, ls', rd',
       GameService.with_game_sessions (GameService.game_sessions d ++ [s]) d)
    ∧ GameService.GameSession.id s
      = Supabase.uuid (GameSessions.insert_request (attempts 0%nat))
    ∧ GameService.GameSession.room_id s = roomId
    ∧ GameService.GameSession.game_type s = gameType
    ∧ GameService.GameSession.status s = "active"
    ∧ GameService.GameSession.created_at s
      = Supabase.clock (GameSessions.insert_request (attempts 0%nat))).
  { pose proof (getCurrentParticipantFromRoom_rooms fresh
                  (GameSessions.caller_net (attempts 0%nat))
                  (GameSessions.seen_request (attempts 0%nat)) roomId ls rd)
      as Hrooms.
    destruct left; simpl.
    all: destruct (RoomService.getCurrentParticipantFromRoom _ _ _ _ _ _)
           as [[who ls1] rd1].
    all: unfold GameSessions.insert_game_session; rewrite Hnet.
    all: cbn [snd] in Hrooms; rewrite bool_decide_eq_true_2
           by by rewrite Hrooms.
    all: by eexists _, _, _. }
  destruct Hattempt as (s & ls' & rd' & -> & Hid & Hr & Ht & Hs & Hc).
  exists s. cbn [fst snd Supabase.try_catch GameService.with_game_sessions
                 GameService.game_sessions].
  repeat (split; [done|]).
  unfold GameService.getActiveGameSession.
  cbn [GameService.game_sessions].
  pose proof
    (newest_row GameService.GameSession.created_at
       (filter (λ r, GameService.GameSession.room_id r = roomId
                     ∧ GameService.GameSession.status r = "active")
          (GameService.game_sessions d ++ [s]))) as Hnew.
  assert (Hs_in : s ∈ filter
                    (λ r, GameService.GameSession.room_id r = roomId
                          ∧ GameService.GameSession.status r = "active")
                    (GameService.game_sessions d ++ [s])).
  { apply list_elem_of_filter. split; [done|].
    apply elem_of_app. right. left. }
  destruct (Supabase.maybeSingle _) as [[s'|] [e|]]; try done; simpl.
  - destruct Hnew as [Hs' Hmax]. do 2 f_equal.
    apply list_elem_of_filter in Hs' as [_ Hs'].
    apply elem_of_app in Hs' as [Hold|Hlast].
    + specialize (Hnewest s' Hold). specialize (Hmax s Hs_in). lia.
    + by apply list_elem_of_singleton in Hlast.
  - rewrite Hnew in Hs_in. by apply elem_of_nil in Hs_in.
Qed.

(** ** The end of a werewolf game *)

(** A session [getActiveSession] returns is a row of the room that is not
    finished, and no such row is newer. *)
Lemma getActiveSession_elem (n : Supabase.Net) (roomId : string)
    (d : WerewolfService.Db) (s : WerewolfService.WerewolfSession.t) :
  WerewolfService.getActiveSession n roomId d = Supabase.Return (Some s) →
  s ∈ WerewolfService.werewolf_sessions d
  ∧ WerewolfService.WerewolfSession.room_id s = roomId
  ∧ WerewolfService.WerewolfSession.phase s ≠ WerewolfService.finished
  ∧ ∀ s', s' ∈ WerewolfService.werewolf_sessions d →
          WerewolfService.WerewolfSession.room_id s' = roomId →
          WerewolfService.WerewolfSession.phase s' ≠ WerewolfService.finished →
          WerewolfService.WerewolfSession.created_at s'
          ≤ WerewolfService.WerewolfSession.created_at s.
Proof.
  unfold WerewolfService.getActiveSession. destruct n as [|e|e]; [|done..].
  pose proof
    (newest_row WerewolfService.WerewolfSession.created_at
       (filter (λ r, WerewolfService.WerewolfSession.room_id r = roomId
                     ∧ WerewolfService.WerewolfSession.phase r
                       ≠ WerewolfService.finished)
          (WerewolfService.werewolf_sessions d))) as Hnew.
  destruct (Supabase.maybeSingle _) as [[s0|] [e|]]; try done; simpl.
  intros [= <-]. destruct Hnew as [Hs Hmax].
  apply list_elem_of_filter in Hs as [[Hroom Hactive] Hs].
  repeat split; try done. intros s' Hs' Hroom' Hactive'. apply Hmax.
  by apply list_elem_of_filter.
Qed.

(** X26. [endSession], its request reaching the store, is final for the
    session: whatever session [getActiveSession] returns afterwards is
    another one, a row of the table as it was, and the newest unfinished
    one of its room.  A request that fails throws and changes nothing. *)
Theorem endSession_final (rq : Supabase.Request) (now : Z)
    (sessionId : string) (d : WerewolfService.Db) :
  match Supabase.net rq with
  | Supabase.Reached =>
      (WerewolfService.endSession rq now sessionId d).1 = Supabase.Return ()
      ∧ ∀ n roomId s,
          WerewolfService.getActiveSession n roomId
            (WerewolfService.endSession rq now sessionId d).2
          = Supabase.Return (Some s) →
          WerewolfService.WerewolfSession.id s ≠ sessionId
          ∧ s ∈ WerewolfService.werewolf_sessions d
          ∧ WerewolfService.WerewolfSession.room_id s = roomId
          ∧ ∀ s', s' ∈ WerewolfService.werewolf_sessions d →
                  WerewolfService.WerewolfSession.id s' ≠ sessionId →
                  WerewolfService.WerewolfSession.room_id s' = roomId →
                  WerewolfService.WerewolfSession.phase s'
                  ≠ WerewolfService.finished →
                  WerewolfService.WerewolfSession.created_at s'
                  ≤ WerewolfService.WerewolfSession.created_at s
  | Supabase.Failed e | Supabase.Rejected e =>
      WerewolfService.endSession rq now sessionId d = (Supabase.Throw e, d)
  end.
Proof.
  unfold WerewolfService.endSession.
  destruct (Supabase.net rq) as [|e|e]; [|done..].
  split; [done|]. intros n roomId s Hget.
  apply getActiveSession_elem in Hget as (Hs & Hroom & Hactive & Hmax).
  cbn [snd WerewolfService.werewolf_sessions] in Hs, Hmax.
  apply list_elem_of_fmap in Hs as (r & Hsr & Hr).
  destruct (decide (WerewolfService.WerewolfSession.id r = sessionId));
    [by subst s|].
  subst s. repeat split; try done.
  intros s' Hs' Hid' Hroom' Hactive'. apply Hmax; try done.
  apply list_elem_of_fmap. exists s'. split; [|done].
  by rewrite decide_False.
Qed.

(** ** The lock, where it holds *)

Lemma run_holder_invariant (trace : list GameService.Event)
    (s0 s : GameService.LockState) :
  GameService.holder_invariant s0 → GameService.run trace s0 = Some s →
  GameService.holder_invariant s.
Proof.
  revert s0. induction trace as [|e trace IH]; intros s0 Hinv Hrun;
    simpl in Hrun.
  - by injection Hrun as <-.
  - destruct (GameService.step s0 e) as [s1|] eqn:Hstep; [|done].
    apply (IH s1); [|done]. by apply (holder_invariant_step s0 s1 e).
Qed.

(** X27. Whatever calls, settlements and timers there were since the
    start, at most one operation started on the lock-taking path is in
    execution under a key, and while it is, a further call under the key
    starts nothing: its operation is put at the end of the key's queue. *)
Theorem withGameLock_queues_behind_holder (trace : list GameService.Event)
    (s : GameService.LockState) (key : string) :
  GameService.run trace GameService.idle = Some s →
  (length (GameService.holders key s) ≤ 1)%nat
  ∧ (GameService.holders key s ≠ [] →
     ∀ operation,
       GameService.executing key (GameService.withGameLock key operation s)
       = GameService.executing key s
       ∧ GameService.waiting key (GameService.withGameLock key operation s)
         = GameService.waiting key s ++ [operation]
       ∧ GameService.timers (GameService.withGameLock key operation s)
         = GameService.timers s).
Proof.
  intros Hrun.
  assert (Hinv : GameService.holder_invariant s).
  { apply (run_holder_invariant trace GameService.idle); [|done].
    intros k. split; [simpl; lia|done]. }
  destruct (Hinv key) as [Hone Hlocked]. split; [done|].
  intros Hholder operation. unfold GameService.withGameLock.
  rewrite (Hlocked Hholder). cbn [default from_option id].
  unfold GameService.executing, GameService.waiting.
  cbn [GameService.running GameService.gameOperationQueues GameService.timers].
  by rewrite lookup_insert_eq.
Qed.

(** ** What a synchro answer looks like *)

Lemma trimStart_head (s : Js.jsstring) :
  match Js.trimStart s with
  | c :: _ => Js.isWhiteSpace c = false
  | [] => True
  end.
Proof.
  induction s as [|c s IH]; simpl; [done|].
  by destruct (Js.isWhiteSpace c) eqn:Hc.
Qed.

Lemma trimStart_suffix (s : Js.jsstring) : ∃ k, s = k ++ Js.trimStart s.
Proof.
  induction s as [|c s [k IH]]; simpl; [by exists []|].
  destruct (Js.isWhiteSpace c).
  - exists (c :: k). simpl. by rewrite <- IH.
  - by exists [].
Qed.

Lemma trimStart_clean (s : Js.jsstring) :
  match s with
  | c :: _ => Js.isWhiteSpace c = false
  | [] => True
  end →
  Js.trimStart s = s.
Proof. destruct s as [|c s]; simpl; [done|]. by intros ->. Qed.

(** [trim] leaves nothing to trim. *)
Lemma trim_trim (s : Js.jsstring) : Js.trim (Js.trim s) = Js.trim s.
Proof.
  unfold Js.trim, Js.trimEnd.
  set (t := Js.trimStart s).
  set (w := Js.trimStart (rev t)).
  pose proof (trimStart_head s) as Ht. fold t in Ht.
  pose proof (trimStart_head (rev t)) as Hw. fold w in Hw.
  destruct (trimStart_suffix (rev t)) as [k Hk]. fold w in Hk.
  assert (Htk : t = rev w ++ rev k).
  { by rewrite <- (rev_involutive t), Hk, rev_app_distr. }
  assert (Hstart : Js.trimStart (rev w) = rev w).
  { apply trimStart_clean. destruct (rev w) as [|c u] eqn:Hu; [done|].
    rewrite Htk in Ht. by simpl in Ht. }
  rewrite Hstart, rev_involutive.
  by rewrite (trimStart_clean w Hw).
Qed.

(** X28. The answers of a synchro round are stored and announced
    trimmed: if every stored answer is non-empty and has no white space
    at either end, the same holds after any [handleSubmitAnswer], and for
    the answer of every message it hands to the channel.  A blank answer
    is never stored. *)
Theorem Synchro_answers_stay_trimmed (rq : Supabase.Request) (roomId : string)
    (c : Synchro.Component) (d : GameService.Db) :
  Forall (λ r, GameService.SynchroResponse.answer r ≠ []
               ∧ Js.trim (GameService.SynchroResponse.answer r)
                 = GameService.SynchroResponse.answer r)
    (GameService.synchro_responses d) →
  Forall (λ r, GameService.SynchroResponse.answer r ≠ []
               ∧ Js.trim (GameService.SynchroResponse.answer r)
                 = GameService.SynchroResponse.answer r)
    (GameService.synchro_responses
       (Synchro.handleSubmitAnswer rq roomId c d).1.2)
  ∧ ∀ m participantId answer,
      m ∈ (Synchro.handleSubmitAnswer rq roomId c d).2 →
      Supabase.event m = Synchro.SynchroAnswerSubmitted participantId answer →
      answer ≠ [] ∧ Js.trim answer = answer.
Proof.
  intros Hd. unfold Synchro.handleSubmitAnswer.
  destruct (Synchro.currentParticipant c) as [me|];
    [|split; [done|by intros m p a Hm; apply elem_of_nil in Hm]].
  destruct (Synchro.hasAnswered c);
    [split; [done|by intros m p a Hm; apply elem_of_nil in Hm]|].
  destruct (Js.falsy (Js.trim (Synchro.currentAnswer c))) eqn:Hblank;
    [split; [done|by intros m p a Hm; apply elem_of_nil in Hm]|].
  destruct (decide (Synchro.questionId (Synchro.gameState c) = ""));
    [split; [done|by intros m p a Hm; apply elem_of_nil in Hm]|].
  assert (Hclean : Js.trim (Synchro.currentAnswer c) ≠ []
                   ∧ Js.trim (Js.trim (Synchro.currentAnswer c))
                     = Js.trim (Synchro.currentAnswer c)).
  { split; [|apply trim_trim].
    by destruct (Js.trim (Synchro.currentAnswer c)). }
  unfold GameService.submitSynchroResponse.
  destruct (Supabase.net rq) as [|e|e];
    [|split; [done|by intros m p a Hm; apply elem_of_nil in Hm]..].
  destruct (decide (GameService.references _ _ _ d)) as [Hrefs|Hrefs];
    [|split; [done|by intros m p a Hm; apply elem_of_nil in Hm]].
  match goal with
  | |- context [Supabase.upsert ?cf ?up ?nw ?rs] =>
      pose proof (upsert_Forall
                    (λ r, GameService.SynchroResponse.answer r ≠ []
                          ∧ Js.trim (GameService.SynchroResponse.answer r)
                            = GameService.SynchroResponse.answer r)
                    cf up nw rs) as Hall;
      destruct (Supabase.upsert cf up nw rs) as [row rows]
  end.
  cbn [fst snd GameService.with_synchro_responses
       GameService.synchro_responses] in *.
  split.
  - apply Hall; [done| |done]. by intros r.
  - intros m p a Hm Hevent. apply list_elem_of_singleton in Hm as ->.
    cbn [Supabase.event] in Hevent. by injection Hevent as _ <-.
Qed.

(** ** The store before the browser *)

(** X29. The ranking component restores a round from the store first.
    When the store names an active session of the room, what the browser
    kept is not looked at and is removed.  What the browser kept is taken
    only when no active session is found, and then only when it was
    written less than thirty minutes ago; older, it is removed and the
    client stays as it is. *)
Theorem Ranking_restore_store_first (ns nq1 nq2 nq3 nr : Supabase.Net)
    (now today : Z) (roomId : string) (c : Ranking.Component)
    (cache : GameService.ResponseCache) (d : GameService.Db)
    (state : Ranking.Stored.t) :
  roomId ≠ "" →
  (∀ s, GameService.getActiveGameSession ns roomId d
        = Supabase.Return (Some s) →
        Ranking.restoreGameState ns nq1 nq2 nq3 nr now today roomId c cache d
          (Some state)
        = Ranking.restoreGameState ns nq1 nq2 nq3 nr now today roomId c cache d
            None
        ∧ (Ranking.restoreGameState ns nq1 nq2 nq3 nr now today roomId c cache
             d (Some state)).2 = None)
  ∧ (GameService.getActiveGameSession ns roomId d = Supabase.Return None →
     (today - Ranking.Stored.timestamp state < 30 * 60 * 1000 →
      Ranking.restoreGameState ns nq1 nq2 nq3 nr now today roomId c cache d
        (Some state)
      = ({| Ranking.gameState := Ranking.Stored.gameState state;
            Ranking.currentQuestion := Ranking.Stored.currentQuestion state;
            Ranking.selectedRank :=
              Ranking.rank_or_null (Ranking.Stored.selectedRank state);
            Ranking.hasAnswered := Ranking.Stored.hasAnswered state;
            Ranking.isQuestioner := Ranking.Stored.isQuestioner state;
            Ranking.currentParticipant := Ranking.currentParticipant c;
            Ranking.currentGameSessionId := Ranking.Stored.sessionId state;
            Ranking.gameParticipants := Ranking.gameParticipants c |},
         cache, Some state))
     ∧ (30 * 60 * 1000 ≤ today - Ranking.Stored.timestamp state →
        Ranking.restoreGameState ns nq1 nq2 nq3 nr now today roomId c cache d
          (Some state)
        = (c, cache, None))).
Proof.
  intros Hroom. unfold Ranking.restoreGameState.
  rewrite !decide_False by done. split.
  - intros s ->.
    destruct (Ranking.restoreFromStore _ _ _ _ _ _ _ _ _) as [c1 cache1].
    by rewrite andb_false_r.
  - intros ->. cbn [Ranking.restoreFromStore]. split; intros Hage.
    + by rewrite bool_decide_eq_true_2 by done.
    + by rewrite bool_decide_eq_false_2 by lia.
Qed.

(** ** Sender and peers *)

(** X30. An answer reaches the peers as the sender keeps it.  A peer whose
    answer map equals the sender's before a [handleAnswer],
    [handleSubmitRank], [handleSubmitAnswer] or [handleVote], and who
    receives the messages the handler sent, has the sender's answer map
    afterwards, whether the handler stored the answer or gave up. *)
Theorem answers_converge (roomId : string) :
  (∀ isMobile calls answer c peer d,
     Survey.responses (Survey.gameState peer)
     = Survey.responses (Survey.gameState c) →
     Survey.responses
       (Survey.gameState
          (fold_left (λ p m, Survey.receive roomId m p)
             (Survey.handleAnswer isMobile calls roomId answer c d).2 peer))
     = Survey.responses
         (Survey.gameState
            (Survey.handleAnswer isMobile calls roomId answer c d).1.1))
  ∧ (∀ rq c peer d,
       Ranking.responses (Ranking.gameState peer)
       = Ranking.responses (Ranking.gameState c) →
       Ranking.responses
         (Ranking.gameState
            (fold_left (λ p m, Ranking.receive roomId m p)
               (Ranking.handleSubmitRank rq roomId c d).2 peer))
       = Ranking.responses
           (Ranking.gameState (Ranking.handleSubmitRank rq roomId c d).1.1))
  ∧ (∀ rq c peer d,
       Synchro.responses (Synchro.gameState peer)
       = Synchro.responses (Synchro.gameState c) →
       Synchro.responses
         (Synchro.gameState
            (fold_left (λ p m, Synchro.receive roomId m p)
               (Synchro.handleSubmitAnswer rq roomId c d).2 peer))
       = Synchro.responses
           (Synchro.gameState (Synchro.handleSubmitAnswer rq roomId c d).1.1))
  ∧ (∀ n1 n2 rq rq' targetId c peer d d0,
       Werewolf.votes (Werewolf.gameState peer)
       = Werewolf.votes (Werewolf.gameState c) →
       Werewolf.votes
         (Werewolf.gameState
            (fold_left
               (λ p m, (Werewolf.receive n1 n2 rq' roomId m p d0).1.1)
               (Werewolf.handleVote rq roomId targetId c d).2 peer))
       = Werewolf.votes
           (Werewolf.gameState (Werewolf.handleVote rq roomId targetId c d).1.1)).
Proof.
  split; [|split; [|split]].
  - intros isMobile calls answer c peer d Heq. unfold Survey.handleAnswer.
    destruct (Survey.currentParticipant c) as [me|]; [|done].
    destruct (Survey.hasAnswered c); [done|].
    destruct (decide (Survey.questionId (Survey.gameState c) = "")); [done|].
    destruct (GameService.submitResponse _ _ _ _ _ _) as [[row|e] d'];
      [|done].
    cbn [fst snd fold_left]. unfold Survey.receive.
    cbn [Supabase.channel Supabase.event]. rewrite decide_True by done.
    cbn. by rewrite Heq.
  - intros rq c peer d Heq. unfold Ranking.handleSubmitRank.
    destruct (Ranking.currentParticipant c) as [me|]; [|done].
    destruct (Ranking.selectedRank c) as [rank|]; [|done].
    destruct (Ranking.hasAnswered c); [done|].
    destruct (decide (Ranking.questionId (Ranking.gameState c) = "")); [done|].
    destruct (GameService.submitRankingResponse _ _ _ _ _) as [[row|e] d'];
      [|done].
    cbn [fst snd fold_left]. unfold Ranking.receive.
    cbn [Supabase.channel Supabase.event]. rewrite decide_True by done.
    cbn. by rewrite Heq.
  - intros rq c peer d Heq. unfold Synchro.handleSubmitAnswer.
    destruct (Synchro.currentParticipant c) as [me|]; [|done].
    destruct (Synchro.hasAnswered c); [done|].
    destruct (Js.falsy _); [done|].
    destruct (decide (Synchro.questionId (Synchro.gameState c) = "")); [done|].
    destruct (GameService.submitSynchroResponse _ _ _ _ _) as [[row|e] d'];
      [|done].
    cbn [fst snd fold_left]. unfold Synchro.receive.
    cbn [Supabase.channel Supabase.event]. rewrite decide_True by done.
    cbn. by rewrite Heq.
  - intros n1 n2 rq rq' targetId c peer d d0 Heq. unfold Werewolf.handleVote.
    destruct (Werewolf.currentParticipant c) as [me|]; [|done].
    destruct (Werewolf.session (Werewolf.gameState c)) as [s|]; [|done].
    destruct (Werewolf.hasVoted c); [done|].
    destruct (WerewolfService.submitVote _ _ _ _ _ _) as [[row|e] d'];
      [|done].
    cbn [fst snd fold_left]. unfold Werewolf.receive.
    cbn [Supabase.channel Supabase.event]. rewrite decide_True by done.
    cbn. by rewrite Heq.
Qed.

(** ** The properties above at the rounds of [Scenario] *)

Lemma getQuestionResponses_cache_window_witness :
  (GameService.getQuestionResponses Supabase.Reached 1000 "q1"
     GameService.no_cache GameService.empty_db).1
  = Supabase.Return
      (filter (λ r, GameService.GameResponse.question_id r = "q1")
         (GameService.game_responses GameService.empty_db))
  ∧ (2500 - 1000 < GameService.CACHE_DURATION →
     GameService.getQuestionResponses Supabase.Reached 2500 "q1"
       (GameService.getQuestionResponses Supabase.Reached 1000 "q1"
          GameService.no_cache GameService.empty_db).2
       (Scenario.survey_alice_answers.1.2)
     = GameService.getQuestionResponses Supabase.Reached 1000 "q1"
         GameService.no_cache GameService.empty_db)
  ∧ (GameService.CACHE_DURATION ≤ 2500 - 1000 →
     (GameService.getQuestionResponses Supabase.Reached 2500 "q1"
        (GameService.getQuestionResponses Supabase.Reached 1000 "q1"
           GameService.no_cache GameService.empty_db).2
        (Scenario.survey_alice_answers.1.2)).1
     = Supabase.Return
         (filter (λ r, GameService.GameResponse.question_id r = "q1")
            (GameService.game_responses (Scenario.survey_alice_answers.1.2)))).
Proof.
  apply (getQuestionResponses_cache_window 1000 2500 "q1" GameService.no_cache
           GameService.empty_db (Scenario.survey_alice_answers.1.2)
           Supabase.Reached).
  reflexivity.
Defined.

Lemma getQuestionResponses_failure_not_cached_witness :
  GameService.getQuestionResponses (Supabase.net (Scenario.failing 1000)) 1000
    "q1" GameService.no_cache (Scenario.survey_alice_answers.1.2)
  = (Supabase.Return [], GameService.no_cache)
  ∧ (GameService.getQuestionResponses Supabase.Reached 1001 "q1"
       (GameService.getQuestionResponses
          (Supabase.net (Scenario.failing 1000)) 1000 "q1"
          GameService.no_cache (Scenario.survey_alice_answers.1.2)).2
       (Scenario.survey_alice_answers.1.2)).1
    = Supabase.Return
        (filter (λ r, GameService.GameResponse.question_id r = "q1")
           (GameService.game_responses (Scenario.survey_alice_answers.1.2))).
Proof.
  apply (getQuestionResponses_failure_not_cached
           (Supabase.net (Scenario.failing 1000)) 1000 1001 "q1"
           GameService.no_cache (Scenario.survey_alice_answers.1.2)).
  - discriminate.
  - reflexivity.
  - reflexivity.
Defined.

Lemma clearResponseCache_forgets_question_witness :
  (GameService.getQuestionResponses Supabase.Reached 1500 "q1"
     (GameService.clearResponseCache (Some "q1") (Scenario.survey_bob_restores.2))
     (Scenario.survey_alice_answers.1.2)).1
  = Supabase.Return
      (filter (λ r, GameService.GameResponse.question_id r = "q1")
         (GameService.game_responses (Scenario.survey_alice_answers.1.2))).
Proof.
  apply (clearResponseCache_forgets_question 1500 "q1"
           (Scenario.survey_bob_restores.2) (Scenario.survey_alice_answers.1.2)).
  discriminate.
Defined.

Lemma Survey_reveal_failed_read_witness :
  Survey.responses
    (Survey.gameState
       (Survey.handleShowResults (Supabase.net (Scenario.failing 2500)) 2500
          "room1" (Scenario.survey_carol_view true false) GameService.no_cache
          (Scenario.survey_alice_answers.1.2)).1.1)
  = Js.Obj.empty
  ∧ Survey.totalResponses
      (Survey.gameState (Scenario.survey_carol_view true false)) = 2%nat.
Proof.
  split; [|reflexivity].
  apply (Survey_reveal_failed_read (Supabase.net (Scenario.failing 2500)) 2500
           "room1" (Scenario.survey_carol_view true false) GameService.no_cache
           (Scenario.survey_alice_answers.1.2)).
  - discriminate.
  - vm_compute. discriminate.
  - reflexivity.
Defined.

Lemma Survey_answers_once_witness :
  Survey.handleAnswer false (λ _, Scenario.reaching "r3" 1600) "room1" false
    (Scenario.survey_alice_answers.1.1) (Scenario.survey_alice_answers.1.2)
  = (Scenario.survey_alice_answers.1.1, Scenario.survey_alice_answers.1.2, []).
Proof.
  apply (Survey_answers_once false false (λ _, Scenario.reaching "r1" 1500)
           (λ _, Scenario.reaching "r3" 1600) "room1" true false
           (Scenario.survey_start Scenario.alice) Scenario.survey_round).
  vm_compute. discriminate.
Defined.

Lemma Survey_restore_from_store_witness :
  Survey.hasAnswered
    (Survey.restoreGameState Supabase.Reached Supabase.Reached Supabase.Reached
       Supabase.Reached Supabase.Reached 3000 "room1"
       (Scenario.survey_reloaded Scenario.alice) GameService.no_cache
       Scenario.survey_db).1
  = true
  ∧ Survey.hasAnswered
      (Survey.restoreGameState Supabase.Reached Supabase.Reached
         Supabase.Reached Supabase.Reached Supabase.Reached 3000 "room1"
         (Scenario.survey_reloaded Scenario.bob) GameService.no_cache
         Scenario.survey_db).1
    = false.
Proof.
  split; [|vm_compute; reflexivity].
  destruct (Survey_restore_from_store Supabase.Reached Supabase.Reached
              Supabase.Reached Supabase.Reached 3000 "room1"
              (Scenario.survey_reloaded Scenario.alice) GameService.no_cache
              Scenario.survey_db Scenario.alice Scenario.survey_session
              {| GameService.gameQuestions := [Scenario.survey_question];
                 GameService.rankingQuestions := [];
                 GameService.synchroQuestions := [] |}
              Scenario.survey_question [])
    as (_ & _ & _ & _ & _ & _ & Hanswered).
  - discriminate.
  - discriminate.
  - reflexivity.
  - vm_compute. reflexivity.
  - reflexivity.
  - vm_compute. reflexivity.
  - reflexivity.
  - reflexivity.
  - apply Hanswered.
    exists {| GameService.GameResponse.id := "r1";
              GameService.GameResponse.question_id := "q1";
              GameService.GameResponse.participant_id := "a11ce";
              GameService.GameResponse.response := true;
              GameService.GameResponse.created_at := 1500 |}.
    split; [vm_compute; left|split; reflexivity].
Defined.

(** In [Scenario.werewolf_votes_against_alice] alice, with two of the
    three votes, is the one participant at the maximum. *)
Lemma alice_holds_maximum :
  Werewolf.holds_maximum
    (WerewolfService.werewolf_votes Scenario.werewolf_votes_against_alice)
    "a11ce"
  ∧ ∀ b, Werewolf.holds_maximum
           (WerewolfService.werewolf_votes
              Scenario.werewolf_votes_against_alice) b →
         b = "a11ce".
Proof.
  split.
  - apply eliminatedCandidates_spec. vm_compute. left.
  - intros b Hb. apply eliminatedCandidates_spec in Hb. vm_compute in Hb.
    by apply list_elem_of_singleton in Hb.
Qed.

Lemma Werewolf_unique_maximum_witness :
  Werewolf.handleShowResults Supabase.Reached Supabase.Reached
    (Scenario.reaching "u1" 30) "room1"
    (Scenario.werewolf_client WerewolfService.vote 1 Scenario.carol)
    Scenario.werewolf_votes_against_alice
  = (Scenario.werewolf_client WerewolfService.vote 1 Scenario.carol,
     (Werewolf.handlePhaseChange (Scenario.reaching "u1" 30) "room1" "w1"
        WerewolfService.reverse_chance Scenario.werewolf_votes_against_alice).1,
     [{| Supabase.channel := Werewolf.channelName "room1";
         Supabase.event :=
           Werewolf.WerewolfPhaseChange WerewolfService.reverse_chance |}]).
Proof.
  destruct alice_holds_maximum as [Hmax Honly].
  apply (Werewolf_unique_maximum Supabase.Reached Supabase.Reached
           (Scenario.reaching "u1" 30) "room1"
           (Scenario.werewolf_client WerewolfService.vote 1 Scenario.carol)
           Scenario.werewolf_votes_against_alice
           (Scenario.werewolf_session WerewolfService.vote)
           (WerewolfService.werewolf_votes Scenario.werewolf_votes_against_alice)
           (WerewolfService.werewolf_assignments
              Scenario.werewolf_votes_against_alice)
           "a11ce" WerewolfService.werewolf).
  - reflexivity.
  - vm_compute. reflexivity.
  - vm_compute. reflexivity.
  - exact Hmax.
  - exact Honly.
  - exists (Scenario.werewolf_assignment Scenario.alice).
    split; [vm_compute; left|reflexivity].
  - intros row Hrow Hid. vm_compute in Hrow.
    apply elem_of_cons in Hrow as [->|Hrow]; [reflexivity|].
    apply elem_of_cons in Hrow as [->|Hrow]; [discriminate Hid|].
    apply list_elem_of_singleton in Hrow as ->. discriminate Hid.
Defined.

Lemma Werewolf_tally_failed_reads_witness :
  Werewolf.winner
    (Werewolf.gameResult
       (Werewolf.gameState
          (Werewolf.handleShowResults Supabase.Reached
             (Supabase.net (Scenario.failing 30)) (Scenario.reaching "u1" 30)
             "room1"
             (Scenario.werewolf_client WerewolfService.vote 1 Scenario.carol)
             Scenario.werewolf_votes_against_alice).1.1))
  = Some WerewolfService.werewolf.
Proof.
  destruct alice_holds_maximum as [Hmax Honly].
  destruct (Werewolf_tally_failed_reads Supabase.Reached
              (Supabase.net (Scenario.failing 30)) (Scenario.reaching "u1" 30)
              "room1"
              (Scenario.werewolf_client WerewolfService.vote 1 Scenario.carol)
              Scenario.werewolf_votes_against_alice
              (Scenario.werewolf_session WerewolfService.vote)
              (WerewolfService.werewolf_votes
                 Scenario.werewolf_votes_against_alice)
              "a11ce") as [Hrun _].
  - discriminate.
  - reflexivity.
  - vm_compute. reflexivity.
  - exact Hmax.
  - exact Honly.
  - rewrite Hrun. reflexivity.
Defined.

Lemma Werewolf_phase_button_quorum_witness :
  (Werewolf.receive Supabase.Reached Supabase.Reached
     (Scenario.reaching "u1" 30) "room1"
     {| Supabase.channel := Werewolf.channelName "room1";
        Supabase.event := Werewolf.WerewolfPhaseButtonClick "a11ce" |}
     Scenario.werewolf_bob_clicked
     (Scenario.werewolf_db WerewolfService.talk)).2
  = [{| Supabase.channel := Werewolf.channelName "room1";
        Supabase.event := Werewolf.WerewolfPhaseChange WerewolfService.vote |}]
  ∧ (Werewolf.receive Supabase.Reached Supabase.Reached
       (Scenario.reaching "u1" 30) "room1"
       {| Supabase.channel := Werewolf.channelName "room1";
          Supabase.event := Werewolf.WerewolfPhaseButtonClick "b0b" |}
       Scenario.werewolf_bob_clicked
       (Scenario.werewolf_db WerewolfService.talk)).2
    = [].
Proof.
  split.
  - destruct (Werewolf_phase_button_quorum Supabase.Reached Supabase.Reached
                (Scenario.reaching "u1" 30) "room1" "a11ce"
                Scenario.werewolf_bob_clicked
                (Scenario.werewolf_db WerewolfService.talk)
                (Scenario.werewolf_session WerewolfService.talk))
      as [Hsecond _].
    + apply NoDup_singleton.
    + reflexivity.
    + reflexivity.
    + apply Hsecond. exists "b0b". split; [left|discriminate].
  - destruct (Werewolf_phase_button_quorum Supabase.Reached Supabase.Reached
                (Scenario.reaching "u1" 30) "room1" "b0b"
                Scenario.werewolf_bob_clicked
                (Scenario.werewolf_db WerewolfService.talk)
                (Scenario.werewolf_session WerewolfService.talk))
      as [_ Hsame].
    + apply NoDup_singleton.
    + reflexivity.
    + reflexivity.
    + apply Hsame. intros other Hother.
      by apply list_elem_of_singleton in Hother.
Defined.

Lemma Werewolf_press_once_witness :
  Werewolf.handlePhaseButtonClick (Scenario.reaching "u2" 31) "room1"
    (Werewolf.handlePhaseButtonClick (Scenario.reaching "u1" 30) "room1"
       Scenario.werewolf_bob_clicked
       (Scenario.werewolf_db WerewolfService.talk)).1.1
    (Werewolf.handlePhaseButtonClick (Scenario.reaching "u1" 30) "room1"
       Scenario.werewolf_bob_clicked
       (Scenario.werewolf_db WerewolfService.talk)).1.2
  = ((Werewolf.handlePhaseButtonClick (Scenario.reaching "u1" 30) "room1"
        Scenario.werewolf_bob_clicked
        (Scenario.werewolf_db WerewolfService.talk)).1.1,
     (Werewolf.handlePhaseButtonClick (Scenario.reaching "u1" 30) "room1"
        Scenario.werewolf_bob_clicked
        (Scenario.werewolf_db WerewolfService.talk)).1.2, []).
Proof.
  apply (Werewolf_press_once (Scenario.reaching "u1" 30)
           (Scenario.reaching "u2" 31) "room1" Scenario.werewolf_bob_clicked
           (Scenario.werewolf_db WerewolfService.talk) Scenario.carol);
    reflexivity.
Defined.

Lemma Werewolf_one_vote_per_round_witness :
  WerewolfService.WerewolfVote.target_id
    <$> filter (λ r, WerewolfService.WerewolfVote.session_id r = "w1"
                     ∧ WerewolfService.WerewolfVote.voter_id r = "ca401"
                     ∧ WerewolfService.WerewolfVote.vote_round r = 1)
          (WerewolfService.werewolf_votes
             (WerewolfService.submitVotes [Scenario.werewolf_carol_votes_again]
                Scenario.werewolf_votes_against_alice))
  = ["b0b"].
Proof.
  apply (Werewolf_one_vote_per_round []
           Scenario.werewolf_carol_votes_again
           Scenario.werewolf_votes_against_alice).
  - vm_compute. repeat (apply NoDup_cons; split;
      [rewrite ?elem_of_cons; rewrite ?elem_of_nil; intros H;
       repeat destruct H as [H|H]; discriminate H || done|]).
    apply NoDup_nil_2.
  - reflexivity.
  - discriminate.
  - apply (bool_decide_unpack _). vm_compute. exact I.
Defined.





Lemma lobby_tokens :
  NoDup (Supabase.Participant.session_token
           <$> RoomService.participants Scenario.lobby).
Proof.
  vm_compute. apply NoDup_cons. split.
  - intros H. apply list_elem_of_singleton in H. discriminate H.
  - apply NoDup_singleton.
Qed.

Lemma joinRoom_then_current_witness :
  ∃ row ls' d' sent,
    RoomService.joinRoom false "unused" Scenario.all_reach "room1" "alice"
      Scenario.alice_browser Scenario.lobby
    = (Supabase.Return row, ls', d', sent)
    ∧ (RoomService.getCurrentParticipantFromRoom "unused" Supabase.Reached
         (Scenario.reaching "unused" 55) "room1" ls' d').1.1
      = Some row.
Proof.
  destruct (joinRoom_then_current false "unused" Scenario.all_reach "room1"
              "alice" Scenario.alice_browser Scenario.lobby lobby_tokens
              eq_refl eq_refl eq_refl)
    as (row & ls' & d' & sent & Hjoin & Hcurrent).
  exists row, ls', d', sent. split; [exact Hjoin|].
  by rewrite Hcurrent.
Defined.

Lemma joinRoom_again_keeps_id_witness :
  ∃ row ls' d' sent,
    RoomService.joinRoom false "unused" Scenario.all_reach "room1" "bobby"
      Scenario.bob_browser Scenario.lobby
    = (Supabase.Return row, ls', d', sent)
    ∧ Supabase.Participant.id row = "b0b"
    ∧ Supabase.Participant.nickname row = "bobby".
Proof.
  destruct (joinRoom_again_keeps_id false "unused" Scenario.all_reach "room1"
              "bobby" Scenario.bob_browser Scenario.lobby Scenario.bob
              lobby_tokens eq_refl eq_refl eq_refl)
    as (row & ls' & d' & sent & Hjoin & Hid & _ & Hnick & _).
  - vm_compute. right. left.
  - reflexivity.
  - by exists row, ls', d', sent.
Defined.

Lemma joinRoom_failed_join_evicts_witness :
  Supabase.Participant.nickname
    <$> RoomService.participants
          (RoomService.joinRoom false "unused" Scenario.join_fails "room1"
             "alice" Scenario.alice_browser Scenario.lobby).1.2
  = ["bob"].
Proof.
  destruct (joinRoom_failed_join_evicts false "unused" Scenario.join_fails
              "room1" "alice" Scenario.alice_browser Scenario.lobby)
    as (e & _ & _ & Hrows).
  - intros i _. repeat split. discriminate.
  - rewrite Hrows. vm_compute. reflexivity.
Defined.

Lemma createGameSession_active_witness :
  ∃ s,
    GameService.getActiveGameSession Supabase.Reached "room1"
      (GameSessions.createGameSession false "unused" Scenario.create_reaches
         "room1" "ranking" Scenario.alice_browser Scenario.lobby
         Scenario.survey_db).2
    = Supabase.Return (Some s)
    ∧ GameService.GameSession.id s = "s2"
    ∧ GameService.GameSession.game_type s = "ranking".
Proof.
  destruct (createGameSession_active false "unused" Scenario.create_reaches
              "room1" "ranking" Scenario.alice_browser Scenario.lobby
              Scenario.survey_db)
    as (s & _ & Hid & _ & Htype & _ & _ & Hactive).
  - vm_compute. left.
  - reflexivity.
  - intros s Hs. vm_compute in Hs. apply list_elem_of_singleton in Hs as ->.
    reflexivity.
  - by exists s.
Defined.

Lemma withGameLock_queues_behind_holder_witness :
  ∃ s,
    GameService.run Scenario.lock_late_arrival GameService.idle = Some s
    ∧ GameService.waiting Scenario.lock_key
        (GameService.withGameLock Scenario.lock_key 4 s)
      = GameService.waiting Scenario.lock_key s ++ [4%nat]
    ∧ GameService.executing Scenario.lock_key
        (GameService.withGameLock Scenario.lock_key 4 s)
      = [2%nat; 3%nat].
Proof.
  destruct (GameService.run Scenario.lock_late_arrival GameService.idle)
    as [s|] eqn:Hrun; [|vm_compute in Hrun; discriminate Hrun].
  exists s. split; [reflexivity|].
  destruct (withGameLock_queues_behind_holder Scenario.lock_late_arrival s
              Scenario.lock_key Hrun) as [_ Hqueued].
  destruct (Hqueued) with (operation := 4%nat) as (Hexec & Hwait & _).
  - vm_compute in Hrun. injection Hrun as <-. vm_compute. discriminate.
  - split; [exact Hwait|]. rewrite Hexec.
    vm_compute in Hrun. injection Hrun as <-. vm_compute. reflexivity.
Defined.

Lemma Synchro_answers_stay_trimmed_witness :
  Forall (λ r, GameService.SynchroResponse.answer r ≠ []
               ∧ Js.trim (GameService.SynchroResponse.answer r)
                 = GameService.SynchroResponse.answer r)
    (GameService.synchro_responses Scenario.synchro_bob_submits.1.2).
Proof.
  apply (Synchro_answers_stay_trimmed (Scenario.reaching "r2" 11) "room1"
           (Synchro.with_currentAnswer Scenario.typed_by_bob
              (Scenario.synchro_start Scenario.bob))
           (Scenario.synchro_alice_submits.1.2)).
  vm_compute. apply Forall_cons. split; [|apply Forall_nil_2].
  split; [discriminate|reflexivity].
Defined.

Lemma Ranking_restore_store_first_witness :
  (Ranking.restoreGameState Supabase.Reached Supabase.Reached Supabase.Reached
     Supabase.Reached Supabase.Reached 3000 3000 "room1"
     (Scenario.ranking_start Scenario.alice) GameService.no_cache
     Scenario.survey_db (Some (Scenario.ranking_kept 2000))).2
  = None
  ∧ Ranking.hasAnswered
      (Ranking.restoreGameState Supabase.Reached Supabase.Reached
         Supabase.Reached Supabase.Reached Supabase.Reached 3000 3000 "room1"
         (Scenario.ranking_start Scenario.alice) GameService.no_cache
         GameService.empty_db (Some (Scenario.ranking_kept 2000))).1.1
    = true.
Proof.
  split.
  - destruct (Ranking_restore_store_first Supabase.Reached Supabase.Reached
                Supabase.Reached Supabase.Reached Supabase.Reached 3000 3000
                "room1" (Scenario.ranking_start Scenario.alice)
                GameService.no_cache Scenario.survey_db
                (Scenario.ranking_kept 2000)) as [Hstore _]; [discriminate|].
    apply (Hstore Scenario.survey_session). vm_compute. reflexivity.
  - destruct (Ranking_restore_store_first Supabase.Reached Supabase.Reached
                Supabase.Reached Supabase.Reached Supabase.Reached 3000 3000
                "room1" (Scenario.ranking_start Scenario.alice)
                GameService.no_cache GameService.empty_db
                (Scenario.ranking_kept 2000)) as [_ Hkept]; [discriminate|].
    destruct Hkept as [Hfresh _]; [vm_compute; reflexivity|].
    rewrite Hfresh by (vm_compute; reflexivity). reflexivity.
Defined.
